(** * genai-rag-agent: chunker, vector index, tool registry and agent loop

    A shallow embedding of the core of the repository
    ([src/rag/document_processor.py], [src/rag/embeddings.py],
    [src/rag/pipeline.py], [src/agent/tools.py], [src/agent/agent.py])
    and the properties of it that the specification states.

    Conventions.
    - A Python [int] is a [Z]; [len] returns a [Z].
    - A Python [str] is a [string]; its characters are the code points
      below 256, classified as Python classifies them ([str.isspace],
      the [\s] and [\w] classes of [re]).
    - A Python [float] is a binary64 [float].
    - A call that can raise returns a [result]; the exception classes
      are those the modelled code can meet.
    - Library code the repository calls but does not contain
      ([json.loads], [json.dumps], [str()], [eval], the language model,
      the sentence encoder, the Chroma collection) enters as Section
      variables. *)

From Stdlib Require Import ZArith List String Ascii Bool Lia Floats DecimalString DecimalNat.
Import ListNotations.
Local Open Scope list_scope.
Local Open Scope string_scope.
Local Open Scope Z_scope.

(* ================================================================== *)
(** ** Python values, exceptions and results *)
(* ================================================================== *)

Inductive exn_class : Type :=
| KeyError | TypeError | ValueError | IndexError | AttributeError
| LibraryError.   (* any other [Exception] raised by library code *)

Inductive exn : Type := Exn (cls : exn_class) (msg : string).

Definition exn_msg (e : exn) : string := let 'Exn _ m := e in m.

(** The outcome of a call: a value, or a raised exception. *)
Inductive result (A : Type) : Type :=
| Ok (a : A)
| Raise (e : exn).
Arguments Ok {A} a.
Arguments Raise {A} e.

Definition rbind {A B : Type} (r : result A) (k : A -> result B) : result B :=
  match r with
  | Ok a => k a
  | Raise e => Raise e
  end.

Declare Scope result_scope.
Delimit Scope result_scope with result.
Notation "x <- c ;; k" := (rbind c (fun x => k))
  (at level 61, c at next level, right associativity) : result_scope.

(** Python objects as far as the modelled code handles them: what
    [json.loads] produces, plus [PObject] for any other object (a
    function, a complex number, ...), known by a description only. *)
#[warnings="-register-all"]
Inductive pyval : Type :=
| PNone
| PBool (b : bool)
| PInt (z : Z)
| PFloat (f : float)
| PStr (s : string)
| PList (l : list pyval)
| PDict (d : list (string * pyval))
| PObject (descr : string).

Definition pydict : Type := list (string * pyval).

Definition len {A : Type} (l : list A) : Z := Z.of_nat (List.length l).
Definition str_len (s : string) : Z := Z.of_nat (String.length s).

(** Truth value of an object ([bool(v)]). *)
Definition py_bool (v : pyval) : bool :=
  match v with
  | PNone => false
  | PBool b => b
  | PInt z => negb (z =? 0)
  | PFloat f => negb (PrimFloat.eqb f 0%float)
  | PStr s => negb (String.eqb s "")
  | PList l => match l with [] => false | _ => true end
  | PDict d => match d with [] => false | _ => true end
  | PObject _ => true
  end.

(** [a or b] *)
Definition py_or (a b : pyval) : pyval := if py_bool a then a else b.

(** A [dict] keeps insertion order; assigning to a present key keeps
    the key's place. *)
Fixpoint dict_get {V : Type} (k : string) (d : list (string * V)) : option V :=
  match d with
  | [] => None
  | (k', v) :: d' => if String.eqb k k' then Some v else dict_get k d'
  end.

Fixpoint dict_set {V : Type} (k : string) (v : V) (d : list (string * V))
  : list (string * V) :=
  match d with
  | [] => [(k, v)]
  | (k', v') :: d' =>
      if String.eqb k k' then (k, v) :: d' else (k', v') :: dict_set k v d'
  end.

Definition dict_mem {V : Type} (k : string) (d : list (string * V)) : bool :=
  match dict_get k d with Some _ => true | None => false end.

Definition dict_keys {V : Type} (d : list (string * V)) : list string :=
  map fst d.

(* ================================================================== *)
(** ** [str] operations *)
(* ================================================================== *)

Definition code (c : ascii) : Z := Z.of_nat (nat_of_ascii c).

(** [str.isspace] on one character; also the class [\s]. *)
Definition is_space (c : ascii) : bool :=
  let n := code c in
  ((9 <=? n) && (n <=? 13)) || ((28 <=? n) && (n <=? 32))
  || (n =? 133) || (n =? 160).

(** The class [\w]: alphanumeric characters and the underscore. *)
Definition is_word (c : ascii) : bool :=
  let n := code c in
  ((48 <=? n) && (n <=? 57)) || ((65 <=? n) && (n <=? 90))
  || (n =? 95) || ((97 <=? n) && (n <=? 122))
  || (n =? 170) || (n =? 178) || (n =? 179) || (n =? 181)
  || (n =? 185) || (n =? 186) || ((188 <=? n) && (n <=? 190))
  || ((192 <=? n) && (n <=? 214)) || ((216 <=? n) && (n <=? 246))
  || ((248 <=? n) && (n <=? 255)).

Definition str_nonempty (s : string) : bool :=
  match s with EmptyString => false | String _ _ => true end.

Definition snoc (s : string) (c : ascii) : string := s ++ String c EmptyString.

(** [s.split()]: the maximal runs of non-whitespace characters.
    [cur] is the run being read. *)
Fixpoint split_ws (cur s : string) : list string :=
  match s with
  | EmptyString => if str_nonempty cur then [cur] else []
  | String c s' =>
      if is_space c
      then (if str_nonempty cur then cur :: split_ws "" s' else split_ws "" s')
      else split_ws (snoc cur c) s'
  end.

Definition py_split (s : string) : list string := split_ws "" s.

(** [sep.join(words)] *)
Definition py_join (sep : string) (words : list string) : string :=
  String.concat sep words.

Fixpoint lstrip (s : string) : string :=
  match s with
  | EmptyString => EmptyString
  | String c s' => if is_space c then lstrip s' else s
  end.

Fixpoint rstrip (s : string) : string :=
  match s with
  | EmptyString => EmptyString
  | String c s' =>
      match rstrip s' with
      | EmptyString => if is_space c then EmptyString else String c EmptyString
      | r => String c r
      end
  end.

(** [s.strip()] *)
Definition py_strip (s : string) : string := rstrip (lstrip s).

(** [s.split(sep)] for a separator of two characters [a b]. *)
Fixpoint split_sep2 (a b : ascii) (cur s : string) : list string :=
  match s with
  | EmptyString => [cur]
  | String c s1 =>
      match s1 with
      | String d s2 =>
          if Ascii.eqb c a && Ascii.eqb d b
          then cur :: split_sep2 a b "" s2
          else split_sep2 a b (snoc cur c) s1
      | EmptyString => [snoc cur c]
      end
  end.

Definition newline : ascii := ascii_of_nat 10.
Definition nl : string := String newline EmptyString.

(** [sub in s] *)
Fixpoint contains (sub s : string) : bool :=
  String.prefix sub s
  || match s with
     | EmptyString => false
     | String _ s' => contains sub s'
     end.

(** [s.find(sub)], counting from index [i] of the whole string. *)
Fixpoint find_from (sub s : string) (i : Z) : Z :=
  if String.prefix sub s then i
  else match s with
       | EmptyString => -1
       | String _ s' => find_from sub s' (i + 1)
       end.

Definition py_find (sub s : string) : Z := find_from sub s 0.

(** [s.rfind(sub)] *)
Fixpoint rfind_from (sub s : string) (i : Z) : Z :=
  match s with
  | EmptyString => if String.prefix sub s then i else -1
  | String _ s' =>
      let r := rfind_from sub s' (i + 1) in
      if 0 <=? r then r else if String.prefix sub s then i else -1
  end.

Definition py_rfind (sub s : string) : Z := rfind_from sub s 0.

(** An index of a slice, as Python clamps it to [0, n]. *)
Definition clamp_index (i n : Z) : Z :=
  if i <? 0 then Z.max 0 (i + n) else Z.min i n.

(** [s[start:stop]] *)
Definition str_slice (s : string) (start stop : Z) : string :=
  let n := str_len s in
  let a := clamp_index start n in
  let b := clamp_index stop n in
  String.substring (Z.to_nat a) (Z.to_nat (b - a)) s.

(** [l[start:]] *)
Definition list_slice_from {A : Type} (start : Z) (l : list A) : list A :=
  skipn (Z.to_nat (clamp_index start (len l))) l.

(** [enumerate] *)
Fixpoint enumerate_from {A : Type} (i : Z) (l : list A) : list (Z * A) :=
  match l with
  | [] => []
  | x :: l' => (i, x) :: enumerate_from (i + 1) l'
  end.

Definition enumerate {A : Type} (l : list A) : list (Z * A) := enumerate_from 0 l.

(** [re.sub(r'\s+', ' ', text)]: every maximal run of whitespace
    becomes one space. [in_run] tells that the previous character was
    whitespace. *)
Fixpoint collapse_ws (in_run : bool) (s : string) : string :=
  match s with
  | EmptyString => EmptyString
  | String c s' =>
      if is_space c
      then (if in_run then collapse_ws true s' else String " " (collapse_ws true s'))
      else String c (collapse_ws false s')
  end.

Fixpoint str_filter (keep : ascii -> bool) (s : string) : string :=
  match s with
  | EmptyString => EmptyString
  | String c s' =>
      if keep c then String c (str_filter keep s') else str_filter keep s'
  end.

Definition is_kept_punct (c : ascii) : bool :=
  let n := code c in
  (n =? 46) || (n =? 44) || (n =? 33) || (n =? 63)
  || (n =? 45) || (n =? 58) || (n =? 59).      (* . , ! ? - : ; *)

(* ================================================================== *)
(** ** [DocumentChunker] (src/rag/document_processor.py) *)
(* ================================================================== *)

Record DocumentChunker : Type := {
  chunk_size : Z;
  chunk_overlap : Z
}.

(** [__init__]: both values are stored as given. *)
Definition DocumentChunker_init (size overlap : Z) : DocumentChunker :=
  {| chunk_size := size; chunk_overlap := overlap |}.

Definition default_chunker : DocumentChunker := DocumentChunker_init 1024 200.

Definition _clean_text (text : string) : string :=
  let text := collapse_ws false text in
  let text := str_filter (fun c => is_word c || is_space c || is_kept_punct c) text in
  py_strip text.

(** One turn of the paragraph loop of [_semantic_split]; the state is
    [(chunks, current_chunk)]. *)
Definition semantic_step (self : DocumentChunker)
  (st : list string * string) (para : string) : list string * string :=
  let '(chunks, current_chunk) := st in
  if str_len current_chunk + str_len para <? chunk_size self
  then (chunks, current_chunk ++ " " ++ para)
  else ((if str_nonempty current_chunk
         then chunks ++ [py_strip current_chunk] else chunks)%list,
        para).

Definition _semantic_split (self : DocumentChunker) (text : string) : list string :=
  let paragraphs := split_sep2 newline newline "" text in
  let '(chunks, current_chunk) :=
    fold_left (semantic_step self) paragraphs ([], "") in
  (if str_nonempty current_chunk
   then chunks ++ [py_strip current_chunk] else chunks)%list.

(** One turn of the word loop of [_size_split]; the state is
    [(sub_chunks, current)]. *)
Definition window_step (self : DocumentChunker)
  (st : list string * list string) (word : string) : list string * list string :=
  let '(sub_chunks, current) := st in
  let current := (current ++ [word])%list in
  if chunk_size self <=? len current
  then ((sub_chunks ++ [py_join " " current])%list,
        list_slice_from (- chunk_overlap self) current)
  else (sub_chunks, current).

(** The body of the chunk loop of [_size_split]: what one chunk adds to
    [result]. *)
Definition size_split_chunk (self : DocumentChunker) (chunk : string) : list string :=
  let words := py_split chunk in
  if len words <=? chunk_size self
  then [chunk]
  else
    let '(sub_chunks, current) :=
      fold_left (window_step self) words ([], []) in
    match current with
    | [] => sub_chunks
    | _ :: _ => (sub_chunks ++ [py_join " " current])%list
    end.

Definition _size_split (self : DocumentChunker) (chunks : list string) : list string :=
  flat_map (size_split_chunk self) chunks.

(** A chunk dictionary: keys [content], [chunk_id], [metadata], [length]. *)
Record Chunk : Type := {
  content : string;
  chunk_id : Z;
  metadata : pyval;
  length : Z
}.

Definition chunk_text (self : DocumentChunker) (text : string) (meta : pyval)
  : list Chunk :=
  let text := _clean_text text in
  let chunks := _semantic_split self text in
  let chunks := _size_split self chunks in
  map (fun '(i, chunk) =>
         {| content := chunk;
            chunk_id := i;
            metadata := py_or meta (PDict []);
            length := len (py_split chunk) |})
      (enumerate chunks).

(* ================================================================== *)
(** ** [EmbeddingManager], [VectorDatabase] (src/rag/embeddings.py) and
       [RAGPipeline.retrieve] (src/rag/pipeline.py) *)
(* ================================================================== *)

Definition vector : Type := list float.

(** [str(i)] for a natural number. *)
Definition str_of_nat (n : nat) : string :=
  NilEmpty.string_of_uint (Nat.to_uint n).

(** [l[i]] for an index [i >= 0]. *)
Definition list_index {A : Type} (l : list A) (i : Z) : result A :=
  match nth_error l (Z.to_nat i) with
  | Some x => Ok x
  | None => Raise (Exn IndexError "list index out of range")
  end.

(** [d[k]] *)
Definition dict_getitem (d : pydict) (k : string) : result pyval :=
  match dict_get k d with
  | Some v => Ok v
  | None => Raise (Exn KeyError ("'" ++ k ++ "'"))
  end.

(** A list comprehension whose element expression can raise. *)
Fixpoint rmap {A B : Type} (f : A -> result B) (l : list A) : result (list B) :=
  match l with
  | [] => Ok []
  | x :: l' =>
      (y <- f x ;; ys <- rmap f l' ;; Ok (y :: ys))%result
  end.

(** What [collection.query] answers: the keys [documents], [distances]
    and [metadatas], each [None] or one list per query vector. *)
Record QueryResult : Type := {
  documents : option (list (list pyval));
  distances : option (list (list float));
  metadatas : option (list (list pyval))
}.

(** [ids] of [add_documents]: one id per position of this call's list. *)
Definition doc_ids (n : nat) : list string :=
  map (fun i => "doc_" ++ str_of_nat i) (seq 0 n).

Section VectorStore.

(** The Chroma collection: its state and the two calls made on it. *)
Variable Collection : Type.
Variable collection_add :
  Collection -> list string -> list vector -> list pyval -> list pyval ->
  result Collection.
Variable collection_query :
  Collection -> list vector -> Z -> result QueryResult.

(** The sentence encoder ([SentenceTransformer.encode]). *)
Variable encode : list string -> result (list vector).

Record VectorDatabase : Type := {
  db_path : string;
  collection_name : string;
  collection : Collection
}.

Definition add_documents (self : VectorDatabase)
  (docs : list pydict) (embeddings : list vector) : result VectorDatabase :=
  if negb (len docs =? len embeddings)
  then Raise (Exn ValueError "Number of documents must match number of embeddings")
  else
    let ids := doc_ids (List.length docs) in
    let metas :=
      map (fun doc => match dict_get "metadata" doc with
                      | Some m => m
                      | None => PDict []
                      end) docs in
    (documents_text <- rmap (fun doc => dict_getitem doc "content") docs ;;
     c <- collection_add (collection self) ids embeddings documents_text metas ;;
     Ok {| db_path := db_path self;
           collection_name := collection_name self;
           collection := c |})%result.

(** The body of the [for i, doc in enumerate(...)] loop of [search]. *)
Definition search_row (results : QueryResult) (entry : Z * pyval) : result pyval :=
  let '(i, doc) := entry in
  (score <- match distances results with
            | Some (d0 :: _) => list_index d0 i
            | _ => Ok 0%float            (* float(0) *)
            end ;;
   meta <- match metadatas results with
           | Some (m0 :: _) => list_index m0 i
           | _ => Ok (PDict [])
           end ;;
   Ok (PDict [("content", doc); ("score", PFloat score); ("metadata", meta)]))%result.

Definition search (self : VectorDatabase) (query_embedding : vector) (top_k : Z)
  : result (list pyval) :=
  (results <- collection_query (collection self) [query_embedding] top_k ;;
   match documents results with
   | Some ((_ :: _) as docs0 :: _) => rmap (search_row results) (enumerate docs0)
   | _ => Ok []
   end)%result.

Definition embed_texts (texts : list string) : result (list vector) :=
  encode texts.

Definition embed_single (text : string) : result vector :=
  (embeddings <- embed_texts [text] ;; list_index embeddings 0)%result.

Record RAGPipeline : Type := {
  vector_db : VectorDatabase;
  document_chunker : DocumentChunker
}.

Definition retrieve (self : RAGPipeline) (query : string) (top_k : Z)
  : result (list pyval) :=
  (query_embedding <- embed_single query ;;
   search (vector_db self) query_embedding top_k)%result.

End VectorStore.

Arguments db_path {Collection} _.
Arguments collection_name {Collection} _.
Arguments collection {Collection} _.
Arguments vector_db {Collection} _.
Arguments document_chunker {Collection} _.
Arguments add_documents {Collection} _ _ _ _.
Arguments search {Collection} _ _ _ _.
Arguments retrieve {Collection} _ _ _ _ _.

(** *** Two collections to run the model on.

    [row_log_add]: the collection as the list of rows handed to it, in
    order; it records what [add_documents] submits. *)
Definition StoredRow : Type := (string * vector * pyval * pyval)%type.

Definition row_log_add (c : list StoredRow)
  (ids : list string) (embeddings : list vector) (texts metas : list pyval)
  : result (list StoredRow) :=
  Ok (c ++ combine (combine (combine ids embeddings) texts) metas)%list.

(** [strict_query]: a collection that cannot answer a request for a
    negative number of results (the nearest-neighbour index takes an
    unsigned count), and has nothing stored. *)
Definition strict_query (c : unit) (q : list vector) (n : Z) : result QueryResult :=
  if n <? 0
  then Raise (Exn TypeError "Number of requested results cannot be negative")
  else Ok {| documents := Some [[]]; distances := Some [[]]; metadatas := Some [[]] |}.

(** An encoder that gives every text the same vector of one number. *)
Definition unit_encode (texts : list string) : result (list vector) :=
  Ok (map (fun _ => [1%float]) texts).

(* ================================================================== *)
(** ** Tools and [ToolRegistry] (src/agent/tools.py) *)
(* ================================================================== *)

(** [ToolResult] is a pydantic model with fields [success], [output]
    and [error] (default [None]). *)
Record ToolResult : Type := {
  success : bool;
  output : pyval;
  error : option string
}.

(** A registered tool: an object with [name], [description] and a
    method [execute] called with keyword arguments only. *)
Record Tool : Type := {
  name : string;
  description : string;
  execute : pydict -> result ToolResult
}.

(** Binding keyword arguments to the parameters of
    [def execute(self, required..., optional=default...)]: a
    [TypeError] unless every required parameter is given and every
    keyword names a parameter other than [self]. *)
Definition bind_kwargs (required optional : list string) (kw : pydict) : result unit :=
  if forallb (fun p => dict_mem p kw) required
     && forallb (fun k => existsb (String.eqb k) (required ++ optional)%list)
                (dict_keys kw)
  then Ok tt
  else Raise (Exn TypeError "execute() got missing or unexpected arguments").

Definition dict_get_default (k : string) (d : pydict) (default : pyval) : pyval :=
  match dict_get k d with Some v => v | None => default end.

Definition tool_not_found (shown : string) : ToolResult :=
  {| success := false;
     output := PNone;
     error := Some ("Tool '" ++ shown ++ "' not found") |}.

Section Tools.

(** [str(v)] for an object that is not a [str]. *)
Variable py_str : pyval -> string.
(** [eval(expression, {"__builtins__": {}}, {"abs": abs, "round": round})]:
    the value, or the [Exception] raised (what [except Exception]
    catches). *)
Variable py_eval : pyval -> result pyval.
(** [datetime.now().isoformat()] *)
Variable datetime_now : string.

(** [f"{v}"] *)
Definition py_format (v : pyval) : string :=
  match v with
  | PStr s => s
  | _ => py_str v
  end.

(** [rag_retrieve] is the bound method [rag_pipeline.retrieve]. *)
Definition KnowledgeBaseTool
  (rag_retrieve : pyval -> pyval -> result (list pyval)) : Tool :=
  {| name := "knowledge_base_search";
     description := "Search the knowledge base for relevant information";
     execute := fun kw =>
       (_ <- bind_kwargs ["query"] ["top_k"] kw ;;
        let query := dict_get_default "query" kw PNone in
        let top_k := dict_get_default "top_k" kw (PInt 5) in
        match rag_retrieve query top_k with
        | Ok results =>
            Ok {| success := true;
                  output := PDict [("query", query);
                                   ("results", PList results);
                                   ("count", PInt (len results))];
                  error := None |}
        | Raise e =>
            Ok {| success := false; output := PNone; error := Some (exn_msg e) |}
        end)%result |}.

Definition CalculatorTool : Tool :=
  {| name := "calculator";
     description := "Perform mathematical calculations";
     execute := fun kw =>
       (_ <- bind_kwargs ["expression"] [] kw ;;
        let expression := dict_get_default "expression" kw PNone in
        match py_eval expression with
        | Ok value =>
            Ok {| success := true;
                  output := PDict [("expression", expression); ("result", value)];
                  error := None |}
        | Raise e =>
            Ok {| success := false;
                  output := PNone;
                  error := Some ("Calculation error: " ++ exn_msg e) |}
        end)%result |}.

Definition WebSearchTool : Tool :=
  {| name := "web_search";
     description := "Search the web for information";
     execute := fun kw =>
       (_ <- bind_kwargs ["query"] [] kw ;;
        let query := dict_get_default "query" kw PNone in
        Ok {| success := true;
              output :=
                PDict [("query", query);
                       ("results",
                        PList [PDict [("title", PStr ("Result 1 for '" ++ py_format query ++ "'"));
                                      ("snippet", PStr "This is a simulated search result.");
                                      ("url", PStr "https://example.com/result1")]]);
                       ("timestamp", PStr datetime_now)];
              error := None |})%result |}.

Record ToolRegistry : Type := {
  tools : list (string * Tool)
}.

Definition register (self : ToolRegistry) (tool : Tool) : ToolRegistry :=
  {| tools := dict_set (name tool) tool (tools self) |}.

Definition _register_default_tools (self : ToolRegistry)
  (rag_pipeline : option (pyval -> pyval -> result (list pyval))) : ToolRegistry :=
  let self := match rag_pipeline with
              | Some rag => register self (KnowledgeBaseTool rag)
              | None => self
              end in
  let self := register self CalculatorTool in
  register self WebSearchTool.

Definition ToolRegistry_init
  (rag_pipeline : option (pyval -> pyval -> result (list pyval))) : ToolRegistry :=
  _register_default_tools {| tools := [] |} rag_pipeline.

Definition execute_tool (self : ToolRegistry) (tool_name : string) (kwargs : pydict)
  : result ToolResult :=
  if negb (dict_mem tool_name (tools self))
  then Ok (tool_not_found tool_name)
  else
    match dict_get tool_name (tools self) with
    | Some tool => execute tool kwargs
    | None => Raise (Exn KeyError ("'" ++ tool_name ++ "'"))
    end.

Definition get_tool_descriptions (self : ToolRegistry) : string :=
  py_join nl
    (map (fun '(n, tool) => "- " ++ n ++ ": " ++ description tool) (tools self)).

Definition list_tools (self : ToolRegistry) : list string :=
  dict_keys (tools self).

End Tools.

(* ================================================================== *)
(** ** [AIAgent] (src/agent/agent.py) *)
(* ================================================================== *)

Inductive AgentState : Type :=
| IDLE | RUNNING | THINKING | TOOL_CALLING | GENERATING | COMPLETED | ERROR.

(** The dataclass [Message] (the wall-clock [timestamp] left out). *)
Record Message : Type := {
  role : string;
  msg_content : string;
  msg_tool_calls : list pyval
}.

(** The dataclass [ExecutionTrace] (the wall-clock [execution_time]
    left out). *)
Record ExecutionTrace : Type := {
  query : string;
  steps : list pyval;
  tool_calls : list pyval;
  messages : list Message;
  total_tokens : Z;
  status : string
}.

Definition ExecutionTrace_init (q : string) : ExecutionTrace :=
  {| query := q; steps := []; tool_calls := []; messages := [];
     total_tokens := 0; status := "pending" |}.

(** The dictionary [execute_query] returns. *)
Record QueryOutput : Type := {
  out_query : string;
  response : string;
  trace : ExecutionTrace;
  iterations : Z;
  out_success : bool
}.

(** The double quote character, and a text with every apostrophe read
    as a double quote (to write JSON texts). *)
Definition dquote : ascii := ascii_of_nat 34.
Definition dq : string := String dquote EmptyString.

Fixpoint json_text (s : string) : string :=
  match s with
  | EmptyString => EmptyString
  | String c s' =>
      String (if Ascii.eqb c (ascii_of_nat 39) then dquote else c) (json_text s')
  end.

(** [s.upper()] on the letters a to z (the roles are the literals
    user, assistant and system). *)
Definition upper_char (c : ascii) : ascii :=
  let n := nat_of_ascii c in
  if ((97 <=? n) && (n <=? 122))%nat then ascii_of_nat (n - 32) else c.

Fixpoint py_upper (s : string) : string :=
  match s with
  | EmptyString => EmptyString
  | String c s' => String (upper_char c) (py_upper s')
  end.

(** [v[key]] for a string key *)
Definition py_getitem (v : pyval) (key : string) : result pyval :=
  match v with
  | PDict d => dict_getitem d key
  | _ => Raise (Exn TypeError "indices must be integers, or the object is not subscriptable")
  end.

(** [v.get(key, default)] *)
Definition py_get (v : pyval) (key : string) (default : pyval) : result pyval :=
  match v with
  | PDict d => Ok (dict_get_default key d default)
  | _ => Raise (Exn AttributeError "object has no attribute get")
  end.

(** [dataclasses.asdict] applied to a [ToolResult]. [asdict] raises
    [TypeError] for every object that is not a dataclass instance, and
    [ToolResult] derives from pydantic's [BaseModel]: it is no dataclass. *)
Definition asdict_ToolResult (r : ToolResult) : result pyval :=
  Raise (Exn TypeError "asdict() should be called on dataclass instances").

Declare Scope agent_scope.
Delimit Scope agent_scope with agent.

Section Agent.

Variable py_str : pyval -> string.
(** [json.loads]: the decoded object, or [None] when it raises. *)
Variable json_loads : string -> option pyval.
Variable json_dumps : pyval -> result string.

(** The language model: its state, and [llm.invoke(prompt).content]. *)
Variable LLM : Type.
Variable llm_invoke : LLM -> string -> result string * LLM.

Record AIAgent : Type := {
  agent_name : string;
  max_iterations : Z;
  llm : LLM;
  tool_registry : ToolRegistry;
  state : AgentState;
  conversation_history : list Message;
  current_trace : option ExecutionTrace;
  system_prompt : string
}.

Definition _build_system_prompt (nm : string) (registry : ToolRegistry) : string :=
  let tool_descriptions := get_tool_descriptions registry in
  "You are a helpful AI assistant called " ++ nm ++ "." ++ nl
  ++ "You have access to the following tools:" ++ nl ++ nl
  ++ tool_descriptions ++ nl ++ nl
  ++ "When you need to use a tool, respond with a JSON object like this:" ++ nl
  ++ json_text "{'tool': 'tool_name', 'args': {'arg1': 'value1', 'arg2': 'value2'}}"
  ++ nl ++ nl
  ++ "Always be helpful, accurate, and honest. If you don't know something, say so.".

(** [__init__], given the model object and a registry. *)
Definition AIAgent_init (nm : string) (model : LLM) (registry : ToolRegistry)
  (max_iter : Z) : AIAgent :=
  {| agent_name := nm;
     max_iterations := max_iter;
     llm := model;
     tool_registry := registry;
     state := IDLE;
     conversation_history := [];
     current_trace := None;
     system_prompt := _build_system_prompt nm registry |}.

Definition _parse_tool_call (response_text : string) : pyval :=
  if contains "{" response_text && contains "tool" response_text
  then
    let start := py_find "{" response_text in
    let stop := py_rfind "}" response_text + 1 in
    let json_str := str_slice response_text start stop in
    match json_loads json_str with
    | Some v => v
    | None => PNone            (* except: pass; return None *)
    end
  else PNone.

Definition _should_use_tool (response_text : string) : bool :=
  contains "{" response_text && contains "tool" response_text.

Definition _format_conversation_history (self : AIAgent) : string :=
  fold_left
    (fun formatted msg =>
       formatted ++ py_upper (role msg) ++ ": " ++ msg_content msg ++ nl)
    (conversation_history self)
    (system_prompt self ++ nl ++ nl)
  ++ "ASSISTANT: ".

(** *** Statements on [self]: a state and exception monad *)

(** A computation on [self] gives an outcome and the agent as it
    leaves it (also when it raises); [None] is the fuel of the
    [while] loop running out. *)
Definition M (A : Type) : Type := AIAgent -> option (result A * AIAgent).

Definition ret {A : Type} (a : A) : M A := fun self => Some (Ok a, self).

Definition bind {A B : Type} (m : M A) (k : A -> M B) : M B :=
  fun self =>
    match m self with
    | Some (Ok a, self') => k a self'
    | Some (Raise e, self') => Some (Raise e, self')
    | None => None
    end.

Definition lift {A : Type} (r : result A) : M A := fun self => Some (r, self).

Definition get_self : M AIAgent := fun self => Some (Ok self, self).

Definition set_state (st : AgentState) : M unit :=
  fun self =>
    Some (Ok tt,
     {| agent_name := agent_name self; max_iterations := max_iterations self;
        llm := llm self; tool_registry := tool_registry self;
        state := st;
        conversation_history := conversation_history self;
        current_trace := current_trace self;
        system_prompt := system_prompt self |}).

Definition set_conversation_history (h : list Message) : M unit :=
  fun self =>
    Some (Ok tt,
     {| agent_name := agent_name self; max_iterations := max_iterations self;
        llm := llm self; tool_registry := tool_registry self;
        state := state self;
        conversation_history := h;
        current_trace := current_trace self;
        system_prompt := system_prompt self |}).

Definition set_current_trace (t : option ExecutionTrace) : M unit :=
  fun self =>
    Some (Ok tt,
     {| agent_name := agent_name self; max_iterations := max_iterations self;
        llm := llm self; tool_registry := tool_registry self;
        state := state self;
        conversation_history := conversation_history self;
        current_trace := t;
        system_prompt := system_prompt self |}).

Definition set_llm (l : LLM) : M unit :=
  fun self =>
    Some (Ok tt,
     {| agent_name := agent_name self; max_iterations := max_iterations self;
        llm := l; tool_registry := tool_registry self;
        state := state self;
        conversation_history := conversation_history self;
        current_trace := current_trace self;
        system_prompt := system_prompt self |}).

Notation "x <- c ;; k" := (bind c (fun x => k))
  (at level 61, c at next level, right associativity) : agent_scope.
Notation "c ;;; k" := (bind c (fun _ => k))
  (at level 61, right associativity) : agent_scope.

Definition append_history (msg : Message) : M unit :=
  fun self =>
    set_conversation_history (conversation_history self ++ [msg])%list self.

(** A statement on [self.current_trace]; on [None] the attribute
    access raises. *)
Definition update_trace (f : ExecutionTrace -> ExecutionTrace) : M unit :=
  fun self =>
    match current_trace self with
    | Some t => set_current_trace (Some (f t)) self
    | None => Some (Raise (Exn AttributeError "'NoneType' object has no attribute"), self)
    end.

Definition trace_add_message (msg : Message) (t : ExecutionTrace) : ExecutionTrace :=
  {| query := query t; steps := steps t; tool_calls := tool_calls t;
     messages := (messages t ++ [msg])%list;
     total_tokens := total_tokens t; status := status t |}.

Definition trace_add_tool_call (rec : pyval) (t : ExecutionTrace) : ExecutionTrace :=
  {| query := query t; steps := steps t;
     tool_calls := (tool_calls t ++ [rec])%list;
     messages := messages t;
     total_tokens := total_tokens t; status := status t |}.

Definition trace_set_status (st : string) (t : ExecutionTrace) : ExecutionTrace :=
  {| query := query t; steps := steps t; tool_calls := tool_calls t;
     messages := messages t;
     total_tokens := total_tokens t; status := st |}.

(** [self.llm.invoke(messages_str).content] *)
Definition invoke_llm (prompt : string) : M string :=
  fun self =>
    let '(r, l') := llm_invoke (llm self) prompt in
    match set_llm l' self with
    | Some (_, self') => Some (r, self')
    | None => None
    end.

(** The call
    [self.tool_registry.execute_tool(tool_call["tool"], **tool_call.get("args", {}))]:
    the two argument expressions, the unpacking of the mapping, the
    binding to [(self, tool_name, **kwargs)], then the method. A name
    that is no [str] is looked up as it is: no key equals it, unless
    it cannot be hashed. *)
Definition call_execute_tool (registry : ToolRegistry) (tool_call : pyval)
  : result ToolResult :=
  (tool_v <- py_getitem tool_call "tool" ;;
   args_v <- py_get tool_call "args" (PDict []) ;;
   kw <- match args_v with
         | PDict d => Ok d
         | _ => Raise (Exn TypeError "argument after ** must be a mapping")
         end ;;
   if dict_mem "self" kw || dict_mem "tool_name" kw
   then Raise (Exn TypeError "execute_tool() got multiple values for argument")
   else
     match tool_v with
     | PStr n => execute_tool registry n kw
     | PList _ | PDict _ => Raise (Exn TypeError "unhashable type")
     | v => Ok (tool_not_found (py_str v))
     end)%result.

(** Lines 166 to 194: the branch taken on a parsed tool call. *)
Definition run_tool_call (iteration : Z) (response_text : string)
  (tool_call : pyval) : M unit :=
  (self <- get_self ;;
   tool_result <- lift (call_execute_tool (tool_registry self) tool_call) ;;
   tool_v <- lift (py_getitem tool_call "tool") ;;
   args_v <- lift (py_get tool_call "args" (PDict [])) ;;
   (* [asdict(tool_result) if tool_result else None]: a [ToolResult]
      is true *)
   result_v <- lift (asdict_ToolResult tool_result) ;;
   let tool_call_record :=
     PDict [("iteration", PInt iteration); ("tool", tool_v);
            ("args", args_v); ("result", result_v)] in
   update_trace (trace_add_tool_call tool_call_record) ;;;
   append_history {| role := "assistant"; msg_content := response_text;
                     msg_tool_calls := [tool_call] |} ;;;
   dumped <- lift (json_dumps (output tool_result)) ;;
   let tool_response :=
     "Tool executed: " ++ py_format py_str tool_v ++ nl ++ "Result: " ++ dumped in
   append_history {| role := "system"; msg_content := tool_response;
                     msg_tool_calls := [] |})%agent.

(** Lines 196 to 201: the response is the final one. *)
Definition finish (response_text : string) : M (option string) :=
  (append_history {| role := "assistant"; msg_content := response_text;
                     msg_tool_calls := [] |} ;;;
   set_state COMPLETED ;;;
   ret (Some response_text))%agent.

(** One turn of the [while] loop, after [iteration += 1]: [None] for
    [continue], [Some final_response] for [break]. *)
Definition iteration_body (iteration : Z) : M (option string) :=
  (set_state THINKING ;;;
   self <- get_self ;;
   let messages_str := _format_conversation_history self in
   set_state GENERATING ;;;
   response_text <- invoke_llm messages_str ;;
   if _should_use_tool response_text
   then
     set_state TOOL_CALLING ;;;
     let tool_call := _parse_tool_call response_text in
     if py_bool tool_call
     then run_tool_call iteration response_text tool_call ;;; ret None
     else finish response_text
   else finish response_text)%agent.

(** [while iteration < self.max_iterations: ...]; the result is
    [(final_response, iteration)] at the exit. *)
Fixpoint agent_loop (fuel : nat) (iteration : Z) : M (option string * Z) :=
  fun self =>
    if iteration <? max_iterations self
    then
      match fuel with
      | O => None
      | S fuel' =>
          (r <- iteration_body (iteration + 1) ;;
           match r with
           | Some final_response => ret (Some final_response, iteration + 1)
           | None => agent_loop fuel' (iteration + 1)
           end)%agent self
      end
    else Some (Ok (None, iteration), self).

Definition str_true (s : option string) : bool :=
  match s with
  | Some t => str_nonempty t
  | None => false
  end.

Definition execute_query (q : string) (verbose : bool) : M QueryOutput :=
  (set_state RUNNING ;;;
   set_current_trace (Some (ExecutionTrace_init q)) ;;;
   set_conversation_history [] ;;;
   let user_msg := {| role := "user"; msg_content := q; msg_tool_calls := [] |} in
   append_history user_msg ;;;
   update_trace (trace_add_message user_msg) ;;;
   self <- get_self ;;
   r <- agent_loop (Z.to_nat (max_iterations self)) 0 ;;
   let '(final_response, iteration) := r in
   update_trace
     (trace_set_status (if str_true final_response then "completed" else "error")) ;;;
   self <- get_self ;;
   match current_trace self with
   | None => lift (Raise (Exn TypeError "asdict() should be called on dataclass instances"))
   | Some t =>
       ret {| out_query := q;
              response := (if str_true final_response
                           then match final_response with Some s => s | None => "" end
                           else "Failed to generate response");
              trace := t;
              iterations := iteration;
              out_success := match final_response with Some _ => true | None => false end |}
   end)%agent.

End Agent.

Arguments agent_name {LLM} _.
Arguments max_iterations {LLM} _.
Arguments llm {LLM} _.
Arguments tool_registry {LLM} _.
Arguments state {LLM} _.
Arguments conversation_history {LLM} _.
Arguments current_trace {LLM} _.
Arguments system_prompt {LLM} _.
Arguments AIAgent_init {LLM} _ _ _ _.
Arguments _format_conversation_history {LLM} _.
Arguments execute_query _ _ _ {LLM} _ _ _ _.
Arguments iteration_body _ _ _ {LLM} _ _ _.
Arguments agent_loop _ _ _ {LLM} _ _ _ _.
Arguments run_tool_call _ _ {LLM} _ _ _ _.

(* ================================================================== *)
(** ** Instances to run the model on *)
(* ================================================================== *)

(** *** A decoder for a fragment of JSON

    Objects, arrays, strings without escapes, integers, [true],
    [false] and [null], with blanks between tokens: on a text of this
    fragment it gives what [json.loads] gives, and [None] on a text
    that is no JSON. Escapes, fractions, exponents and the non-finite
    literals are outside the fragment. *)
Inductive token : Type :=
| TLBrace | TRBrace | TLBracket | TRBracket | TColon | TComma
| TString (s : string) | TInt (z : Z) | TTrue | TFalse | TNull.

Inductive lex_mode : Type :=
| Top
| InStr (acc : string)
| InNum (neg : bool) (digits : string)
| InLit (rest : string) (t : token).

Definition is_digit (c : ascii) : bool :=
  let n := code c in (48 <=? n) && (n <=? 57).

Definition is_json_blank (c : ascii) : bool :=
  let n := code c in (n =? 32) || (n =? 9) || (n =? 10) || (n =? 13).

Fixpoint digits_value (acc : Z) (ds : string) : Z :=
  match ds with
  | EmptyString => acc
  | String c ds' => digits_value (10 * acc + (code c - 48)) ds'
  end.

(** An integer literal: no digit at all and a leading zero are errors. *)
Definition int_token (neg : bool) (ds : string) : option token :=
  match ds with
  | EmptyString => None
  | String c (String _ _) =>
      if code c =? 48 then None
      else Some (TInt (if neg then - digits_value 0 ds else digits_value 0 ds))
  | String _ EmptyString =>
      Some (TInt (if neg then - digits_value 0 ds else digits_value 0 ds))
  end.

Definition cons_token (t : option token) (ts : option (list token))
  : option (list token) :=
  match t, ts with
  | Some t, Some ts => Some (t :: ts)
  | _, _ => None
  end.

Fixpoint lex (mode : lex_mode) (s : string) : option (list token) :=
  match s with
  | EmptyString =>
      match mode with
      | Top => Some []
      | InNum neg ds => cons_token (int_token neg ds) (Some [])
      | InStr _ | InLit _ _ => None
      end
  | String c s' =>
      let top :=
        let n := code c in
        if is_json_blank c then lex Top s'
        else if n =? 123 then cons_token (Some TLBrace) (lex Top s')
        else if n =? 125 then cons_token (Some TRBrace) (lex Top s')
        else if n =? 91 then cons_token (Some TLBracket) (lex Top s')
        else if n =? 93 then cons_token (Some TRBracket) (lex Top s')
        else if n =? 58 then cons_token (Some TColon) (lex Top s')
        else if n =? 44 then cons_token (Some TComma) (lex Top s')
        else if n =? 34 then lex (InStr "") s'
        else if n =? 45 then lex (InNum true "") s'
        else if is_digit c then lex (InNum false (String c "")) s'
        else if n =? 116 then lex (InLit "rue" TTrue) s'
        else if n =? 102 then lex (InLit "alse" TFalse) s'
        else if n =? 110 then lex (InLit "ull" TNull) s'
        else None in
      match mode with
      | Top => top
      | InStr acc =>
          if code c =? 34 then cons_token (Some (TString acc)) (lex Top s')
          else if (code c =? 92) || (code c <? 32) then None
          else lex (InStr (snoc acc c)) s'
      | InNum neg ds =>
          if is_digit c then lex (InNum neg (snoc ds c)) s'
          else if (code c =? 46) || (code c =? 101) || (code c =? 69) then None
          else match int_token neg ds with
               | Some t => cons_token (Some t) top
               | None => None
               end
      | InLit rest t =>
          match rest with
          | String r rest' =>
              if Ascii.eqb c r
              then match rest' with
                   | EmptyString => cons_token (Some t) (lex Top s')
                   | _ => lex (InLit rest' t) s'
                   end
              else None
          | EmptyString => None
          end
      end
  end.

Fixpoint parse_value (fuel : nat) (ts : list token) : option (pyval * list token) :=
  match fuel with
  | O => None
  | S f =>
      match ts with
      | TString s :: r => Some (PStr s, r)
      | TInt z :: r => Some (PInt z, r)
      | TTrue :: r => Some (PBool true, r)
      | TFalse :: r => Some (PBool false, r)
      | TNull :: r => Some (PNone, r)
      | TLBrace :: TRBrace :: r => Some (PDict [], r)
      | TLBrace :: r => parse_members f r []
      | TLBracket :: TRBracket :: r => Some (PList [], r)
      | TLBracket :: r => parse_elements f r []
      | _ => None
      end
  end
with parse_members (fuel : nat) (ts : list token) (acc : pydict)
  : option (pyval * list token) :=
  match fuel with
  | O => None
  | S f =>
      match ts with
      | TString k :: TColon :: r =>
          match parse_value f r with
          | Some (v, TComma :: r') => parse_members f r' (dict_set k v acc)
          | Some (v, TRBrace :: r') => Some (PDict (dict_set k v acc), r')
          | _ => None
          end
      | _ => None
      end
  end
with parse_elements (fuel : nat) (ts : list token) (acc : list pyval)
  : option (pyval * list token) :=
  match fuel with
  | O => None
  | S f =>
      match parse_value f ts with
      | Some (v, TComma :: r') => parse_elements f r' (acc ++ [v])%list
      | Some (v, TRBracket :: r') => Some (PList (acc ++ [v])%list, r')
      | _ => None
      end
  end.

Definition json_decode (s : string) : option pyval :=
  match lex Top s with
  | Some ts =>
      match parse_value (2 * List.length ts + 2) ts with
      | Some (v, []) => Some v
      | _ => None
      end
  | None => None
  end.

(** *** Language models *)

(** A model that answers the same text to every prompt. *)
Definition constant_llm (answer : string) (l : unit) (prompt : string)
  : result string * unit := (Ok answer, tt).

(** A model that answers the same text to every prompt and keeps the
    prompts it was given, in order. *)
Definition recording_llm (answer : string) (seen : list string) (prompt : string)
  : result string * list string := (Ok answer, (seen ++ [prompt])%list).

(** *** [str()], [json.dumps] and [eval] on the objects of the examples *)

Definition str_of_Z (z : Z) : string :=
  if z <? 0 then "-" ++ str_of_nat (Z.to_nat (- z)) else str_of_nat (Z.to_nat z).

(** [str(v)] for [None], booleans and integers; other objects are
    shown by their kind. *)
Definition plain_str (v : pyval) : string :=
  match v with
  | PNone => "None"
  | PBool true => "True"
  | PBool false => "False"
  | PInt z => str_of_Z z
  | PStr s => s
  | PFloat _ => "<float>"
  | PList _ => "<list>"
  | PDict _ => "<dict>"
  | PObject d => d
  end.

(** [json.dumps(v)] for [None], booleans, integers and strings of
    plain characters; an object of another kind is refused. *)
Definition plain_dumps (v : pyval) : result string :=
  match v with
  | PNone => Ok "null"
  | PBool true => Ok "true"
  | PBool false => Ok "false"
  | PInt z => Ok (str_of_Z z)
  | PStr s => Ok (dq ++ s ++ dq)
  | _ => Raise (Exn TypeError "Object is not JSON serializable")
  end.

(** [eval] on a decimal integer literal; an argument that is no [str]
    is a [TypeError]; other expressions are not evaluated. *)
Definition literal_eval (v : pyval) : result pyval :=
  match v with
  | PStr s =>
      match lex Top s with
      | Some [TInt z] =>
          if (0 <=? z) && String.eqb s (str_of_Z z)
          then Ok (PInt z)
          else Raise (Exn LibraryError "expression not evaluated")
      | _ => Raise (Exn LibraryError "expression not evaluated")
      end
  | _ => Raise (Exn TypeError "eval() arg 1 must be a string, bytes or code object")
  end.

Definition demo_registry : ToolRegistry :=
  ToolRegistry_init plain_str literal_eval "2024-01-01T00:00:00" None.

Definition demo_agent (max_iter : Z) : AIAgent unit :=
  AIAgent_init "GenAI Agent" tt demo_registry max_iter.

(* ================================================================== *)
(** ** Definitions used to state the properties *)
(* ================================================================== *)

Definition test_db : VectorDatabase (list StoredRow) :=
  {| db_path := "./data/embeddings"; collection_name := "test"; collection := [] |}.

(** The answer of the collection holds no document for the first
    query vector. *)
Definition no_documents (r : QueryResult) : bool :=
  match documents r with
  | Some ((_ :: _) :: _) => false
  | _ => true
  end.

Definition strict_pipeline : RAGPipeline unit :=
  {| vector_db := {| db_path := "./data/embeddings";
                     collection_name := "rag_documents";
                     collection := tt |};
     document_chunker := default_chunker |}.



(** A word as [split] gives them: not empty, and without whitespace. *)
Fixpoint no_space (s : string) : bool :=
  match s with
  | EmptyString => true
  | String c s' => negb (is_space c) && no_space s'
  end.

Definition word_ok (w : string) : bool := str_nonempty w && no_space w.

(** The token count of a chunk is within [chunk_size]. *)
Definition within_size (self : DocumentChunker) (chunk : string) : Prop :=
  len (py_split chunk) <= chunk_size self.

Definition user_message (q : string) : Message :=
  {| role := "user"; msg_content := q; msg_tool_calls := [] |}.

Definition assistant_message (r : string) : Message :=
  {| role := "assistant"; msg_content := r; msg_tool_calls := [] |}.

(** The prompt of the first generation call of a run: the system
    prompt, the user message, and the cue for the answer. *)
Definition first_prompt (sys_prompt q : string) : string :=
  ((sys_prompt ++ nl ++ nl) ++ "USER: " ++ q ++ nl) ++ "ASSISTANT: ".

(** The text handed to [json.loads]: from the first opening brace to
    the last closing brace. *)
Definition tool_call_slice (response_text : string) : string :=
  str_slice response_text (py_find "{" response_text) (py_rfind "}" response_text + 1).

(** The agent as lines 127 to 134 of [execute_query] leave it: the
    history holds the user message of this call and nothing else. *)
Definition reset_for {LLM : Type} (self : AIAgent LLM) (q : string) : AIAgent LLM :=
  {| agent_name := agent_name self; max_iterations := max_iterations self;
     llm := llm self; tool_registry := tool_registry self;
     state := RUNNING;
     conversation_history := [user_message q];
     current_trace := Some (trace_add_message (user_message q) (ExecutionTrace_init q));
     system_prompt := system_prompt self |}.

(** Lines 203 to 214: what [execute_query] does after the loop. *)
Definition conclude {LLM : Type} (q : string) (final_response : option string)
  (iteration : Z) (self : AIAgent LLM) : option (result QueryOutput * AIAgent LLM) :=
  match current_trace self with
  | None => Some (Raise (Exn AttributeError "'NoneType' object has no attribute"), self)
  | Some t =>
      let t' := trace_set_status
                  (if str_true final_response then "completed" else "error") t in
      Some (Ok {| out_query := q;
                  response := (if str_true final_response
                               then match final_response with
                                    | Some s => s
                                    | None => ""
                                    end
                               else "Failed to generate response");
                  trace := t';
                  iterations := iteration;
                  out_success := match final_response with
                                 | Some _ => true
                                 | None => false
                                 end |},
            {| agent_name := agent_name self; max_iterations := max_iterations self;
               llm := llm self; tool_registry := tool_registry self;
               state := state self;
               conversation_history := conversation_history self;
               current_trace := Some t';
               system_prompt := system_prompt self |})
  end.

(** The texts the example models answer. *)
Definition calculator_call : string :=
  json_text "{'tool': 'calculator', 'args': {'expression': '2 + 2'}}".
Definition tools_object : string := json_text "{'tools': 1}".
Definition truncated_call : string := json_text "{'tool': 'calc".

(* ================================================================== *)
(** ** [DocumentLoader] (src/rag/document_processor.py),
       [RAGPipeline.ingest_document] and [RAGPipeline.query]
       (src/rag/pipeline.py) *)
(* ================================================================== *)

(** [s.lower()] on the code points below 256. *)
Definition lower_char (c : ascii) : ascii :=
  let n := nat_of_ascii c in
  if (((65 <=? n) && (n <=? 90))
      || ((192 <=? n) && (n <=? 222) && negb (n =? 215)))%nat
  then ascii_of_nat (n + 32) else c.

Fixpoint py_lower (s : string) : string :=
  match s with
  | EmptyString => EmptyString
  | String c s' => String (lower_char c) (py_lower s')
  end.

(** A chunk as the dictionary [chunk_text] builds. *)
Definition chunk_dict (c : Chunk) : pydict :=
  [("content", PStr (content c)); ("chunk_id", PInt (chunk_id c));
   ("metadata", metadata c); ("length", PInt (length c))].

(** [rag_prompt.format(context=context, question=question)] *)
Definition rag_prompt_format (context question : string) : string :=
  "You are a helpful assistant. Use the following context to answer the question."
  ++ nl ++ "If you don't know the answer, say so." ++ nl ++ nl
  ++ "Context:" ++ nl ++ context ++ nl ++ nl
  ++ "Question: " ++ question ++ nl ++ nl
  ++ "Answer:".

(** The dictionary [RAGPipeline.query] returns. *)
Record QueryAnswer : Type := {
  qa_question : string;
  qa_answer : string;
  retrieved_documents : list pyval;
  qa_context : string
}.

Section Pipeline.

(** [Path(file_path).suffix], and the three readers: what the body of
    the [try] of each loader gives, the text or the exception. *)
Variable path_suffix : string -> string.
Variable read_text_file : string -> result string.
Variable read_pdf : string -> result string.
Variable read_docx : string -> result string.

Variable py_str : pyval -> string.

Variable Collection : Type.
Variable collection_add :
  Collection -> list string -> list vector -> list pyval -> list pyval ->
  result Collection.
Variable collection_query :
  Collection -> list vector -> Z -> result QueryResult.
Variable encode : list string -> result (list vector).

Variable LLM : Type.
Variable llm_invoke : LLM -> string -> result string * LLM.

(** [except Exception as e: raise ValueError(f"...: {str(e)}")] *)
Definition reraise_value_error (prefix : string) (r : result string) : result string :=
  match r with
  | Ok text => Ok text
  | Raise e => Raise (Exn ValueError (prefix ++ exn_msg e))
  end.

Definition load_text_file (file_path : string) : result string :=
  reraise_value_error "Error loading text file: " (read_text_file file_path).

Definition load_pdf (file_path : string) : result string :=
  reraise_value_error "Error loading PDF file: " (read_pdf file_path).

Definition load_docx (file_path : string) : result string :=
  reraise_value_error "Error loading DOCX file: " (read_docx file_path).

Definition load_document (file_path : string) : result string :=
  let suffix := py_lower (path_suffix file_path) in
  if String.eqb suffix ".txt" then load_text_file file_path
  else if String.eqb suffix ".pdf" then load_pdf file_path
  else if String.eqb suffix ".docx" then load_docx file_path
  else Raise (Exn ValueError ("Unsupported file format: " ++ suffix)).

(** The metadata of the chunks: [{**(metadata or {}), "source": file_path}] *)
Definition ingest_metadata (file_path : string) (meta : pyval) : result pydict :=
  match py_or meta (PDict []) with
  | PDict d => Ok (dict_set "source" (PStr file_path) d)
  | _ => Raise (Exn TypeError "object is not a mapping")
  end.

Definition ingest_document (self : RAGPipeline Collection) (file_path : string)
  (meta : pyval) : result (Z * RAGPipeline Collection) :=
  (text <- load_document file_path ;;
   merged <- ingest_metadata file_path meta ;;
   let chunks := chunk_text (document_chunker self) text (PDict merged) in
   let chunk_texts := map content chunks in
   embeddings <- embed_texts encode chunk_texts ;;
   db <- add_documents collection_add (vector_db self) (map chunk_dict chunks) embeddings ;;
   Ok (len chunks,
       {| vector_db := db; document_chunker := document_chunker self |}))%result.

Definition generate_answer (model : LLM) (q context : string) : result string * LLM :=
  llm_invoke model (rag_prompt_format context q).

(** One element of the list joined into the context:
    [f"[{doc['metadata'].get('source', 'Unknown')}]\n{doc['content']}"] *)
Definition context_block (doc : pyval) : result string :=
  (meta <- py_getitem doc "metadata" ;;
   source <- py_get meta "source" (PStr "Unknown") ;;
   text <- py_getitem doc "content" ;;
   Ok ("[" ++ py_format py_str source ++ "]" ++ nl ++ py_format py_str text))%result.

(** [RAGPipeline.query], with the model object it calls. *)
Definition rag_query (self : RAGPipeline Collection) (model : LLM) (q : string) (top_k : Z)
  : result QueryAnswer * LLM :=
  match retrieve collection_query encode self q top_k with
  | Raise e => (Raise e, model)
  | Ok retrieved_docs =>
      match rmap context_block retrieved_docs with
      | Raise e => (Raise e, model)
      | Ok blocks =>
          let context := py_join (nl ++ nl) blocks in
          match generate_answer model q context with
          | (Raise e, model') => (Raise e, model')
          | (Ok text, model') =>
              (Ok {| qa_question := q; qa_answer := text;
                     retrieved_documents := retrieved_docs;
                     qa_context := context |},
               model')
          end
      end
  end.

End Pipeline.

Arguments ingest_document _ _ _ _ {Collection} _ _ _ _ _.
Arguments rag_query _ {Collection} _ _ {LLM} _ _ _ _ _.

(* ================================================================== *)
(** ** Further definitions used to state the properties *)
(* ================================================================== *)

(** Every character of the string passes the test. *)
Fixpoint str_forall (p : ascii -> bool) (s : string) : bool :=
  match s with
  | EmptyString => true
  | String c s' => p c && str_forall p s'
  end.

(** The characters [_clean_text] lets through. *)
Definition clean_char (c : ascii) : bool :=
  (is_word c || is_kept_punct c || Ascii.eqb c " ").

(** No whitespace at the start. *)
Definition starts_clean (s : string) : bool :=
  match s with
  | EmptyString => true
  | String c _ => negb (is_space c)
  end.

(** After the whitespace runs are collapsed, the only whitespace
    character left is the space. *)
Definition space_or_not_blank (c : ascii) : bool :=
  negb (is_space c) || Ascii.eqb c " ".

Definition covered (sub cur : list string) (w : string) : Prop :=
  (exists s, In s sub /\ In w (py_split s)) \/ In w cur.

(** The windows of the word loop of [_size_split] as lists of words,
    from a window [cur] under construction; the last one is what is
    left in [current] after the loop. *)
Fixpoint window_words (self : DocumentChunker) (cur words : list string)
  : list (list string) :=
  match words with
  | [] => match cur with [] => [] | _ :: _ => [cur] end
  | w :: ws =>
      let c := (cur ++ [w])%list in
      if chunk_size self <=? len c
      then c :: window_words self (list_slice_from (- chunk_overlap self) c) ws
      else window_words self c ws
  end.

(** Every element is related to the next one. *)
Fixpoint chained {A : Type} (R : A -> A -> Prop) (l : list A) : Prop :=
  match l with
  | a :: ((b :: _) as t) => R a b /\ chained R t
  | _ => True
  end.

(** [b] begins with the last [n] words of [a] ([a[-n:]]). *)
Definition overlaps (n : Z) (a b : list string) : Prop :=
  firstn (Z.to_nat n) b = list_slice_from (- n) a.

(** The dictionary [search] builds for one document. *)
Definition result_row (entry : pyval * (float * pyval)) : pyval :=
  let '(doc, (score, meta)) := entry in
  PDict [("content", doc); ("score", PFloat score); ("metadata", meta)].

(** A collection that holds two documents and answers every query
    with both. *)
Definition two_document_query (c : unit) (q : list vector) (n : Z) : result QueryResult :=
  Ok {| documents := Some [[PStr "Hello world"; PStr "Hello universe"]];
        distances := Some [[0%float; 1%float]];
        metadatas := Some [[PDict [("source", PStr "test")];
                            PDict [("source", PStr "test")]]] |}.

(** The shape of a [ToolResult]: a success carries no error; a failure
    carries no output and an error text. *)
Definition result_well_formed (r : ToolResult) : Prop :=
  if success r then error r = None
  else output r = PNone /\ exists m, error r = Some m.

(** The trace of a returned result: the user message and nothing else. *)
Definition plain_trace (q st : string) : ExecutionTrace :=
  {| query := q; steps := []; tool_calls := []; messages := [user_message q];
     total_tokens := 0; status := st |}.

(** A model that is out of reach. *)
Definition failing_llm (l : unit) (prompt : string) : result string * unit :=
  (Raise (Exn LibraryError "connection error"), tt).

(** A file system with nothing in it, and the suffix of a path as the
    text from its last dot on. *)
Definition no_file (file_path : string) : result string :=
  Raise (Exn LibraryError "No such file or directory").

Definition suffix_from_last_dot (file_path : string) : string :=
  let i := py_rfind "." file_path in
  if i <? 0 then "" else str_slice file_path i (str_len file_path).

(** The value a call returns, without the state it leaves. *)
Definition returned {A B : Type} (r : result (A * B)) : result A :=
  match r with
  | Ok (a, _) => Ok a
  | Raise e => Raise e
  end.

Definition demo_pipeline : RAGPipeline (list StoredRow) :=
  {| vector_db := test_db; document_chunker := default_chunker |}.

(** A file system that holds one text file. *)
Definition one_file (file_path : string) : result string :=
  if String.eqb file_path "notes.txt" then Ok "Hello  world." else no_file file_path.

(** A file system that holds one text file with nothing in it. *)
Definition empty_file (file_path : string) : result string :=
  if String.eqb file_path "empty.txt" then Ok "" else no_file file_path.

(** A value Python takes for false in [if results[...]]: [None] or an
    empty list. *)
Definition falsy {A : Type} (o : option (list A)) : Prop := o = None \/ o = Some [].

(** A collection that answers with documents alone. *)
Definition bare_query (c : unit) (q : list vector) (n : Z) : result QueryResult :=
  Ok {| documents := Some [[PStr "Hello world"; PStr "Hello universe"]];
        distances := None;
        metadatas := Some [] |}.

(** One block of the context of [query]: the source of the passage in
    brackets, [Unknown] when its metadata names none, then the passage. *)
Definition source_block (py_str : pyval -> string) (entry : pyval * pydict) : string :=
  "[" ++ py_format py_str (dict_get_default "source" (snd entry) (PStr "Unknown")) ++ "]"
  ++ nl ++ py_format py_str (fst entry).

(** The character [c] does not occur in [s]. *)
Definition lacks (c : ascii) (s : string) : bool :=
  str_forall (fun x => negb (Ascii.eqb x c)) s.

(* ================================================================== *)
(** * Properties *)
(* ================================================================== *)

(** ** Chunker *)

Lemma len_app {A : Type} (l1 l2 : list A) : len (l1 ++ l2)%list = len l1 + len l2.
Proof. unfold len. rewrite List.length_app. lia. Qed.

Lemma len_nonneg {A : Type} (l : list A) : 0 <= len l.
Proof. unfold len. lia. Qed.

Lemma len_cons {A : Type} (x : A) (l : list A) : len (x :: l) = 1 + len l.
Proof. unfold len. cbn [List.length]. lia. Qed.

Lemma semantic_split_empty (self : DocumentChunker) :
  _semantic_split self "" =
    if 0 <? chunk_size self then [""] else [].
Proof.
  unfold _semantic_split.
  change (split_sep2 newline newline "" "") with [""].
  cbn [fold_left]. unfold semantic_step.
  change (str_len "" + str_len "") with 0.
  destruct (0 <? chunk_size self); reflexivity.
Qed.

Lemma size_split_empty_chunk (self : DocumentChunker) :
  0 <= chunk_size self -> _size_split self [""] = [""].
Proof.
  intros H. unfold _size_split, size_split_chunk. cbn [flat_map].
  change (py_split "") with (@nil string). change (len (@nil string)) with 0.
  replace (0 <=? chunk_size self) with true by (symmetry; apply Z.leb_le; exact H).
  reflexivity.
Qed.

Lemma chunk_text_empty_nonpositive_size (self : DocumentChunker) (meta : pyval) :
  chunk_size self <= 0 -> chunk_text self "" meta = [].
Proof.
  intros H. unfold chunk_text.
  change (_clean_text "") with "". rewrite semantic_split_empty.
  replace (0 <? chunk_size self) with false by (symmetry; apply Z.ltb_ge; exact H).
  reflexivity.
Qed.

(** C3 (as the code has it): for the empty input string and a chunk
    size of at least one, [chunk_text] returns exactly one passage, and
    its content is the empty string (its ordinal is 0 and its length 0);
    it does not return the empty sequence. *)
Theorem chunk_text_empty_input (self : DocumentChunker) (meta : pyval) :
  1 <= chunk_size self ->
  chunk_text self "" meta =
    [ {| content := ""; chunk_id := 0;
         metadata := py_or meta (PDict []); length := 0 |} ].
Proof.
  intros H. unfold chunk_text.
  change (_clean_text "") with "". rewrite semantic_split_empty.
  replace (0 <? chunk_size self) with true by (symmetry; apply Z.ltb_lt; lia).
  rewrite size_split_empty_chunk by lia.
  reflexivity.
Qed.

Lemma chunk_text_empty_input_witness :
  1 <= chunk_size (DocumentChunker_init 100 20) /\
  chunk_text (DocumentChunker_init 100 20) "" PNone =
    [ {| content := ""; chunk_id := 0; metadata := PDict []; length := 0 |} ].
Proof.
  split.
  - cbn. lia.
  - apply (chunk_text_empty_input (DocumentChunker_init 100 20) PNone). cbn. lia.
Defined.

(** C3, the claim as stated fails: with the configuration of the
    repository's own test, chunking the empty string gives a sequence
    that is not empty. *)
Lemma chunk_text_empty_not_empty :
  chunk_text (DocumentChunker_init 100 20) "" PNone <> [].
Proof. vm_compute. discriminate. Qed.

(** *** The window loop of [_size_split] *)

Lemma len_slice_from {A : Type} (start : Z) (l : list A) :
  len (list_slice_from start l) = len l - clamp_index start (len l).
Proof.
  unfold list_slice_from, len. rewrite List.length_skipn.
  unfold clamp_index, len.
  destruct (start <? 0) eqn:E; lia.
Qed.

Lemma window_step_emit (self : DocumentChunker) (sub cur : list string) (w : string) :
  chunk_size self <= len cur + 1 ->
  window_step self (sub, cur) w =
    ((sub ++ [py_join " " (cur ++ [w])])%list,
     list_slice_from (- chunk_overlap self) (cur ++ [w])%list).
Proof.
  intros H. unfold window_step. rewrite len_app. change (len [w]) with 1.
  replace (chunk_size self <=? len cur + 1) with true
    by (symmetry; apply Z.leb_le; exact H).
  reflexivity.
Qed.

Lemma window_step_keep (self : DocumentChunker) (sub cur : list string) (w : string) :
  len cur + 1 < chunk_size self ->
  window_step self (sub, cur) w = (sub, (cur ++ [w])%list).
Proof.
  intros H. unfold window_step. rewrite len_app. change (len [w]) with 1.
  replace (chunk_size self <=? len cur + 1) with false
    by (symmetry; apply Z.leb_gt; exact H).
  reflexivity.
Qed.

Section OverlapNotBelowSize.

Variable self : DocumentChunker.
Hypothesis size_pos : 1 <= chunk_size self.
Hypothesis overlap_large : chunk_size self <= chunk_overlap self.

(** What the slice keeps is never shorter than [chunk_size]. *)
Lemma kept_window_long (cur : list string) :
  chunk_size self <= len cur ->
  chunk_size self <= len (list_slice_from (- chunk_overlap self) cur).
Proof.
  intros H. rewrite len_slice_from. unfold clamp_index.
  destruct (- chunk_overlap self <? 0) eqn:E.
  - lia.
  - apply Z.ltb_ge in E. lia.
Qed.

(** Once a window has been emitted, every further word emits one. *)
Lemma windows_after_first (words : list string) :
  forall sub cur,
    chunk_size self <= len cur ->
    len (fst (fold_left (window_step self) words (sub, cur))) = len sub + len words
    /\ chunk_size self <= len (snd (fold_left (window_step self) words (sub, cur))).
Proof.
  induction words as [| w ws IH]; intros sub cur Hcur; cbn [fold_left].
  - cbn [fst snd]. change (len (@nil string)) with 0. split; lia.
  - rewrite window_step_emit by lia.
    destruct (IH (sub ++ [py_join " " (cur ++ [w])])%list
                 (list_slice_from (- chunk_overlap self) (cur ++ [w])%list))
      as [H1 H2].
    + apply kept_window_long. rewrite len_app. change (len [w]) with 1. lia.
    + split; [| exact H2].
      rewrite H1, len_app, !len_cons. change (len (@nil string)) with 0. lia.
Qed.

Lemma windows_from_start (words : list string) :
  forall sub cur,
    len cur < chunk_size self ->
    chunk_size self <= len cur + len words ->
    len (fst (fold_left (window_step self) words (sub, cur)))
      = len sub + (len cur + len words - chunk_size self + 1)
    /\ chunk_size self <= len (snd (fold_left (window_step self) words (sub, cur))).
Proof.
  induction words as [| w ws IH]; intros sub cur Hlt Hge; cbn [fold_left].
  - change (len (@nil string)) with 0 in Hge. lia.
  - rewrite len_cons in *.
    destruct (Z_lt_le_dec (len cur + 1) (chunk_size self)) as [Hk | He].
    + rewrite window_step_keep by exact Hk.
      destruct (IH sub (cur ++ [w])%list) as [H1 H2].
      * rewrite len_app. change (len [w]) with 1. lia.
      * rewrite len_app. change (len [w]) with 1. lia.
      * split; [| exact H2].
        rewrite H1, len_app. change (len [w]) with 1. lia.
    + rewrite window_step_emit by exact He.
      destruct (windows_after_first ws
                  (sub ++ [py_join " " (cur ++ [w])])%list
                  (list_slice_from (- chunk_overlap self) (cur ++ [w])%list))
        as [H1 H2].
      * apply kept_window_long. rewrite len_app. change (len [w]) with 1. lia.
      * split; [| exact H2].
        rewrite H1, len_app. change (len [py_join " " (cur ++ [w])]) with 1. lia.
Qed.

Lemma size_split_chunk_count (chunk : string) :
  chunk_size self < len (py_split chunk) ->
  len (size_split_chunk self chunk) = len (py_split chunk) - chunk_size self + 2.
Proof.
  intros Hn. unfold size_split_chunk.
  replace (len (py_split chunk) <=? chunk_size self) with false
    by (symmetry; apply Z.leb_gt; exact Hn).
  destruct (windows_from_start (py_split chunk) [] []) as [H1 H2].
  - change (len (@nil string)) with 0. lia.
  - change (len (@nil string)) with 0. lia.
  - destruct (fold_left (window_step self) (py_split chunk) ([], []))
      as [sub cur] eqn:E.
    cbn [fst snd] in H1, H2.
    destruct cur as [| c cur'].
    + change (len (@nil string)) with 0 in H2. lia.
    + rewrite len_app, H1. change (len (@nil string)) with 0.
      change (len [py_join " " (c :: cur')]) with 1. lia.
Qed.

End OverlapNotBelowSize.

(** C6 (as the code has it): a [chunk_overlap] that is not below
    [chunk_size] is not rejected; chunking goes on and ends. With
    [1 <= chunk_size <= chunk_overlap], a chunk of [n > chunk_size]
    words is split again into exactly [n - chunk_size + 2] windows: one
    at every word from the [chunk_size]-th on, and the words kept at the
    end once more. *)
Theorem size_split_overlap_not_below_size (self : DocumentChunker) (chunk : string) :
  1 <= chunk_size self ->
  chunk_size self <= chunk_overlap self ->
  chunk_size self < len (py_split chunk) ->
  len (_size_split self [chunk]) = len (py_split chunk) - chunk_size self + 2.
Proof.
  intros Hs Ho Hn. unfold _size_split. cbn [flat_map].
  rewrite len_app. change (len (@nil string)) with 0.
  rewrite (size_split_chunk_count self Hs Ho chunk Hn). lia.
Qed.

Lemma size_split_overlap_not_below_size_witness :
  1 <= chunk_size (DocumentChunker_init 2 2) /\
  chunk_size (DocumentChunker_init 2 2) <= chunk_overlap (DocumentChunker_init 2 2) /\
  chunk_size (DocumentChunker_init 2 2) < len (py_split "a b c") /\
  len (_size_split (DocumentChunker_init 2 2) ["a b c"]) = 3.
Proof.
  assert (H1 : 1 <= chunk_size (DocumentChunker_init 2 2)) by (cbn; lia).
  assert (H2 : chunk_size (DocumentChunker_init 2 2)
               <= chunk_overlap (DocumentChunker_init 2 2)) by (cbn; lia).
  assert (H3 : chunk_size (DocumentChunker_init 2 2) < len (py_split "a b c"))
    by (vm_compute; reflexivity).
  split; [exact H1 | split; [exact H2 | split; [exact H3 |]]].
  exact (size_split_overlap_not_below_size (DocumentChunker_init 2 2) "a b c" H1 H2 H3).
Defined.

(** C6, the claim as stated fails: a chunker built with
    [chunk_overlap = chunk_size = 2] is used without any error, and
    chunking three words returns three windows. *)
Lemma chunk_text_overlap_equal_size_proceeds :
  chunk_text (DocumentChunker_init 2 2) "a b c" PNone =
    [ {| content := "a b"; chunk_id := 0; metadata := PDict []; length := 2 |};
      {| content := "a b c"; chunk_id := 1; metadata := PDict []; length := 3 |};
      {| content := "b c"; chunk_id := 2; metadata := PDict []; length := 2 |} ].
Proof. vm_compute. reflexivity. Qed.

(** *** Words: [split] after [join] *)

Lemma append_empty_r (s : string) : s ++ "" = s.
Proof. induction s as [| c s IH]; cbn; [reflexivity | now rewrite IH]. Qed.

Lemma append_assoc (a b c : string) : (a ++ b) ++ c = a ++ b ++ c.
Proof. induction a as [| x a IH]; cbn; [reflexivity | now rewrite IH]. Qed.

Lemma no_space_snoc (cur : string) (c : ascii) :
  no_space cur = true -> is_space c = false -> no_space (snoc cur c) = true.
Proof.
  unfold snoc. induction cur as [| x cur IH]; cbn; intros H Hc.
  - now rewrite Hc.
  - apply andb_prop in H. destruct H as [H1 H2]. rewrite H1, IH by assumption. reflexivity.
Qed.

Lemma str_nonempty_snoc (cur : string) (c : ascii) : str_nonempty (snoc cur c) = true.
Proof. destruct cur; reflexivity. Qed.

Lemma split_ws_words (s : string) :
  forall cur, no_space cur = true -> Forall (fun w => word_ok w = true) (split_ws cur s).
Proof.
  induction s as [| c s IH]; intros cur Hcur; cbn [split_ws].
  - destruct (str_nonempty cur) eqn:E; [| constructor].
    constructor; [| constructor]. unfold word_ok. now rewrite E, Hcur.
  - destruct (is_space c) eqn:Ec.
    + destruct (str_nonempty cur) eqn:E.
      * constructor; [unfold word_ok; now rewrite E, Hcur | apply IH; reflexivity].
      * apply IH. reflexivity.
    + apply IH. apply no_space_snoc; assumption.
Qed.

Lemma py_split_words (s : string) : Forall (fun w => word_ok w = true) (py_split s).
Proof. apply split_ws_words. reflexivity. Qed.

Lemma split_ws_past_word (w : string) :
  forall cur rest, no_space w = true ->
                   split_ws cur (w ++ rest) = split_ws (cur ++ w) rest.
Proof.
  induction w as [| c w IH]; intros cur rest Hw.
  - cbn [append]. now rewrite append_empty_r.
  - cbn in Hw. apply andb_prop in Hw. destruct Hw as [Hc Hw].
    apply negb_true_iff in Hc.
    cbn [append split_ws]. rewrite Hc, IH by exact Hw.
    unfold snoc. rewrite append_assoc. reflexivity.
Qed.

Lemma py_split_join (ws : list string) :
  Forall (fun w => word_ok w = true) ws -> py_split (py_join " " ws) = ws.
Proof.
  unfold py_split, py_join.
  induction ws as [| w ws IH]; intros H; [reflexivity |].
  inversion H as [| w' ws' Hw Hws]; subst.
  unfold word_ok in Hw. apply andb_prop in Hw. destruct Hw as [Hne Hns].
  destruct ws as [| w2 ws].
  - cbn [concat]. rewrite <- (append_empty_r w) at 1.
    rewrite split_ws_past_word by exact Hns. cbn [append split_ws]. now rewrite Hne.
  - change (concat " " (w :: w2 :: ws)) with (w ++ " " ++ concat " " (w2 :: ws)).
    rewrite split_ws_past_word by exact Hns.
    cbn [append]. change (split_ws w (String " " (concat " " (w2 :: ws))))
      with (if str_nonempty w then w :: split_ws "" (concat " " (w2 :: ws))
            else split_ws "" (concat " " (w2 :: ws))).
    rewrite Hne, IH by exact Hws. reflexivity.
Qed.

(** *** The window loop with a usable overlap *)

Section UsableOverlap.

Variable self : DocumentChunker.
Hypothesis size_pos : 1 <= chunk_size self.
Hypothesis overlap_nonzero : chunk_overlap self <> 0.
Hypothesis overlap_small : chunk_overlap self < chunk_size self.

(** What the slice keeps is shorter than [chunk_size]. *)
Lemma kept_window_short (cur : list string) :
  len cur <= chunk_size self ->
  len (list_slice_from (- chunk_overlap self) cur) < chunk_size self.
Proof.
  intros H. rewrite len_slice_from. unfold clamp_index.
  pose proof (len_nonneg cur).
  destruct (- chunk_overlap self <? 0) eqn:E.
  - apply Z.ltb_lt in E. lia.
  - apply Z.ltb_ge in E. lia.
Qed.

Lemma Forall_slice_from {A : Type} (P : A -> Prop) (start : Z) (l : list A) :
  Forall P l -> Forall P (list_slice_from start l).
Proof.
  intros H. unfold list_slice_from. apply Forall_forall. intros x Hx.
  rewrite Forall_forall in H. apply H.
  rewrite <- (firstn_skipn (Z.to_nat (clamp_index start (len l))) l).
  apply in_or_app. right. exact Hx.
Qed.

Lemma windows_within_size (words : list string) :
  forall sub cur,
    Forall (fun w => word_ok w = true) words ->
    Forall (fun w => word_ok w = true) cur ->
    len cur < chunk_size self ->
    Forall (within_size self) sub ->
    Forall (within_size self) (fst (fold_left (window_step self) words (sub, cur)))
    /\ Forall (fun w => word_ok w = true)
              (snd (fold_left (window_step self) words (sub, cur)))
    /\ len (snd (fold_left (window_step self) words (sub, cur))) < chunk_size self.
Proof.
  induction words as [| w ws IH]; intros sub cur Hws Hcur Hlen Hsub; cbn [fold_left].
  - cbn [fst snd]. auto.
  - inversion Hws as [| w' ws' Hw Hws']; subst.
    assert (Hcur' : Forall (fun w => word_ok w = true) (cur ++ [w])).
    { apply Forall_app. split; [exact Hcur | constructor; [exact Hw | constructor]]. }
    assert (Hlen' : len (cur ++ [w]) = len cur + 1).
    { rewrite len_app. reflexivity. }
    destruct (Z_lt_le_dec (len cur + 1) (chunk_size self)) as [Hk | He].
    + rewrite window_step_keep by exact Hk.
      apply IH; try assumption. lia.
    + rewrite window_step_emit by exact He.
      apply IH.
      * exact Hws'.
      * apply Forall_slice_from. exact Hcur'.
      * apply kept_window_short. lia.
      * apply Forall_app. split; [exact Hsub |].
        constructor; [| constructor].
        unfold within_size. rewrite py_split_join by exact Hcur'. lia.
Qed.

Lemma size_split_chunk_within_size (chunk : string) :
  Forall (within_size self) (size_split_chunk self chunk).
Proof.
  unfold size_split_chunk.
  destruct (len (py_split chunk) <=? chunk_size self) eqn:E.
  - constructor; [| constructor]. apply Z.leb_le in E. exact E.
  - destruct (windows_within_size (py_split chunk) [] []) as [H1 [H2 H3]].
    + apply py_split_words.
    + constructor.
    + change (len (@nil string)) with 0. lia.
    + constructor.
    + destruct (fold_left (window_step self) (py_split chunk) ([], []))
        as [sub cur].
      cbn [fst snd] in H1, H2, H3.
      destruct cur as [| c cur']; [exact H1 |].
      apply Forall_app. split; [exact H1 |].
      constructor; [| constructor].
      unfold within_size. rewrite py_split_join by exact H2. lia.
Qed.

Lemma size_split_within (chunks : list string) :
  Forall (within_size self) (_size_split self chunks).
Proof.
  unfold _size_split. induction chunks as [| c cs IH]; cbn [flat_map].
  - constructor.
  - apply Forall_app. split; [apply size_split_chunk_within_size | exact IH].
Qed.

End UsableOverlap.

Lemma in_enumerate_from {A : Type} (l : list A) :
  forall (i : Z) (p : Z * A), In p (enumerate_from i l) -> In (snd p) l.
Proof.
  induction l as [| x l IH]; intros i p H; cbn in *.
  - exact H.
  - destruct H as [<- | H]; [left; reflexivity | right; exact (IH _ _ H)].
Qed.

(** When [chunk_overlap] is not zero and below [chunk_size], and
    [chunk_size] is at least one, every chunk that [chunk_text] emits
    has at most [chunk_size] whitespace-delimited tokens. *)
Theorem size_split_within_size (self : DocumentChunker) (text : string)
  (meta : pyval) (c : Chunk) :
  1 <= chunk_size self ->
  chunk_overlap self <> 0 ->
  chunk_overlap self < chunk_size self ->
  In c (chunk_text self text meta) ->
  length c <= chunk_size self.
Proof.
  intros Hs Hz Ho Hin. unfold chunk_text in Hin.
  apply in_map_iff in Hin. destruct Hin as [[i chunk] [<- Hin]].
  apply in_enumerate_from in Hin. cbn [snd] in Hin. cbn [length].
  pose proof (size_split_within self Hs Hz Ho
                (_semantic_split self (_clean_text text))) as H.
  rewrite Forall_forall in H. exact (H chunk Hin).
Qed.

Lemma size_split_within_size_witness :
  (1 <= chunk_size (DocumentChunker_init 3 1)
   /\ chunk_overlap (DocumentChunker_init 3 1) <> 0
   /\ chunk_overlap (DocumentChunker_init 3 1) < chunk_size (DocumentChunker_init 3 1)
   /\ In {| content := "c d e"; chunk_id := 1; metadata := PDict []; length := 3 |}
         (chunk_text (DocumentChunker_init 3 1) "a b c d e" PNone))
  /\ length {| content := "c d e"; chunk_id := 1; metadata := PDict []; length := 3 |}
     <= chunk_size (DocumentChunker_init 3 1).
Proof.
  assert (H1 : 1 <= chunk_size (DocumentChunker_init 3 1)) by (cbn; lia).
  assert (H2 : chunk_overlap (DocumentChunker_init 3 1) <> 0) by (cbn; lia).
  assert (H3 : chunk_overlap (DocumentChunker_init 3 1)
               < chunk_size (DocumentChunker_init 3 1)) by (cbn; lia).
  assert (H4 : In {| content := "c d e"; chunk_id := 1; metadata := PDict []; length := 3 |}
                  (chunk_text (DocumentChunker_init 3 1) "a b c d e" PNone))
    by (vm_compute; right; left; reflexivity).
  split; [split; [exact H1 | split; [exact H2 | split; [exact H3 | exact H4]]] |].
  exact (size_split_within_size (DocumentChunker_init 3 1) "a b c d e" PNone _ H1 H2 H3 H4).
Defined.

(** C7, at the failing input: with [chunk_size = 2] and
    [chunk_overlap = 0] (so [chunk_overlap < chunk_size]), the slice
    [current[-0:]] keeps the whole window, and chunking the three words
    of the text emits a chunk of three tokens, twice. *)
Theorem chunk_text_zero_overlap_exceeds_size :
  chunk_text (DocumentChunker_init 2 0) "a b c" PNone =
    [ {| content := "a b"; chunk_id := 0; metadata := PDict []; length := 2 |};
      {| content := "a b c"; chunk_id := 1; metadata := PDict []; length := 3 |};
      {| content := "a b c"; chunk_id := 2; metadata := PDict []; length := 3 |} ].
Proof. vm_compute. reflexivity. Qed.

(** ** Vector index and retriever *)

Lemma doc_ids_first (n : nat) : hd_error (doc_ids (S n)) = Some "doc_0".
Proof. reflexivity. Qed.

(** C5, at the failing input: two calls of [add_documents] on one
    instance, one document each. The ids of a call are numbered from 0
    whatever the collection holds, so both passages are handed to the
    collection under the id doc_0. *)
Theorem add_documents_twice_same_id :
  (db1 <- add_documents row_log_add test_db
            [[("content", PStr "Document 1");
              ("metadata", PDict [("source", PStr "test1")])]]
            [[1%float]] ;;
   db2 <- add_documents row_log_add db1
            [[("content", PStr "Document 2");
              ("metadata", PDict [("source", PStr "test2")])]]
            [[0%float]] ;;
   Ok (map (fun row => fst (fst (fst row))) (collection db2)))%result
  = Ok ["doc_0"; "doc_0"].
Proof. vm_compute. reflexivity. Qed.

(** C9 (as the code has it): [retrieve] hands [top_k] to the query of
    the collection as it is, also when [top_k <= 0]. Once the query
    text is embedded, [retrieve] raises what the collection raises, and
    returns the empty sequence when the collection answers without a
    document. *)
Theorem retrieve_top_k_unguarded (Collection : Type)
  (collection_query : Collection -> list vector -> Z -> result QueryResult)
  (encode : list string -> result (list vector))
  (self : RAGPipeline Collection) (q : string) (top_k : Z) (v : vector) :
  top_k <= 0 ->
  embed_single encode q = Ok v ->
  (forall e, collection_query (collection (vector_db self)) [v] top_k = Raise e ->
             retrieve collection_query encode self q top_k = Raise e)
  /\ (forall r, collection_query (collection (vector_db self)) [v] top_k = Ok r ->
                no_documents r = true ->
                retrieve collection_query encode self q top_k = Ok []).
Proof.
  intros _ Hv. unfold retrieve, search. rewrite Hv. cbn [rbind].
  split.
  - intros e He. rewrite He. reflexivity.
  - intros r Hr Hn. rewrite Hr. cbn [rbind].
    unfold no_documents in Hn.
    destruct (documents r) as [[| [| d ds] rest] |]; try reflexivity; discriminate.
Qed.

Lemma retrieve_top_k_unguarded_witness :
  (-1 <= 0 /\ embed_single unit_encode "query" = Ok [1%float])
  /\ retrieve strict_query unit_encode strict_pipeline "query" (-1)
      = Raise (Exn TypeError "Number of requested results cannot be negative").
Proof.
  assert (H1 : -1 <= 0) by lia.
  assert (H2 : embed_single unit_encode "query" = Ok [1%float]) by reflexivity.
  split; [split; assumption |].
  apply (proj1 (retrieve_top_k_unguarded unit strict_query unit_encode
                  strict_pipeline "query" (-1) [1%float] H1 H2)).
  reflexivity.
Defined.

(** C9, the claim as stated fails: on a collection that cannot answer a
    request for a negative number of results, [retrieve] with
    [top_k = -1] raises; it does not return the empty sequence. *)
Lemma retrieve_negative_top_k_raises :
  retrieve strict_query unit_encode strict_pipeline "query" (-1)
  = Raise (Exn TypeError "Number of requested results cannot be negative").
Proof. reflexivity. Qed.

(** ** Tool registry *)

Lemma dict_mem_get {V : Type} (k : string) (d : list (string * V)) :
  dict_mem k d = true -> exists v, dict_get k d = Some v.
Proof.
  unfold dict_mem. destruct (dict_get k d) as [v |]; [eauto | discriminate].
Qed.

(** A registered tool is called as it is: [execute_tool] returns what
    the [execute] method of the tool returns on the keyword arguments,
    and raises what it raises. *)
Lemma execute_tool_registered (self : ToolRegistry) (tool_name : string)
  (tool : Tool) (kwargs : pydict) :
  dict_get tool_name (tools self) = Some tool ->
  execute_tool self tool_name kwargs = execute tool kwargs.
Proof.
  intros H. unfold execute_tool, dict_mem. rewrite H. reflexivity.
Qed.

(** C8: for a name that is not in the registry, [execute_tool] returns
    a [ToolResult] with [success = false], no output and the error
    text that names the tool; it does not raise. *)
Theorem execute_tool_unknown (self : ToolRegistry) (tool_name : string)
  (kwargs : pydict) :
  dict_mem tool_name (tools self) = false ->
  execute_tool self tool_name kwargs =
    Ok {| success := false;
          output := PNone;
          error := Some ("Tool '" ++ tool_name ++ "' not found") |}.
Proof.
  intros H. unfold execute_tool. rewrite H. reflexivity.
Qed.

Lemma execute_tool_unknown_witness :
  dict_mem "does-not-exist" (tools demo_registry) = false /\
  execute_tool demo_registry "does-not-exist" [] =
    Ok {| success := false;
          output := PNone;
          error := Some "Tool 'does-not-exist' not found" |}.
Proof.
  assert (H : dict_mem "does-not-exist" (tools demo_registry) = false) by reflexivity.
  split; [exact H |].
  exact (execute_tool_unknown demo_registry "does-not-exist" [] H).
Defined.





Lemma default_tools (py_str : pyval -> string) (py_eval : pyval -> result pyval)
  (now : string) (rag : option (pyval -> pyval -> result (list pyval)))
  (tool_name : string) (tool : Tool) :
  dict_get tool_name (tools (ToolRegistry_init py_str py_eval now rag)) = Some tool ->
  (exists r, rag = Some r /\ tool = KnowledgeBaseTool r)
  \/ tool = CalculatorTool py_eval
  \/ tool = WebSearchTool py_str now.
Proof.
  unfold ToolRegistry_init, _register_default_tools, register.
  destruct rag as [r |]; cbn; intros H.
  - destruct (String.eqb tool_name "knowledge_base_search").
    + left. exists r. split; [reflexivity | congruence].
    + destruct (String.eqb tool_name "calculator").
      * right. left. congruence.
      * destruct (String.eqb tool_name "web_search"); [| discriminate].
        right. right. congruence.
  - destruct (String.eqb tool_name "calculator").
    + right. left. congruence.
    + destruct (String.eqb tool_name "web_search"); [| discriminate].
      right. right. congruence.
Qed.




(** Whatever [eval], [str] and the clock do, calling the calculator
    without its argument raises. *)
Lemma calculator_without_expression (py_str : pyval -> string)
  (py_eval : pyval -> result pyval) (now : string)
  (rag : option (pyval -> pyval -> result (list pyval))) :
  execute_tool (ToolRegistry_init py_str py_eval now rag) "calculator" []
  = Raise (Exn TypeError "execute() got missing or unexpected arguments").
Proof. destruct rag; reflexivity. Qed.


(** ** Agent loop *)

Lemma contains_nonempty (sub s : string) :
  str_nonempty sub = true -> contains sub s = true -> str_nonempty s = true.
Proof.
  intros Hsub H. destruct s as [| c s']; [| reflexivity].
  destruct sub; [discriminate | cbn in H; discriminate].
Qed.

Section AgentFacts.
Variable py_str : pyval -> string.
Variable json_loads : string -> option pyval.
Variable json_dumps : pyval -> result string.
Variable LLM : Type.
Variable llm_invoke : LLM -> string -> result string * LLM.

Lemma format_history_depends (a b : AIAgent LLM) :
  conversation_history a = conversation_history b ->
  system_prompt a = system_prompt b ->
  _format_conversation_history a = _format_conversation_history b.
Proof. unfold _format_conversation_history. intros -> ->. reflexivity. Qed.

Lemma iteration_body_final (self : AIAgent LLM) (i : Z) (r : string) (l' : LLM) :
  llm_invoke (llm self) (_format_conversation_history self) = (Ok r, l') ->
  _should_use_tool r && py_bool (_parse_tool_call json_loads r) = false ->
  iteration_body py_str json_loads json_dumps llm_invoke i self =
    Some (Ok (Some r),
          {| agent_name := agent_name self; max_iterations := max_iterations self;
             llm := l'; tool_registry := tool_registry self;
             state := COMPLETED;
             conversation_history := (conversation_history self ++ [assistant_message r])%list;
             current_trace := current_trace self;
             system_prompt := system_prompt self |}).
Proof.
  intros Hllm Hfinal.
  unfold iteration_body, bind, set_state, get_self, invoke_llm, set_llm.
  cbn -[_format_conversation_history _should_use_tool _parse_tool_call run_tool_call].
  match goal with
  | |- context [_format_conversation_history ?a] =>
      change (_format_conversation_history a) with (_format_conversation_history self)
  end.
  rewrite Hllm.
  destruct (_should_use_tool r); cbn [andb] in Hfinal.
  - rewrite Hfinal. reflexivity.
  - reflexivity.
Qed.

(** The tool-call branch never reaches its end. *)
Lemma run_tool_call_raises (self : AIAgent LLM) (i : Z) (r : string) (tool_call : pyval) :
  exists e, run_tool_call py_str json_dumps i r tool_call self = Some (Raise e, self).
Proof.
  unfold run_tool_call, bind, get_self, lift.
  destruct (call_execute_tool py_str (tool_registry self) tool_call) as [t | e];
    [| eauto].
  destruct (py_getitem tool_call "tool") as [tv | e]; [| eauto].
  destruct (py_get tool_call "args" (PDict [])) as [av | e]; [| eauto].
  cbn. eauto.
Qed.

Lemma iteration_body_tool_call (self : AIAgent LLM) (i : Z) (r : string) (l' : LLM) :
  llm_invoke (llm self) (_format_conversation_history self) = (Ok r, l') ->
  _should_use_tool r = true ->
  py_bool (_parse_tool_call json_loads r) = true ->
  exists e,
    iteration_body py_str json_loads json_dumps llm_invoke i self =
      Some (Raise e,
            {| agent_name := agent_name self; max_iterations := max_iterations self;
               llm := l'; tool_registry := tool_registry self;
               state := TOOL_CALLING;
               conversation_history := conversation_history self;
               current_trace := current_trace self;
               system_prompt := system_prompt self |}).
Proof.
  intros Hllm Huse Hparse.
  unfold iteration_body, bind, set_state, get_self, invoke_llm, set_llm.
  cbn -[_format_conversation_history _should_use_tool _parse_tool_call run_tool_call].
  match goal with
  | |- context [_format_conversation_history ?a] =>
      change (_format_conversation_history a) with (_format_conversation_history self)
  end.
  rewrite Hllm, Huse, Hparse.
  match goal with
  | |- context [run_tool_call _ _ _ _ ?tc ?a] =>
      destruct (run_tool_call_raises a i r tc) as [e He]; rewrite He
  end.
  exists e. reflexivity.
Qed.

Lemma iteration_body_llm_raises (self : AIAgent LLM) (i : Z) (e : exn) (l' : LLM) :
  llm_invoke (llm self) (_format_conversation_history self) = (Raise e, l') ->
  iteration_body py_str json_loads json_dumps llm_invoke i self =
    Some (Raise e,
          {| agent_name := agent_name self; max_iterations := max_iterations self;
             llm := l'; tool_registry := tool_registry self;
             state := GENERATING;
             conversation_history := conversation_history self;
             current_trace := current_trace self;
             system_prompt := system_prompt self |}).
Proof.
  intros Hllm.
  unfold iteration_body, bind, set_state, get_self, invoke_llm, set_llm.
  cbn -[_format_conversation_history _should_use_tool _parse_tool_call run_tool_call].
  match goal with
  | |- context [_format_conversation_history ?a] =>
      change (_format_conversation_history a) with (_format_conversation_history self)
  end.
  rewrite Hllm. reflexivity.
Qed.

(** One turn of the loop ends the loop: it breaks with the final
    response or it raises; it never continues, and it needs no fuel. *)
Lemma iteration_body_outcome (self : AIAgent LLM) (i : Z) :
  (exists r s, iteration_body py_str json_loads json_dumps llm_invoke i self
               = Some (Ok (Some r), s))
  \/ (exists e s, iteration_body py_str json_loads json_dumps llm_invoke i self
                  = Some (Raise e, s)).
Proof.
  destruct (llm_invoke (llm self) (_format_conversation_history self))
    as [[r | e] l'] eqn:Hllm.
  - destruct (_should_use_tool r && py_bool (_parse_tool_call json_loads r)) eqn:H.
    + apply andb_prop in H. destruct H as [H1 H2].
      destruct (iteration_body_tool_call self i r l' Hllm H1 H2) as [e He].
      right. eauto.
    + left. rewrite (iteration_body_final self i r l' Hllm H). eauto.
  - right. rewrite (iteration_body_llm_raises self i e l' Hllm). eauto.
Qed.

Lemma agent_loop_step (fuel : nat) (i : Z) (self : AIAgent LLM) :
  i < max_iterations self ->
  agent_loop py_str json_loads json_dumps llm_invoke (S fuel) i self =
    match iteration_body py_str json_loads json_dumps llm_invoke (i + 1) self with
    | Some (Ok (Some r), s) => Some (Ok (Some r, i + 1), s)
    | Some (Ok None, s) =>
        agent_loop py_str json_loads json_dumps llm_invoke fuel (i + 1) s
    | Some (Raise e, s) => Some (Raise e, s)
    | None => None
    end.
Proof.
  intros H. cbn [agent_loop].
  replace (i <? max_iterations self) with true by (symmetry; apply Z.ltb_lt; exact H).
  unfold bind.
  destruct (iteration_body py_str json_loads json_dumps llm_invoke (i + 1) self)
    as [[[[r |] | e] s] |]; reflexivity.
Qed.

Lemma agent_loop_exit (fuel : nat) (i : Z) (self : AIAgent LLM) :
  max_iterations self <= i ->
  agent_loop py_str json_loads json_dumps llm_invoke fuel i self =
    Some (Ok (None, i), self).
Proof.
  intros H. destruct fuel; cbn [agent_loop];
    replace (i <? max_iterations self) with false
      by (symmetry; apply Z.ltb_ge; exact H); reflexivity.
Qed.


Lemma execute_query_unfold (q : string) (verbose : bool) (self : AIAgent LLM) :
  execute_query py_str json_loads json_dumps llm_invoke q verbose self =
    match agent_loop py_str json_loads json_dumps llm_invoke
            (Z.to_nat (max_iterations self)) 0 (reset_for self q) with
    | Some (Ok (final_response, iteration), s) => conclude q final_response iteration s
    | Some (Raise e, s) => Some (Raise e, s)
    | None => None
    end.
Proof.
  unfold execute_query, bind, set_state, set_current_trace, set_conversation_history,
    append_history, update_trace, get_self.
  cbn -[agent_loop Z.to_nat].
  match goal with
  | |- context [agent_loop _ _ _ _ _ _ ?s] => change s with (reset_for self q)
  end.
  destruct (agent_loop py_str json_loads json_dumps llm_invoke
              (Z.to_nat (max_iterations self)) 0 (reset_for self q))
    as [[[[fr it] | e] s] |]; try reflexivity.
  unfold conclude, set_current_trace. destruct (current_trace s); reflexivity.
Qed.

Lemma format_reset (self : AIAgent LLM) (q : string) :
  _format_conversation_history (reset_for self q) = first_prompt (system_prompt self) q.
Proof. reflexivity. Qed.

Lemma parse_tool_call_slice (r : string) :
  _should_use_tool r = true ->
  _parse_tool_call json_loads r =
    match json_loads (tool_call_slice r) with
    | Some v => v
    | None => PNone
    end.
Proof.
  unfold _should_use_tool, _parse_tool_call, tool_call_slice. intros ->. reflexivity.
Qed.

(** The loop never runs out of fuel: a turn never continues. *)
Lemma agent_loop_first_turn (fuel : nat) (self : AIAgent LLM) :
  0 < max_iterations self ->
  agent_loop py_str json_loads json_dumps llm_invoke (S fuel) 0 self =
    match iteration_body py_str json_loads json_dumps llm_invoke 1 self with
    | Some (Ok (Some r), s) => Some (Ok (Some r, 1), s)
    | Some (Ok None, s) => agent_loop py_str json_loads json_dumps llm_invoke fuel 1 s
    | Some (Raise e, s) => Some (Raise e, s)
    | None => None
    end.
Proof. intros H. exact (agent_loop_step fuel 0 self H). Qed.

(** C2 (as the code has it): when the first response passes the
    tool-call test and [json.loads] raises on the slice from the first
    opening brace to the last closing brace, or decodes it to the empty
    object, [execute_query] does not raise: the response is appended
    as the message of the assistant and returned as the final answer,
    with [success = true] after one iteration. *)
Theorem parse_failure_is_final_answer (self : AIAgent LLM) (q : string)
  (verbose : bool) (r : string) (l' : LLM) :
  1 <= max_iterations self ->
  llm_invoke (llm self) (first_prompt (system_prompt self) q) = (Ok r, l') ->
  _should_use_tool r = true ->
  json_loads (tool_call_slice r) = None
  \/ json_loads (tool_call_slice r) = Some (PDict []) ->
  execute_query py_str json_loads json_dumps llm_invoke q verbose self =
    Some (Ok {| out_query := q;
                response := r;
                trace := {| query := q; steps := []; tool_calls := [];
                            messages := [user_message q];
                            total_tokens := 0; status := "completed" |};
                iterations := 1;
                out_success := true |},
          {| agent_name := agent_name self; max_iterations := max_iterations self;
             llm := l'; tool_registry := tool_registry self;
             state := COMPLETED;
             conversation_history := [user_message q; assistant_message r];
             current_trace :=
               Some {| query := q; steps := []; tool_calls := [];
                       messages := [user_message q];
                       total_tokens := 0; status := "completed" |};
             system_prompt := system_prompt self |}).
Proof.
  intros Hmax Hllm Huse Hparse.
  assert (Hfalse : _should_use_tool r && py_bool (_parse_tool_call json_loads r) = false).
  { rewrite (parse_tool_call_slice r Huse), Huse.
    destruct Hparse as [-> | ->]; reflexivity. }
  assert (Hne : str_nonempty r = true).
  { unfold _should_use_tool in Huse. apply andb_prop in Huse.
    apply (contains_nonempty "{" r); [reflexivity | tauto]. }
  rewrite execute_query_unfold.
  destruct (Z.to_nat (max_iterations self)) as [| fuel] eqn:Hfuel; [lia |].
  rewrite agent_loop_first_turn by (cbn; lia).
  rewrite (iteration_body_final (reset_for self q) 1 r l');
    [| rewrite format_reset; exact Hllm | exact Hfalse].
  unfold conclude. cbn. rewrite Hne. reflexivity.
Qed.

(** A first response that is read as a tool call makes the run raise. *)
Lemma tool_call_makes_run_raise (self : AIAgent LLM) (q : string)
  (verbose : bool) (r : string) (l' : LLM) :
  1 <= max_iterations self ->
  llm_invoke (llm self) (first_prompt (system_prompt self) q) = (Ok r, l') ->
  _should_use_tool r = true ->
  py_bool (_parse_tool_call json_loads r) = true ->
  exists e s,
    execute_query py_str json_loads json_dumps llm_invoke q verbose self
    = Some (Raise e, s).
Proof.
  intros Hmax Hllm Huse Hparse.
  rewrite execute_query_unfold.
  destruct (Z.to_nat (max_iterations self)) as [| fuel] eqn:Hfuel; [lia |].
  rewrite agent_loop_first_turn by (cbn; lia).
  destruct (iteration_body_tool_call (reset_for self q) 1 r l') as [e He];
    [rewrite format_reset; exact Hllm | exact Huse | exact Hparse |].
  rewrite He. eauto.
Qed.

(** Every run of [execute_query] comes to an end, and it calls the
    model at most once: with a budget of at least one iteration the
    model is left as the one call on the first prompt leaves it, and
    with an empty budget it is not called. One turn of the loop breaks
    with the final response or raises, so no second prompt, and no
    answer of a tool, is ever put before the model. *)
Theorem execute_query_one_generation (self : AIAgent LLM) (q : string)
  (verbose : bool) :
  exists out s,
    execute_query py_str json_loads json_dumps llm_invoke q verbose self = Some (out, s)
    /\ llm s = (if 1 <=? max_iterations self
                then snd (llm_invoke (llm self) (first_prompt (system_prompt self) q))
                else llm self).
Proof.
  rewrite execute_query_unfold.
  destruct (Z_lt_le_dec 0 (max_iterations self)) as [Hpos | Hnon].
  - replace (1 <=? max_iterations self) with true by (symmetry; apply Z.leb_le; lia).
    destruct (Z.to_nat (max_iterations self)) as [| fuel] eqn:Hfuel; [lia |].
    rewrite agent_loop_first_turn by (cbn; lia).
    destruct (llm_invoke (llm self) (first_prompt (system_prompt self) q))
      as [[r | e] l'] eqn:Hllm; cbn [snd].
    + destruct (_should_use_tool r && py_bool (_parse_tool_call json_loads r)) eqn:H.
      * apply andb_prop in H. destruct H as [H1 H2].
        destruct (iteration_body_tool_call (reset_for self q) 1 r l') as [e He];
          [rewrite format_reset; exact Hllm | exact H1 | exact H2 |].
        rewrite He. eexists. eexists. split; reflexivity.
      * rewrite (iteration_body_final (reset_for self q) 1 r l')
          by (try rewrite format_reset; assumption).
        unfold conclude. cbn. eexists. eexists. split; reflexivity.
    + rewrite (iteration_body_llm_raises (reset_for self q) 1 e l')
        by (rewrite format_reset; exact Hllm).
      eexists. eexists. split; reflexivity.
  - replace (1 <=? max_iterations self) with false by (symmetry; apply Z.leb_gt; lia).
    rewrite agent_loop_exit by (cbn; lia).
    unfold conclude. cbn. eexists. eexists. split; reflexivity.
Qed.

(** A run does not depend on the history, the trace and the state that
    an earlier run left in the agent: the outcome, the agent it leaves
    and the state of the model (which has seen the same prompts) are
    the same. *)
Lemma execute_query_forgets_history (self : AIAgent LLM)
  (st : AgentState) (history : list Message) (tr : option ExecutionTrace)
  (q : string) (verbose : bool) :
  execute_query py_str json_loads json_dumps llm_invoke q verbose
    {| agent_name := agent_name self; max_iterations := max_iterations self;
       llm := llm self; tool_registry := tool_registry self;
       state := st;
       conversation_history := history;
       current_trace := tr;
       system_prompt := system_prompt self |}
  = execute_query py_str json_loads json_dumps llm_invoke q verbose self.
Proof. rewrite !execute_query_unfold. reflexivity. Qed.

(** C10: whatever history, trace and state an earlier call left in the
    agent, [execute_query] starts by replacing the history with the
    user message of this call alone; the rest of the call is the loop
    run from that agent, followed by the closing lines. So every prompt
    of the call is formatted from the system prompt and from messages
    of this call, and no message of an earlier call is in it. *)
Theorem execute_query_resets_history (self : AIAgent LLM)
  (st : AgentState) (history : list Message) (tr : option ExecutionTrace)
  (q : string) (verbose : bool) :
  conversation_history (reset_for self q) = [user_message q]
  /\ _format_conversation_history (reset_for self q)
     = first_prompt (system_prompt self) q
  /\ execute_query py_str json_loads json_dumps llm_invoke q verbose
       {| agent_name := agent_name self; max_iterations := max_iterations self;
          llm := llm self; tool_registry := tool_registry self;
          state := st;
          conversation_history := history;
          current_trace := tr;
          system_prompt := system_prompt self |}
     = match agent_loop py_str json_loads json_dumps llm_invoke
               (Z.to_nat (max_iterations self)) 0 (reset_for self q) with
       | Some (Ok (final_response, iteration), s) =>
           conclude q final_response iteration s
       | Some (Raise e, s) => Some (Raise e, s)
       | None => None
       end.
Proof.
  split; [reflexivity | split; [reflexivity |]].
  rewrite execute_query_unfold. reflexivity.
Qed.

End AgentFacts.

Lemma parse_failure_is_final_answer_witness :
  (1 <= max_iterations (demo_agent 10)
   /\ constant_llm truncated_call (llm (demo_agent 10))
        (first_prompt (system_prompt (demo_agent 10)) "What is 2 + 2?")
      = (Ok truncated_call, tt)
   /\ _should_use_tool truncated_call = true
   /\ (json_decode (tool_call_slice truncated_call) = None
       \/ json_decode (tool_call_slice truncated_call) = Some (PDict [])))
  /\ option_map fst
       (execute_query plain_str json_decode plain_dumps (constant_llm truncated_call)
          "What is 2 + 2?" false (demo_agent 10))
     = Some (Ok {| out_query := "What is 2 + 2?";
                   response := truncated_call;
                   trace := {| query := "What is 2 + 2?"; steps := []; tool_calls := [];
                               messages := [user_message "What is 2 + 2?"];
                               total_tokens := 0; status := "completed" |};
                   iterations := 1;
                   out_success := true |}).
Proof.
  assert (H1 : 1 <= max_iterations (demo_agent 10)) by (cbn; lia).
  assert (H2 : constant_llm truncated_call (llm (demo_agent 10))
                 (first_prompt (system_prompt (demo_agent 10)) "What is 2 + 2?")
               = (Ok truncated_call, tt)) by reflexivity.
  assert (H3 : _should_use_tool truncated_call = true) by reflexivity.
  assert (H4 : json_decode (tool_call_slice truncated_call) = None
               \/ json_decode (tool_call_slice truncated_call) = Some (PDict []))
    by (left; reflexivity).
  split; [split; [exact H1 | split; [exact H2 | split; [exact H3 | exact H4]]] |].
  rewrite (parse_failure_is_final_answer plain_str json_decode plain_dumps unit
             (constant_llm truncated_call) (demo_agent 10) "What is 2 + 2?" false
             truncated_call tt H1 H2 H3 H4).
  reflexivity.
Defined.

(** C2, the claim as stated fails: the response passes the tool-call
    test, its slice decodes to an object that has no key [tool], and
    [execute_query] raises a [KeyError]: the response does not become
    the final answer. *)
Lemma missing_tool_key_raises :
  _should_use_tool tools_object = true
  /\ json_decode (tool_call_slice tools_object) = Some (PDict [("tools", PInt 1)])
  /\ option_map fst
       (execute_query plain_str json_decode plain_dumps (constant_llm tools_object)
          "What is 2 + 2?" false (demo_agent 10))
     = Some (Raise (Exn KeyError "'tool'")).
Proof. split; [| split]; vm_compute; reflexivity. Qed.

(** C1, at the failing input: a model that answers every prompt with
    a well-formed call of the calculator, the default registry and a
    budget of ten iterations. Whatever [eval], [str], the clock and
    [json.dumps] do, the first iteration executes the tool and then
    raises the [TypeError] of [asdict] on the [ToolResult]: no result
    with [success = false] is returned after ten iterations. *)
Theorem execute_query_tool_call_raises
  (py_str : pyval -> string) (py_eval : pyval -> result pyval) (now : string)
  (json_dumps : pyval -> result string) :
  option_map fst
    (execute_query py_str json_decode json_dumps (constant_llm calculator_call)
       "What is 2 + 2?" false
       (AIAgent_init "GenAI Agent" tt (ToolRegistry_init py_str py_eval now None) 10))
  = Some (Raise (Exn TypeError "asdict() should be called on dataclass instances")).
Proof.
  vm_compute. destruct (py_eval (PStr "2 + 2")); reflexivity.
Qed.

(** With an empty budget the loop body never runs: the result is the
    failure record, with no iteration counted. *)
Lemma execute_query_empty_budget
  (py_str : pyval -> string) (json_loads : string -> option pyval)
  (json_dumps : pyval -> result string) (LLM : Type)
  (llm_invoke : LLM -> string -> result string * LLM)
  (self : AIAgent LLM) (q : string) (verbose : bool) :
  max_iterations self <= 0 ->
  option_map fst (execute_query py_str json_loads json_dumps llm_invoke q verbose self)
  = Some (Ok {| out_query := q;
                response := "Failed to generate response";
                trace := {| query := q; steps := []; tool_calls := [];
                            messages := [user_message q];
                            total_tokens := 0; status := "error" |};
                iterations := 0;
                out_success := false |}).
Proof.
  intros H. rewrite execute_query_unfold.
  rewrite agent_loop_exit by (cbn; lia). reflexivity.
Qed.

(** Two runs on one agent, the model keeping every prompt it is given:
    the prompt of the second run holds the second question only. *)
Lemma second_run_prompt :
  match execute_query plain_str json_decode plain_dumps (recording_llm "4")
          "first question" false
          (AIAgent_init "GenAI Agent" [] demo_registry 10) with
  | Some (_, agent1) =>
      match execute_query plain_str json_decode plain_dumps (recording_llm "4")
              "second question" false agent1 with
      | Some (_, agent2) =>
          llm agent2 =
            [first_prompt (system_prompt agent1) "first question";
             first_prompt (system_prompt agent1) "second question"]
      | None => False
      end
  | None => False
  end.
Proof. vm_compute. reflexivity. Qed.

Lemma tool_call_makes_run_raise_witness :
  (1 <= max_iterations (demo_agent 10)
   /\ constant_llm calculator_call (llm (demo_agent 10))
        (first_prompt (system_prompt (demo_agent 10)) "What is 2 + 2?")
      = (Ok calculator_call, tt)
   /\ _should_use_tool calculator_call = true
   /\ py_bool (_parse_tool_call json_decode calculator_call) = true)
  /\ exists e s,
       execute_query plain_str json_decode plain_dumps (constant_llm calculator_call)
         "What is 2 + 2?" false (demo_agent 10)
       = Some (Raise e, s).
Proof.
  assert (H1 : 1 <= max_iterations (demo_agent 10)) by (cbn; lia).
  assert (H2 : constant_llm calculator_call (llm (demo_agent 10))
                 (first_prompt (system_prompt (demo_agent 10)) "What is 2 + 2?")
               = (Ok calculator_call, tt)) by reflexivity.
  assert (H3 : _should_use_tool calculator_call = true) by reflexivity.
  assert (H4 : py_bool (_parse_tool_call json_decode calculator_call) = true)
    by reflexivity.
  split; [split; [exact H1 | split; [exact H2 | split; [exact H3 | exact H4]]] |].
  exact (tool_call_makes_run_raise plain_str json_decode plain_dumps unit
           (constant_llm calculator_call) (demo_agent 10) "What is 2 + 2?" false
           calculator_call tt H1 H2 H3 H4).
Defined.

Lemma execute_query_empty_budget_witness :
  max_iterations (demo_agent 0) <= 0
  /\ option_map fst
       (execute_query plain_str json_decode plain_dumps (constant_llm calculator_call)
          "What is 2 + 2?" false (demo_agent 0))
     = Some (Ok {| out_query := "What is 2 + 2?";
                   response := "Failed to generate response";
                   trace := {| query := "What is 2 + 2?"; steps := []; tool_calls := [];
                               messages := [user_message "What is 2 + 2?"];
                               total_tokens := 0; status := "error" |};
                   iterations := 0;
                   out_success := false |}).
Proof.
  assert (H : max_iterations (demo_agent 0) <= 0) by (cbn; lia).
  split; [exact H |].
  exact (execute_query_empty_budget plain_str json_decode plain_dumps unit
           (constant_llm calculator_call) (demo_agent 0) "What is 2 + 2?" false H).
Defined.

(* ================================================================== *)
(** * Further properties *)
(* ================================================================== *)

(** ** Cleaning and the paragraph split *)

Lemma str_forall_impl (p q : ascii -> bool) (s : string) :
  (forall c, p c = true -> q c = true) ->
  str_forall p s = true -> str_forall q s = true.
Proof.
  intros Hpq. induction s as [| c s IH]; cbn; [reflexivity |].
  intros H. apply andb_prop in H. destruct H as [H1 H2].
  rewrite (Hpq c H1), (IH H2). reflexivity.
Qed.

Lemma str_forall_filter (p keep : ascii -> bool) (s : string) :
  str_forall p s = true -> str_forall p (str_filter keep s) = true.
Proof.
  induction s as [| c s IH]; cbn; [reflexivity |].
  intros H. apply andb_prop in H. destruct H as [H1 H2].
  destruct (keep c); cbn; [rewrite H1 |]; auto.
Qed.

Lemma str_forall_filter_keep (keep : ascii -> bool) (s : string) :
  str_forall keep (str_filter keep s) = true.
Proof.
  induction s as [| c s IH]; cbn; [reflexivity |].
  destruct (keep c) eqn:E; cbn; [rewrite E |]; auto.
Qed.

Lemma str_forall_lstrip (p : ascii -> bool) (s : string) :
  str_forall p s = true -> str_forall p (lstrip s) = true.
Proof.
  induction s as [| c s IH]; cbn [lstrip]; [reflexivity |].
  intros H. destruct (is_space c); [| exact H].
  cbn in H. apply andb_prop in H. tauto.
Qed.

Lemma str_forall_rstrip (p : ascii -> bool) (s : string) :
  str_forall p s = true -> str_forall p (rstrip s) = true.
Proof.
  induction s as [| c s IH]; cbn [rstrip]; [reflexivity |].
  intros H. cbn in H. apply andb_prop in H. destruct H as [H1 H2].
  specialize (IH H2).
  destruct (rstrip s) as [| d r].
  - destruct (is_space c); cbn; [reflexivity | now rewrite H1].
  - cbn [str_forall]. rewrite H1. exact IH.
Qed.

Lemma collapse_ws_spaces (s : string) :
  forall b, str_forall space_or_not_blank (collapse_ws b s) = true.
Proof.
  induction s as [| c s IH]; intros b; cbn [collapse_ws]; [reflexivity |].
  destruct (is_space c) eqn:E.
  - destruct b; [apply IH |]. cbn [str_forall]. now rewrite IH.
  - cbn [str_forall]. unfold space_or_not_blank at 1. rewrite E, IH. reflexivity.
Qed.

Lemma lstrip_starts_clean (s : string) : starts_clean (lstrip s) = true.
Proof.
  induction s as [| c s IH]; cbn [lstrip]; [reflexivity |].
  destruct (is_space c) eqn:E; [exact IH | cbn; now rewrite E].
Qed.

Lemma lstrip_clean (s : string) : starts_clean s = true -> lstrip s = s.
Proof.
  destruct s as [| c s]; cbn; [reflexivity |]. intros H.
  apply negb_true_iff in H. now rewrite H.
Qed.

Lemma rstrip_starts_clean (s : string) :
  starts_clean s = true -> starts_clean (rstrip s) = true.
Proof.
  destruct s as [| c s]; cbn [rstrip starts_clean]; [reflexivity |].
  intros H. destruct (rstrip s).
  - apply negb_true_iff in H. rewrite H. cbn. now rewrite H.
  - cbn. exact H.
Qed.

Lemma rstrip_idempotent (s : string) : rstrip (rstrip s) = rstrip s.
Proof.
  induction s as [| c s IH]; cbn [rstrip]; [reflexivity |].
  destruct (rstrip s) as [| d r] eqn:E.
  - destruct (is_space c) eqn:Ec; cbn [rstrip]; [reflexivity | now rewrite Ec].
  - cbn [rstrip]. fold rstrip. 
    change (match rstrip (String d r) with
            | "" => if is_space c then "" else String c ""
            | String a s0 => String c (String a s0)
            end = String c (String d r)).
    rewrite IH. reflexivity.
Qed.

(** [strip] gives a string with no whitespace at either end, and
    leaves such a string as it is. *)
Lemma py_strip_idempotent (s : string) : py_strip (py_strip s) = py_strip s.
Proof.
  unfold py_strip.
  rewrite (lstrip_clean (rstrip (lstrip s)))
    by (apply rstrip_starts_clean, lstrip_starts_clean).
  apply rstrip_idempotent.
Qed.

Lemma py_strip_after_space (s : string) :
  py_strip (String " " (py_strip s)) = py_strip s.
Proof.
  unfold py_strip at 1. change (lstrip (String " " (py_strip s))) with (lstrip (py_strip s)).
  apply py_strip_idempotent.
Qed.

Lemma split_sep2_absent (a b : ascii) (s : string) :
  forall cur, str_forall (fun c => negb (Ascii.eqb c a)) s = true ->
              split_sep2 a b cur s = [cur ++ s].
Proof.
  induction s as [| c s IH]; intros cur H.
  - cbn. now rewrite append_empty_r.
  - cbn [str_forall] in H. apply andb_prop in H. destruct H as [Hc Hs].
    apply negb_true_iff in Hc.
    cbn [split_sep2]. destruct s as [| d s'].
    + unfold snoc. reflexivity.
    + rewrite Hc. cbn [andb]. rewrite (IH (snoc cur c) Hs).
      unfold snoc. rewrite append_assoc. reflexivity.
Qed.

Lemma clean_text_spaces (text : string) :
  str_forall space_or_not_blank (_clean_text text) = true.
Proof.
  unfold _clean_text, py_strip.
  apply str_forall_rstrip, str_forall_lstrip, str_forall_filter, collapse_ws_spaces.
Qed.

Lemma clean_text_no_newline (text : string) :
  str_forall (fun c => negb (Ascii.eqb c newline)) (_clean_text text) = true.
Proof.
  apply (str_forall_impl space_or_not_blank); [| apply clean_text_spaces].
  intros c H. unfold space_or_not_blank in H.
  destruct (Ascii.eqb_spec c newline) as [-> | Hn]; [| reflexivity].
  cbn in H. discriminate.
Qed.

Lemma clean_text_stripped (text : string) :
  py_strip (_clean_text text) = _clean_text text.
Proof. unfold _clean_text. apply py_strip_idempotent. Qed.

(** What [_clean_text] returns: every character is a word character,
    one of the seven kept punctuation marks or a space (no other
    whitespace is left), and no whitespace stands at either end. *)
Theorem clean_text_shape (text : string) :
  str_forall clean_char (_clean_text text) = true
  /\ py_strip (_clean_text text) = _clean_text text.
Proof.
  split; [| apply clean_text_stripped].
  assert (H1 : str_forall (fun c => is_word c || is_space c || is_kept_punct c)
                 (_clean_text text) = true).
  { unfold _clean_text, py_strip.
    apply str_forall_rstrip, str_forall_lstrip, str_forall_filter_keep. }
  pose proof (clean_text_spaces text) as H2.
  revert H1 H2. generalize (_clean_text text) as s.
  induction s as [| c s IH]; cbn [str_forall]; [reflexivity |].
  intros H1 H2. apply andb_prop in H1. apply andb_prop in H2.
  destruct H1 as [H1 H1'], H2 as [H2 H2'].
  rewrite (IH H1' H2'), andb_true_r.
  unfold clean_char, space_or_not_blank in *.
  destruct (is_word c); [reflexivity |].
  destruct (is_kept_punct c); [reflexivity |].
  destruct (is_space c); cbn in *; [exact H2 | discriminate].
Qed.

(** The whitespace that is left can be a run of spaces: runs are
    collapsed before the other characters are removed, so a removed
    character with a space on either side leaves two spaces. *)
Example clean_text_keeps_double_space : _clean_text "a @ b" = "a  b".
Proof. reflexivity. Qed.

(** The paragraph split after cleaning: the cleaned text holds no
    newline, so it is one paragraph, and [_semantic_split] returns it as
    the only chunk (no chunk at all for an empty text when [chunk_size]
    is not positive). *)
Lemma semantic_split_clean (self : DocumentChunker) (text : string) :
  _semantic_split self (_clean_text text) =
    if str_nonempty (_clean_text text) || (0 <? chunk_size self)
    then [_clean_text text] else [].
Proof.
  unfold _semantic_split.
  rewrite (split_sep2_absent newline newline (_clean_text text) "")
    by apply clean_text_no_newline.
  cbn [append fold_left]. unfold semantic_step.
  change (str_len "") with 0.
  pose proof (clean_text_stripped text) as Hs.
  destruct (0 + str_len (_clean_text text) <? chunk_size self) eqn:E.
  - cbn [append str_nonempty].
    replace (0 <? chunk_size self) with true.
    + rewrite orb_true_r. rewrite <- Hs at 1. rewrite py_strip_after_space, Hs.
      reflexivity.
    + symmetry. apply Z.ltb_lt. apply Z.ltb_lt in E. unfold str_len in E. lia.
  - cbn [str_nonempty].
    destruct (_clean_text text) as [| c t] eqn:Et.
    + cbn [str_nonempty orb]. apply Z.ltb_ge in E. change (str_len "") with 0 in E.
      replace (0 <? chunk_size self) with false by (symmetry; apply Z.ltb_ge; lia).
      reflexivity.
    + cbn [str_nonempty orb]. rewrite Hs. reflexivity.
Qed.

(** A text of at most [chunk_size] words is one chunk: the cleaned
    text itself. *)
Theorem chunk_text_one_chunk (self : DocumentChunker) (text : string) (meta : pyval) :
  1 <= chunk_size self ->
  len (py_split (_clean_text text)) <= chunk_size self ->
  chunk_text self text meta =
    [ {| content := _clean_text text; chunk_id := 0;
         metadata := py_or meta (PDict []);
         length := len (py_split (_clean_text text)) |} ].
Proof.
  intros Hs Hn. unfold chunk_text. rewrite semantic_split_clean.
  replace (0 <? chunk_size self) with true by (symmetry; apply Z.ltb_lt; lia).
  rewrite orb_true_r. unfold _size_split, size_split_chunk. cbn [flat_map].
  replace (len (py_split (_clean_text text)) <=? chunk_size self) with true
    by (symmetry; apply Z.leb_le; exact Hn).
  reflexivity.
Qed.

Lemma chunk_text_one_chunk_witness :
  (1 <= chunk_size (DocumentChunker_init 100 20)
   /\ len (py_split (_clean_text "This is  a test. ")) <= chunk_size (DocumentChunker_init 100 20))
  /\ chunk_text (DocumentChunker_init 100 20) "This is  a test. " PNone =
       [ {| content := "This is a test."; chunk_id := 0;
            metadata := PDict []; length := 4 |} ].
Proof.
  assert (H1 : 1 <= chunk_size (DocumentChunker_init 100 20)) by (cbn; lia).
  assert (H2 : len (py_split (_clean_text "This is  a test. "))
               <= chunk_size (DocumentChunker_init 100 20)) by (vm_compute; discriminate).
  split; [split; assumption |].
  exact (chunk_text_one_chunk (DocumentChunker_init 100 20) "This is  a test. " PNone H1 H2).
Defined.

Lemma nth_error_enumerate_from {A : Type} (l : list A) :
  forall (i : Z) (k : nat),
    nth_error (enumerate_from i l) k =
      option_map (fun x => (i + Z.of_nat k, x)) (nth_error l k).
Proof.
  induction l as [| x l IH]; intros i k.
  - destruct k; reflexivity.
  - destruct k as [| k]; cbn [enumerate_from nth_error option_map].
    + rewrite Z.add_0_r. reflexivity.
    + rewrite IH. destruct (nth_error l k); cbn; [| reflexivity].
      do 2 f_equal. lia.
Qed.

(** The passages of [chunk_text] are numbered in order from 0; each
    carries the token count of its own content and the same metadata. *)
Theorem chunk_text_ordinals (self : DocumentChunker) (text : string)
  (meta : pyval) (k : nat) (c : Chunk) :
  nth_error (chunk_text self text meta) k = Some c ->
  chunk_id c = Z.of_nat k
  /\ length c = len (py_split (content c))
  /\ metadata c = py_or meta (PDict []).
Proof.
  unfold chunk_text, enumerate. rewrite nth_error_map, nth_error_enumerate_from.
  destruct (nth_error _ k) as [chunk |]; cbn; [| discriminate].
  intros H. injection H as <-. cbn. auto.
Qed.

Lemma chunk_text_ordinals_witness :
  nth_error (chunk_text (DocumentChunker_init 3 1) "a b c d e" PNone) 1
  = Some {| content := "c d e"; chunk_id := 1; metadata := PDict []; length := 3 |}
  /\ (chunk_id {| content := "c d e"; chunk_id := 1; metadata := PDict []; length := 3 |}
      = Z.of_nat 1
      /\ length {| content := "c d e"; chunk_id := 1; metadata := PDict []; length := 3 |}
         = len (py_split "c d e")
      /\ metadata {| content := "c d e"; chunk_id := 1; metadata := PDict []; length := 3 |}
         = py_or PNone (PDict [])).
Proof.
  assert (H : nth_error (chunk_text (DocumentChunker_init 3 1) "a b c d e" PNone) 1
              = Some {| content := "c d e"; chunk_id := 1; metadata := PDict [];
                        length := 3 |}) by (vm_compute; reflexivity).
  split; [exact H |].
  exact (chunk_text_ordinals (DocumentChunker_init 3 1) "a b c d e" PNone 1 _ H).
Defined.

(** *** No word is lost *)

Section EveryWord.

Variable self : DocumentChunker.

Lemma windows_cover (words : list string) :
  forall sub cur,
    Forall (fun w => word_ok w = true) words ->
    Forall (fun w => word_ok w = true) cur ->
    (forall w, In w words ->
       covered (fst (fold_left (window_step self) words (sub, cur)))
               (snd (fold_left (window_step self) words (sub, cur))) w)
    /\ (forall w, covered sub cur w ->
          covered (fst (fold_left (window_step self) words (sub, cur)))
                  (snd (fold_left (window_step self) words (sub, cur))) w)
    /\ Forall (fun w => word_ok w = true)
              (snd (fold_left (window_step self) words (sub, cur))).
Proof.
  induction words as [| x ws IH]; intros sub cur Hws Hcur; cbn [fold_left].
  - cbn [fst snd]. split; [intros w [] | split; [auto | exact Hcur]].
  - inversion Hws as [| x' ws' Hx Hws']; subst.
    assert (Hcur' : Forall (fun w => word_ok w = true) (cur ++ [x])).
    { apply Forall_app. split; [exact Hcur | constructor; [exact Hx | constructor]]. }
    assert (Hstep : (forall w, covered sub cur w \/ w = x ->
                       covered (fst (window_step self (sub, cur) x))
                               (snd (window_step self (sub, cur) x)) w)
                    /\ Forall (fun w => word_ok w = true)
                              (snd (window_step self (sub, cur) x))).
    { unfold window_step.
      destruct (chunk_size self <=? len (cur ++ [x])); cbn [fst snd].
      - split; [| apply Forall_slice_from; exact Hcur'].
        intros w [[[s [Hs Hw]] | Hw] | ->].
        + left. exists s. split; [apply in_or_app; left; exact Hs | exact Hw].
        + left. exists (py_join " " (cur ++ [x])).
          split; [apply in_or_app; right; left; reflexivity |].
          rewrite py_split_join by exact Hcur'. apply in_or_app. left. exact Hw.
        + left. exists (py_join " " (cur ++ [x])).
          split; [apply in_or_app; right; left; reflexivity |].
          rewrite py_split_join by exact Hcur'. apply in_or_app. right. left. reflexivity.
      - split; [| exact Hcur'].
        intros w [[[s [Hs Hw]] | Hw] | ->].
        + left. eauto.
        + right. apply in_or_app. left. exact Hw.
        + right. apply in_or_app. right. left. reflexivity. }
    destruct Hstep as [Hstep Hok].
    destruct (window_step self (sub, cur) x) as [sub1 cur1] eqn:E.
    cbn [fst snd] in Hstep, Hok.
    destruct (IH sub1 cur1 Hws' Hok) as [H1 [H2 H3]].
    split; [| split; [| exact H3]].
    + intros w [<- | Hw]; [apply H2, Hstep; right; reflexivity | apply H1; exact Hw].
    + intros w Hw. apply H2, Hstep. left. exact Hw.
Qed.

Lemma size_split_chunk_keeps_words (chunk w : string) :
  In w (py_split chunk) ->
  exists c, In c (size_split_chunk self chunk) /\ In w (py_split c).
Proof.
  intros Hw. unfold size_split_chunk.
  destruct (len (py_split chunk) <=? chunk_size self).
  - exists chunk. split; [left; reflexivity | exact Hw].
  - destruct (windows_cover (py_split chunk) [] [] (py_split_words chunk) (Forall_nil _))
      as [H1 [_ H3]].
    specialize (H1 w Hw).
    destruct (fold_left (window_step self) (py_split chunk) ([], [])) as [sub cur].
    cbn [fst snd] in H1, H3.
    destruct H1 as [[s [Hs Hin]] | Hin].
    + exists s. split; [| exact Hin].
      destruct cur; [exact Hs | apply in_or_app; left; exact Hs].
    + destruct cur as [| c0 cur']; [destruct Hin |].
      exists (py_join " " (c0 :: cur')).
      split; [apply in_or_app; right; left; reflexivity |].
      rewrite py_split_join by exact H3. exact Hin.
Qed.

End EveryWord.

(** Whatever the sizes are, every word of the cleaned text is in some
    passage that [chunk_text] returns: the window loop drops no word. *)
Theorem chunk_text_keeps_every_word (self : DocumentChunker) (text : string)
  (meta : pyval) (w : string) :
  In w (py_split (_clean_text text)) ->
  exists c, In c (chunk_text self text meta) /\ In w (py_split (content c)).
Proof.
  intros Hw.
  assert (Hne : str_nonempty (_clean_text text) = true).
  { destruct (_clean_text text); [destruct Hw | reflexivity]. }
  destruct (size_split_chunk_keeps_words self (_clean_text text) w Hw) as [s [Hs Hin]].
  unfold chunk_text. rewrite semantic_split_clean, Hne. cbn [orb].
  unfold _size_split. cbn [flat_map]. rewrite app_nil_r.
  unfold enumerate.
  destruct (In_nth_error _ _ Hs) as [k Hk].
  exists {| content := s; chunk_id := 0 + Z.of_nat k;
            metadata := py_or meta (PDict []); length := len (py_split s) |}.
  split; [| exact Hin].
  apply (nth_error_In _ k).
  rewrite nth_error_map, nth_error_enumerate_from, Hk. reflexivity.
Qed.

Lemma chunk_text_keeps_every_word_witness :
  In "c" (py_split (_clean_text "a b c"))
  /\ exists c, In c (chunk_text (DocumentChunker_init 2 1) "a b c" PNone)
               /\ In "c" (py_split (content c)).
Proof.
  assert (H : In "c" (py_split (_clean_text "a b c")))
    by (vm_compute; right; right; left; reflexivity).
  split; [exact H |].
  exact (chunk_text_keeps_every_word (DocumentChunker_init 2 1) "a b c" PNone "c" H).
Defined.

(** *** Overlap of consecutive windows *)

Lemma fold_window_words (self : DocumentChunker) (words : list string) :
  forall sub cur,
    (fst (fold_left (window_step self) words (sub, cur))
     ++ match snd (fold_left (window_step self) words (sub, cur)) with
        | [] => []
        | c :: cs => [py_join " " (c :: cs)]
        end)%list
    = (sub ++ map (py_join " ") (window_words self cur words))%list.
Proof.
  induction words as [| w ws IH]; intros sub cur; cbn [fold_left window_words].
  - cbn [fst snd]. destruct cur; reflexivity.
  - unfold window_step at 2 4.
    destruct (chunk_size self <=? len (cur ++ [w])%list).
    + rewrite IH. cbn [map]. rewrite <- app_assoc. reflexivity.
    + apply IH.
Qed.

Lemma size_split_chunk_windows (self : DocumentChunker) (chunk : string) :
  chunk_size self < len (py_split chunk) ->
  size_split_chunk self chunk
  = map (py_join " ") (window_words self [] (py_split chunk)).
Proof.
  intros H. unfold size_split_chunk.
  replace (len (py_split chunk) <=? chunk_size self) with false
    by (symmetry; apply Z.leb_gt; exact H).
  pose proof (fold_window_words self (py_split chunk) [] []) as Hf.
  destruct (fold_left (window_step self) (py_split chunk) ([], [])) as [sub cur].
  cbn [fst snd app] in Hf. rewrite <- Hf.
  destruct cur; [now rewrite app_nil_r | reflexivity].
Qed.

Lemma window_words_ok (self : DocumentChunker) (words : list string) :
  forall cur,
    Forall (fun w => word_ok w = true) words ->
    Forall (fun w => word_ok w = true) cur ->
    Forall (Forall (fun w => word_ok w = true)) (window_words self cur words).
Proof.
  induction words as [| w ws IH]; intros cur Hws Hcur; cbn [window_words].
  - destruct cur; constructor; [exact Hcur | constructor].
  - inversion Hws as [| w' ws' Hw Hws']; subst.
    assert (Hc : Forall (fun w => word_ok w = true) (cur ++ [w])%list).
    { apply Forall_app. split; [exact Hcur | constructor; [exact Hw | constructor]]. }
    destruct (chunk_size self <=? len (cur ++ [w])%list).
    + constructor; [exact Hc |]. apply IH; [exact Hws' |].
      apply Forall_slice_from. exact Hc.
    + apply IH; assumption.
Qed.

Section Overlap.

Variable self : DocumentChunker.
Hypothesis overlap_pos : 1 <= chunk_overlap self.
Hypothesis overlap_small : chunk_overlap self < chunk_size self.

Lemma len_last_words (a : list string) :
  chunk_overlap self <= len a ->
  len (list_slice_from (- chunk_overlap self) a) = chunk_overlap self.
Proof.
  intros H. rewrite len_slice_from. unfold clamp_index.
  replace (- chunk_overlap self <? 0) with true by (symmetry; apply Z.ltb_lt; lia).
  lia.
Qed.

Lemma overlaps_extended (a extra : list string) :
  chunk_overlap self <= len a ->
  overlaps (chunk_overlap self) a
    (list_slice_from (- chunk_overlap self) a ++ extra)%list.
Proof.
  intros H. unfold overlaps.
  pose proof (len_last_words a H) as Hl. unfold len in Hl.
  rewrite firstn_app.
  replace (Z.to_nat (chunk_overlap self)
           - List.length (list_slice_from (- chunk_overlap self) a))%nat with 0%nat by lia.
  cbn [firstn]. rewrite app_nil_r. apply firstn_all2. lia.
Qed.

Lemma windows_chained_after (words : list string) :
  forall a extra,
    chunk_overlap self <= len a ->
    len (list_slice_from (- chunk_overlap self) a ++ extra)%list < chunk_size self ->
    chained (overlaps (chunk_overlap self))
      (a :: window_words self (list_slice_from (- chunk_overlap self) a ++ extra)%list words).
Proof.
  induction words as [| w ws IH]; intros a extra Ha Hlen; cbn [window_words].
  - destruct (list_slice_from (- chunk_overlap self) a ++ extra)%list as [| x l] eqn:E.
    + exact I.
    + cbn [chained]. split; [| exact I]. rewrite <- E. apply overlaps_extended. exact Ha.
  - rewrite <- app_assoc.
    destruct (chunk_size self
              <=? len (list_slice_from (- chunk_overlap self) a ++ extra ++ [w])%list) eqn:E.
    + cbn [chained]. split; [apply overlaps_extended; exact Ha |].
      apply Z.leb_le in E.
      rewrite <- (app_nil_r (list_slice_from _ (list_slice_from _ a ++ extra ++ [w])%list)).
      apply IH.
      * lia.
      * rewrite app_nil_r, len_last_words by lia. lia.
    + apply Z.leb_gt in E. apply (IH a (extra ++ [w])%list); assumption.
Qed.

Lemma windows_chained (words : list string) :
  forall cur,
    chained (overlaps (chunk_overlap self)) (window_words self cur words).
Proof.
  induction words as [| w ws IH]; intros cur; cbn [window_words].
  - destruct cur; exact I.
  - destruct (chunk_size self <=? len (cur ++ [w])%list) eqn:E; [| apply IH].
    apply Z.leb_le in E.
    rewrite <- (app_nil_r (list_slice_from _ (cur ++ [w])%list)).
    apply windows_chained_after.
    + lia.
    + rewrite app_nil_r, len_last_words by lia. lia.
Qed.

End Overlap.

Lemma chained_map {A B : Type} (R : A -> A -> Prop) (R' : B -> B -> Prop)
  (P : A -> Prop) (f : A -> B) (l : list A) :
  (forall a b, P a -> P b -> R a b -> R' (f a) (f b)) ->
  Forall P l -> chained R l -> chained R' (map f l).
Proof.
  intros Hf. induction l as [| a [| b t] IH]; cbn [map chained]; auto.
  intros HP [Hab Ht]. inversion HP as [| a' l' Pa HP']; subst.
  inversion HP' as [| b' l'' Pb _]; subst.
  split; [apply Hf; assumption | apply IH; assumption].
Qed.

Lemma map_snd_enumerate_from {A : Type} (l : list A) :
  forall i, map snd (enumerate_from i l) = l.
Proof.
  induction l as [| x l IH]; intros i; cbn; [reflexivity | now rewrite IH].
Qed.

Lemma chunk_text_contents (self : DocumentChunker) (text : string) (meta : pyval) :
  map content (chunk_text self text meta)
  = _size_split self (_semantic_split self (_clean_text text)).
Proof.
  unfold chunk_text, enumerate. rewrite map_map.
  rewrite <- (map_snd_enumerate_from (_size_split _ _) 0) at 2.
  apply map_ext. intros [i c]. reflexivity.
Qed.

(** Overlap of the windows: when [1 <= chunk_overlap < chunk_size],
    every passage of [chunk_text] after the first begins with the last
    [chunk_overlap] words of the passage before it. *)
Theorem chunk_text_windows_overlap (self : DocumentChunker) (text : string)
  (meta : pyval) :
  1 <= chunk_overlap self ->
  chunk_overlap self < chunk_size self ->
  chained (fun a b => overlaps (chunk_overlap self) (py_split a) (py_split b))
    (map content (chunk_text self text meta)).
Proof.
  intros H1 H2. rewrite chunk_text_contents, semantic_split_clean.
  destruct (str_nonempty (_clean_text text) || (0 <? chunk_size self)); [| exact I].
  unfold _size_split. cbn [flat_map]. rewrite app_nil_r.
  destruct (Z_lt_le_dec (chunk_size self) (len (py_split (_clean_text text))))
    as [Hlong | Hshort].
  - rewrite size_split_chunk_windows by exact Hlong.
    apply (chained_map (overlaps (chunk_overlap self)) _
             (Forall (fun w => word_ok w = true))).
    + intros a b Ha Hb Hab. rewrite !py_split_join by assumption. exact Hab.
    + apply window_words_ok; [apply py_split_words | constructor].
    + apply windows_chained; assumption.
  - unfold size_split_chunk.
    replace (len (py_split (_clean_text text)) <=? chunk_size self) with true
      by (symmetry; apply Z.leb_le; exact Hshort).
    exact I.
Qed.

Lemma chunk_text_windows_overlap_witness :
  (1 <= chunk_overlap (DocumentChunker_init 3 1)
   /\ chunk_overlap (DocumentChunker_init 3 1) < chunk_size (DocumentChunker_init 3 1))
  /\ chained (fun a b => overlaps 1 (py_split a) (py_split b))
       (map content (chunk_text (DocumentChunker_init 3 1) "a b c d e" PNone)).
Proof.
  assert (H1 : 1 <= chunk_overlap (DocumentChunker_init 3 1)) by (cbn; lia).
  assert (H2 : chunk_overlap (DocumentChunker_init 3 1)
               < chunk_size (DocumentChunker_init 3 1)) by (cbn; lia).
  split; [split; assumption |].
  exact (chunk_text_windows_overlap (DocumentChunker_init 3 1) "a b c d e" PNone H1 H2).
Defined.

(** ** Vector index *)

Lemma str_of_nat_inj (n m : nat) : str_of_nat n = str_of_nat m -> n = m.
Proof.
  unfold str_of_nat. intros H.
  assert (Hu : Some (Nat.to_uint n) = Some (Nat.to_uint m)).
  { rewrite <- !NilEmpty.usu. now rewrite H. }
  injection Hu as Hu.
  rewrite <- (DecimalNat.Unsigned.of_to n), <- (DecimalNat.Unsigned.of_to m).
  now rewrite Hu.
Qed.

Lemma doc_ids_length (n : nat) : List.length (doc_ids n) = n.
Proof. unfold doc_ids. now rewrite length_map, length_seq. Qed.

Lemma doc_ids_NoDup (n : nat) : NoDup (doc_ids n).
Proof.
  unfold doc_ids. apply NoDup_map_NoDup_ForallPairs; [| apply seq_NoDup].
  intros i j _ _ H. apply str_of_nat_inj.
  cbn in H. congruence.
Qed.

Lemma rmap_length {A B : Type} (f : A -> result B) (l : list A) (r : list B) :
  rmap f l = Ok r -> List.length r = List.length l.
Proof.
  revert r. induction l as [| x l IH]; intros r; cbn [rmap].
  - intros H. injection H as <-. reflexivity.
  - destruct (f x) as [y | e]; cbn [rbind]; [| discriminate].
    destruct (rmap f l) as [ys | e]; cbn [rbind]; [| discriminate].
    intros H. injection H as <-. cbn. now rewrite (IH ys eq_refl).
Qed.

(** One call of [add_documents] that succeeds has handed the
    collection one row per document, under ids that are pairwise
    distinct. *)
Theorem add_documents_ids_distinct (Collection : Type)
  (collection_add : Collection -> list string -> list vector -> list pyval ->
                    list pyval -> result Collection)
  (self : VectorDatabase Collection) (docs : list pydict)
  (embeddings : list vector) (db : VectorDatabase Collection) :
  add_documents collection_add self docs embeddings = Ok db ->
  exists ids texts metas,
    collection_add (collection self) ids embeddings texts metas = Ok (collection db)
    /\ NoDup ids
    /\ List.length ids = List.length docs
    /\ List.length embeddings = List.length docs
    /\ List.length texts = List.length docs
    /\ List.length metas = List.length docs.
Proof.
  unfold add_documents.
  destruct (len docs =? len embeddings) eqn:E; cbn [negb]; [| discriminate].
  destruct (rmap (fun doc => dict_getitem doc "content") docs) as [texts | e] eqn:Et;
    cbn [rbind]; [| discriminate].
  destruct (collection_add _ _ _ _ _) as [c | e] eqn:Ec; cbn [rbind]; [| discriminate].
  intros H. injection H as <-. cbn [collection].
  eexists _, texts, _. split; [exact Ec |].
  split; [apply doc_ids_NoDup |].
  split; [apply doc_ids_length |].
  apply Z.eqb_eq in E. unfold len in E.
  split; [lia |]. split; [exact (rmap_length _ _ _ Et) | apply length_map].
Qed.

Lemma add_documents_ids_distinct_witness :
  add_documents row_log_add test_db
    [[("content", PStr "Document 1")]; [("content", PStr "Document 2")]]
    [[1%float]; [0%float]]
  = Ok {| db_path := "./data/embeddings"; collection_name := "test";
          collection := [("doc_0", [1%float], PStr "Document 1", PDict []);
                         ("doc_1", [0%float], PStr "Document 2", PDict [])] |}
  /\ exists ids texts metas,
       row_log_add (collection test_db) ids [[1%float]; [0%float]] texts metas
       = Ok [("doc_0", [1%float], PStr "Document 1", PDict []);
             ("doc_1", [0%float], PStr "Document 2", PDict [])]
       /\ NoDup ids
       /\ List.length ids = 2%nat
       /\ List.length [[1%float]; [0%float]] = 2%nat
       /\ List.length texts = 2%nat
       /\ List.length metas = 2%nat.
Proof.
  assert (H : add_documents row_log_add test_db
                [[("content", PStr "Document 1")]; [("content", PStr "Document 2")]]
                [[1%float]; [0%float]]
              = Ok {| db_path := "./data/embeddings"; collection_name := "test";
                      collection := [("doc_0", [1%float], PStr "Document 1", PDict []);
                                     ("doc_1", [0%float], PStr "Document 2", PDict [])] |})
    by reflexivity.
  split; [exact H |].
  exact (add_documents_ids_distinct _ row_log_add test_db _ _ _ H).
Defined.

Lemma rmap_failure {A B : Type} (f : A -> result B) (l : list A) (e : exn) :
  rmap f l = Raise e -> exists x, In x l /\ f x = Raise e.
Proof.
  induction l as [| x l IH]; cbn [rmap]; [discriminate |].
  destruct (f x) as [y | e'] eqn:Ex; cbn [rbind].
  - destruct (rmap f l) as [ys | e'']; cbn [rbind]; [discriminate |].
    intros H. injection H as ->. destruct (IH eq_refl) as [x' [Hin Hx']].
    exists x'. split; [right; exact Hin | exact Hx'].
  - intros H. injection H as ->. exists x. split; [left; reflexivity | exact Ex].
Qed.

(** How [add_documents] fails: a [ValueError] when the two lists
    differ in length, a [KeyError] when a document has no [content],
    and otherwise only by what the collection raises. *)
Theorem add_documents_failures (Collection : Type)
  (collection_add : Collection -> list string -> list vector -> list pyval ->
                    list pyval -> result Collection)
  (self : VectorDatabase Collection) (docs : list pydict)
  (embeddings : list vector) (e : exn) :
  add_documents collection_add self docs embeddings = Raise e ->
  (len docs <> len embeddings
   /\ e = Exn ValueError "Number of documents must match number of embeddings")
  \/ (len docs = len embeddings
      /\ (exists doc, In doc docs /\ dict_get "content" doc = None)
      /\ e = Exn KeyError "'content'")
  \/ (len docs = len embeddings
      /\ exists ids texts metas,
           collection_add (collection self) ids embeddings texts metas = Raise e).
Proof.
  unfold add_documents.
  destruct (len docs =? len embeddings) eqn:E; cbn [negb].
  - apply Z.eqb_eq in E.
    destruct (rmap (fun doc => dict_getitem doc "content") docs) as [texts | e'] eqn:Et;
      cbn [rbind].
    + destruct (collection_add _ _ _ _ _) as [c | e'] eqn:Ec; cbn [rbind]; [discriminate |].
      intros H. injection H as ->. right. right. split; [exact E | eauto].
    + intros H. injection H as ->. right. left. split; [exact E |].
      destruct (rmap_failure _ _ _ Et) as [doc [Hin Hdoc]].
      unfold dict_getitem in Hdoc.
      destruct (dict_get "content" doc) eqn:Eg; [discriminate |].
      injection Hdoc as <-. split; [eauto | reflexivity].
  - intros H. injection H as <-. left. apply Z.eqb_neq in E. auto.
Qed.

Lemma add_documents_failures_witness :
  add_documents row_log_add test_db [[("content", PStr "Document 1")]] []
  = Raise (Exn ValueError "Number of documents must match number of embeddings")
  /\ ((len [[("content", PStr "Document 1")]] <> len (@nil vector)
       /\ Exn ValueError "Number of documents must match number of embeddings"
          = Exn ValueError "Number of documents must match number of embeddings")
      \/ (len [[("content", PStr "Document 1")]] = len (@nil vector)
          /\ (exists doc, In doc [[("content", PStr "Document 1")]]
                          /\ dict_get "content" doc = None)
          /\ Exn ValueError "Number of documents must match number of embeddings"
             = Exn KeyError "'content'")
      \/ (len [[("content", PStr "Document 1")]] = len (@nil vector)
          /\ exists ids texts metas,
               row_log_add (collection test_db) ids [] texts metas
               = Raise (Exn ValueError
                          "Number of documents must match number of embeddings"))).
Proof.
  assert (H : add_documents row_log_add test_db [[("content", PStr "Document 1")]] []
              = Raise (Exn ValueError
                         "Number of documents must match number of embeddings"))
    by reflexivity.
  split; [exact H |].
  exact (add_documents_failures _ row_log_add test_db _ _ _ H).
Defined.

Lemma search_rows_from (r : QueryResult) (d0 : list float) (m0 : list pyval)
  (restd : list (list float)) (restm : list (list pyval)) :
  distances r = Some (d0 :: restd) ->
  metadatas r = Some (m0 :: restm) ->
  forall (docs : list pyval) (dpre d : list float) (mpre m : list pyval),
    d0 = (dpre ++ d)%list -> m0 = (mpre ++ m)%list ->
    List.length mpre = List.length dpre ->
    List.length d = List.length docs ->
    List.length m = List.length docs ->
    rmap (search_row r) (enumerate_from (Z.of_nat (List.length dpre)) docs)
    = Ok (map result_row (combine docs (combine d m))).
Proof.
  intros Hd Hm. induction docs as [| doc docs IH]; intros dpre d mpre m Ed Em Hl Hld Hlm.
  - reflexivity.
  - destruct d as [| s d']; [discriminate |]. destruct m as [| t m']; [discriminate |].
    cbn [enumerate_from rmap combine map].
    assert (Hrow : search_row r (Z.of_nat (List.length dpre), doc)
                   = Ok (result_row (doc, (s, t)))).
    { unfold search_row, list_index. rewrite Hd, Hm, Nat2Z.id, Ed, Em.
      rewrite nth_error_app2 by lia. rewrite Nat.sub_diag. cbn [nth_error rbind].
      rewrite nth_error_app2 by lia.
      replace (List.length dpre - List.length mpre)%nat with 0%nat by lia.
      reflexivity. }
    rewrite Hrow. cbn [rbind].
    replace (Z.of_nat (List.length dpre) + 1)
      with (Z.of_nat (List.length (dpre ++ [s]))) by (rewrite length_app; cbn; lia).
    rewrite (IH (dpre ++ [s])%list d' (mpre ++ [t])%list m').
    + reflexivity.
    + rewrite <- app_assoc. exact Ed.
    + rewrite <- app_assoc. exact Em.
    + rewrite !length_app. cbn. lia.
    + cbn in Hld. lia.
    + cbn in Hlm. lia.
Qed.

(** [search] on an answer of the collection that has, for the first
    query vector, as many distances and metadata entries as documents:
    one dictionary per document, in the order of the collection, with
    the document as [content], its distance as [score] and its
    metadata. *)
Theorem search_one_row_per_document (Collection : Type)
  (collection_query : Collection -> list vector -> Z -> result QueryResult)
  (self : VectorDatabase Collection) (v : vector) (top_k : Z) (r : QueryResult)
  (docs : list pyval) (d : list float) (m : list pyval)
  (restdocs : list (list pyval)) (restd : list (list float))
  (restm : list (list pyval)) :
  collection_query (collection self) [v] top_k = Ok r ->
  documents r = Some (docs :: restdocs) ->
  distances r = Some (d :: restd) ->
  metadatas r = Some (m :: restm) ->
  List.length d = List.length docs ->
  List.length m = List.length docs ->
  search collection_query self v top_k
  = Ok (map result_row (combine docs (combine d m))).
Proof.
  intros Hq Hdocs Hd Hm Hld Hlm. unfold search. rewrite Hq. cbn [rbind]. rewrite Hdocs.
  destruct docs as [| doc docs']; [reflexivity |].
  unfold enumerate.
  exact (search_rows_from r d m restd restm Hd Hm (doc :: docs') [] d [] m
           eq_refl eq_refl eq_refl Hld Hlm).
Qed.

Lemma search_one_row_per_document_witness :
  search two_document_query (vector_db strict_pipeline) [1%float] 2
  = Ok [PDict [("content", PStr "Hello world"); ("score", PFloat 0%float);
               ("metadata", PDict [("source", PStr "test")])];
        PDict [("content", PStr "Hello universe"); ("score", PFloat 1%float);
               ("metadata", PDict [("source", PStr "test")])]].
Proof.
  exact (search_one_row_per_document unit two_document_query (vector_db strict_pipeline)
           [1%float] 2 _ _ _ _ [] [] [] eq_refl eq_refl eq_refl eq_refl eq_refl eq_refl).
Defined.

(** ** Tool registry *)

Lemma dict_get_set_same {V : Type} (k : string) (v : V) (d : list (string * V)) :
  dict_get k (dict_set k v d) = Some v.
Proof.
  induction d as [| [k' v'] d IH]; cbn [dict_set dict_get].
  - now rewrite String.eqb_refl.
  - destruct (String.eqb k k') eqn:E; cbn [dict_get]; rewrite ?String.eqb_refl, ?E; auto.
Qed.

Lemma dict_get_set_other {V : Type} (k k' : string) (v : V) (d : list (string * V)) :
  k' <> k -> dict_get k' (dict_set k v d) = dict_get k' d.
Proof.
  intros Hne. induction d as [| [k0 v0] d IH]; cbn [dict_set dict_get].
  - destruct (String.eqb_spec k' k); [contradiction | reflexivity].
  - destruct (String.eqb_spec k k0) as [-> | Hk]; cbn [dict_get].
    + destruct (String.eqb_spec k' k0); [contradiction | reflexivity].
    + destruct (String.eqb k' k0); [reflexivity | exact IH].
Qed.

Lemma dict_mem_in_keys {V : Type} (k : string) (d : list (string * V)) :
  dict_mem k d = true <-> In k (dict_keys d).
Proof.
  unfold dict_mem, dict_keys. induction d as [| [k' v'] d IH]; cbn [dict_get map fst In].
  - split; [discriminate | tauto].
  - destruct (String.eqb_spec k k') as [-> | Hne].
    + split; auto.
    + rewrite IH. split; [auto | intros [H | H]; [congruence | exact H]].
Qed.

Lemma dict_keys_set {V : Type} (k : string) (v : V) (d : list (string * V)) :
  dict_keys (dict_set k v d)
  = if dict_mem k d then dict_keys d else (dict_keys d ++ [k])%list.
Proof.
  unfold dict_mem, dict_keys. induction d as [| [k' v'] d IH]; cbn [dict_set dict_get map fst].
  - reflexivity.
  - destruct (String.eqb_spec k k') as [-> | Hne]; cbn [map fst]; [reflexivity |].
    rewrite IH. destruct (dict_get k d); reflexivity.
Qed.

(** Registration and lookup: after [register], [execute_tool] on the
    name of the tool runs this tool, whether the name was new or
    taken; the last registration wins. *)
Theorem register_then_execute (self : ToolRegistry) (tool : Tool) (kwargs : pydict) :
  execute_tool (register self tool) (name tool) kwargs = execute tool kwargs.
Proof.
  apply execute_tool_registered. unfold register. cbn [tools].
  apply dict_get_set_same.
Qed.

(** [register] leaves every other name as it was. *)
Theorem register_other_names (self : ToolRegistry) (tool : Tool)
  (tool_name : string) (kwargs : pydict) :
  tool_name <> name tool ->
  execute_tool (register self tool) tool_name kwargs
  = execute_tool self tool_name kwargs.
Proof.
  intros Hne. unfold execute_tool, dict_mem, register. cbn [tools].
  rewrite (dict_get_set_other (name tool) tool_name tool (tools self) Hne).
  reflexivity.
Qed.

Lemma register_other_names_witness :
  "calculator" <> name (WebSearchTool plain_str "2024-01-01T00:00:00")
  /\ execute_tool (register demo_registry (WebSearchTool plain_str "2024-01-01T00:00:00"))
       "calculator" [("expression", PStr "4")]
     = execute_tool demo_registry "calculator" [("expression", PStr "4")].
Proof.
  assert (H : "calculator" <> name (WebSearchTool plain_str "2024-01-01T00:00:00"))
    by (cbn; discriminate).
  split; [exact H |].
  exact (register_other_names demo_registry _ "calculator" _ H).
Defined.

(** The names [list_tools] gives stay pairwise distinct and keep their
    order under [register]: a name that is taken keeps its place, a new
    name goes to the end. *)
Theorem list_tools_register (self : ToolRegistry) (tool : Tool) :
  NoDup (list_tools self) ->
  list_tools (register self tool)
  = (if dict_mem (name tool) (tools self)
     then list_tools self
     else (list_tools self ++ [name tool])%list)
  /\ NoDup (list_tools (register self tool)).
Proof.
  intros Hnd. unfold list_tools, register. cbn [tools]. rewrite dict_keys_set.
  split; [reflexivity |].
  destruct (dict_mem (name tool) (tools self)) eqn:E; [exact Hnd |].
  apply NoDup_app; [exact Hnd | constructor; [intros [] | constructor] |].
  intros x Hx [<- | []].
  apply dict_mem_in_keys in Hx. congruence.
Qed.

Lemma list_tools_register_witness :
  NoDup (list_tools demo_registry)
  /\ list_tools (register demo_registry (CalculatorTool literal_eval))
     = ["calculator"; "web_search"]
  /\ NoDup (list_tools (register demo_registry (CalculatorTool literal_eval))).
Proof.
  assert (H : NoDup (list_tools demo_registry)).
  { vm_compute. constructor; [intros [H | []]; discriminate |].
    constructor; [intros [] | constructor]. }
  split; [exact H |].
  exact (list_tools_register demo_registry (CalculatorTool literal_eval) H).
Defined.

Lemma calculator_result_shape (py_eval : pyval -> result pyval) (kw : pydict)
  (r : ToolResult) :
  execute (CalculatorTool py_eval) kw = Ok r -> result_well_formed r.
Proof.
  cbn [execute CalculatorTool].
  destruct (bind_kwargs ["expression"] [] kw); cbn [rbind]; [| discriminate].
  destruct (py_eval _); intros H; injection H as <-; cbn; eauto.
Qed.

Lemma web_search_result_shape (py_str : pyval -> string) (now : string)
  (kw : pydict) (r : ToolResult) :
  execute (WebSearchTool py_str now) kw = Ok r -> result_well_formed r.
Proof.
  cbn [execute WebSearchTool].
  destruct (bind_kwargs ["query"] [] kw); cbn [rbind]; [| discriminate].
  intros H; injection H as <-; cbn; eauto.
Qed.

Lemma knowledge_base_result_shape
  (rag : pyval -> pyval -> result (list pyval)) (kw : pydict) (r : ToolResult) :
  execute (KnowledgeBaseTool rag) kw = Ok r -> result_well_formed r.
Proof.
  cbn [execute KnowledgeBaseTool].
  destruct (bind_kwargs ["query"] ["top_k"] kw); cbn [rbind]; [| discriminate].
  destruct (rag _ _); intros H; injection H as <-; cbn; eauto.
Qed.

(** Every [ToolResult] that [execute_tool] returns on the registry of
    the constructor, for a known or an unknown name, is well formed:
    [success = true] comes with no error, and [success = false] comes
    with [output = None] and an error text. *)
Theorem execute_tool_result_shape (py_str : pyval -> string)
  (py_eval : pyval -> result pyval) (now : string)
  (rag : option (pyval -> pyval -> result (list pyval)))
  (tool_name : string) (kwargs : pydict) (r : ToolResult) :
  execute_tool (ToolRegistry_init py_str py_eval now rag) tool_name kwargs = Ok r ->
  result_well_formed r.
Proof.
  destruct (dict_mem tool_name (tools (ToolRegistry_init py_str py_eval now rag))) eqn:E.
  - destruct (dict_mem_get _ _ E) as [tool Hget].
    rewrite (execute_tool_registered _ _ _ kwargs Hget).
    destruct (default_tools _ _ _ _ _ _ Hget) as [[f [_ ->]] | [-> | ->]].
    + apply knowledge_base_result_shape.
    + apply calculator_result_shape.
    + apply web_search_result_shape.
  - unfold execute_tool. rewrite E. cbn [negb].
    intros H. injection H as <-. cbn. eauto.
Qed.

Lemma execute_tool_result_shape_witness :
  execute_tool demo_registry "calculator" [("expression", PStr "4")]
  = Ok {| success := true;
          output := PDict [("expression", PStr "4"); ("result", PInt 4)];
          error := None |}
  /\ result_well_formed
       {| success := true;
          output := PDict [("expression", PStr "4"); ("result", PInt 4)];
          error := None |}.
Proof.
  assert (H : execute_tool demo_registry "calculator" [("expression", PStr "4")]
              = Ok {| success := true;
                      output := PDict [("expression", PStr "4"); ("result", PInt 4)];
                      error := None |})
    by reflexivity.
  split; [exact H |].
  exact (execute_tool_result_shape plain_str literal_eval "2024-01-01T00:00:00" None
           "calculator" _ _ H).
Defined.

(** ** What [execute_query] returns *)

Section AgentOutcomes.

Variable py_str : pyval -> string.
Variable json_loads : string -> option pyval.
Variable json_dumps : pyval -> result string.
Variable LLM : Type.
Variable llm_invoke : LLM -> string -> result string * LLM.

(** What [execute_query] can return. Either the budget is empty: no
    iteration, [success = false] and the failure text. Or the first
    answer of the model is taken as the final one: one iteration,
    [success = true], and the response is that answer, or the failure
    text with the status error when the answer is the empty string.
    The returned trace holds the user message and never a tool call. *)
Theorem execute_query_outcome_shape (self : AIAgent LLM) (q : string)
  (verbose : bool) (out : QueryOutput) (s : AIAgent LLM) :
  execute_query py_str json_loads json_dumps llm_invoke q verbose self
  = Some (Ok out, s) ->
  out_query out = q
  /\ trace out = plain_trace q (status (trace out))
  /\ ((max_iterations self <= 0
       /\ iterations out = 0 /\ out_success out = false
       /\ response out = "Failed to generate response"
       /\ status (trace out) = "error")
      \/ (1 <= max_iterations self
          /\ iterations out = 1 /\ out_success out = true
          /\ exists r l',
               llm_invoke (llm self) (first_prompt (system_prompt self) q) = (Ok r, l')
               /\ _should_use_tool r && py_bool (_parse_tool_call json_loads r) = false
               /\ response out
                  = (if str_nonempty r then r else "Failed to generate response")
               /\ status (trace out)
                  = (if str_nonempty r then "completed" else "error"))).
Proof.
  rewrite execute_query_unfold.
  destruct (Z_lt_le_dec 0 (max_iterations self)) as [Hpos | Hnon].
  - destruct (Z.to_nat (max_iterations self)) as [| fuel] eqn:Hfuel; [lia |].
    rewrite agent_loop_first_turn by (cbn; lia).
    destruct (llm_invoke (llm self) (first_prompt (system_prompt self) q))
      as [[r | e] l'] eqn:Hllm.
    + destruct (_should_use_tool r && py_bool (_parse_tool_call json_loads r)) eqn:H.
      * apply andb_prop in H. destruct H as [H1 H2].
        destruct (iteration_body_tool_call py_str json_loads json_dumps LLM llm_invoke
                    (reset_for self q) 1 r l') as [e He];
          [rewrite format_reset; exact Hllm | exact H1 | exact H2 |].
        rewrite He. discriminate.
      * rewrite (iteration_body_final py_str json_loads json_dumps LLM llm_invoke
                   (reset_for self q) 1 r l');
          [| rewrite format_reset; exact Hllm | exact H].
        unfold conclude. cbn. intros Hout. injection Hout as <- _.
        cbn. split; [reflexivity |]. split; [reflexivity |].
        right. split; [lia |]. split; [reflexivity |]. split; [reflexivity |].
        exists r, l'. split; [reflexivity |]. split; [exact H |].
        destruct (str_nonempty r); split; reflexivity.
    + rewrite (iteration_body_llm_raises py_str json_loads json_dumps LLM llm_invoke
                 (reset_for self q) 1 e l')
        by (rewrite format_reset; exact Hllm).
      discriminate.
  - rewrite agent_loop_exit by (cbn; lia).
    unfold conclude. cbn. intros Hout. injection Hout as <- _.
    cbn. split; [reflexivity |]. split; [reflexivity |].
    left. repeat split; [exact Hnon].
Qed.

(** A failure of the generation call is not handled: it leaves
    [execute_query] as it is, with the agent in the state GENERATING
    and the trace still pending. *)
Theorem generation_failure_propagates (self : AIAgent LLM) (q : string)
  (verbose : bool) (e : exn) (l' : LLM) :
  1 <= max_iterations self ->
  llm_invoke (llm self) (first_prompt (system_prompt self) q) = (Raise e, l') ->
  execute_query py_str json_loads json_dumps llm_invoke q verbose self
  = Some (Raise e,
          {| agent_name := agent_name self; max_iterations := max_iterations self;
             llm := l'; tool_registry := tool_registry self;
             state := GENERATING;
             conversation_history := [user_message q];
             current_trace := Some (plain_trace q "pending");
             system_prompt := system_prompt self |}).
Proof.
  intros Hmax Hllm. rewrite execute_query_unfold.
  destruct (Z.to_nat (max_iterations self)) as [| fuel] eqn:Hfuel; [lia |].
  rewrite agent_loop_first_turn by (cbn; lia).
  rewrite (iteration_body_llm_raises py_str json_loads json_dumps LLM llm_invoke
             (reset_for self q) 1 e l')
    by (rewrite format_reset; exact Hllm).
  reflexivity.
Qed.

End AgentOutcomes.

Lemma execute_query_outcome_shape_witness :
  option_map fst
    (execute_query plain_str json_decode plain_dumps (constant_llm "")
       "What is 2 + 2?" false (demo_agent 10))
  = Some (Ok {| out_query := "What is 2 + 2?";
                response := "Failed to generate response";
                trace := plain_trace "What is 2 + 2?" "error";
                iterations := 1;
                out_success := true |})
  /\ exists out s,
       execute_query plain_str json_decode plain_dumps (constant_llm "")
         "What is 2 + 2?" false (demo_agent 10) = Some (Ok out, s)
       /\ out_query out = "What is 2 + 2?"
       /\ trace out = plain_trace "What is 2 + 2?" (status (trace out)).
Proof.
  split; [reflexivity |].
  destruct (execute_query plain_str json_decode plain_dumps (constant_llm "")
              "What is 2 + 2?" false (demo_agent 10)) as [[[out | e] s] |] eqn:E;
    try (vm_compute in E; discriminate).
  exists out, s. split; [reflexivity |].
  destruct (execute_query_outcome_shape plain_str json_decode plain_dumps unit
              (constant_llm "") (demo_agent 10) "What is 2 + 2?" false out s E)
    as [H1 [H2 _]].
  split; assumption.
Defined.

Lemma generation_failure_propagates_witness :
  (1 <= max_iterations (demo_agent 10)
   /\ failing_llm (llm (demo_agent 10))
        (first_prompt (system_prompt (demo_agent 10)) "What is 2 + 2?")
      = (Raise (Exn LibraryError "connection error"), tt))
  /\ option_map fst
       (execute_query plain_str json_decode plain_dumps failing_llm
          "What is 2 + 2?" false (demo_agent 10))
     = Some (Raise (Exn LibraryError "connection error")).
Proof.
  assert (H1 : 1 <= max_iterations (demo_agent 10)) by (cbn; lia).
  assert (H2 : failing_llm (llm (demo_agent 10))
                 (first_prompt (system_prompt (demo_agent 10)) "What is 2 + 2?")
               = (Raise (Exn LibraryError "connection error"), tt)) by reflexivity.
  split; [split; assumption |].
  rewrite (generation_failure_propagates plain_str json_decode plain_dumps unit
             failing_llm (demo_agent 10) "What is 2 + 2?" false _ tt H1 H2).
  reflexivity.
Defined.

(** ** The system prompt *)

Lemma prefix_append (a b : string) : String.prefix a (a ++ b) = true.
Proof.
  induction a as [| c a IH]; cbn.
  - destruct b; reflexivity.
  - destruct (Ascii.ascii_dec c c); [exact IH | contradiction].
Qed.

Lemma prefix_append_r (sub s b : string) :
  String.prefix sub s = true -> String.prefix sub (s ++ b) = true.
Proof.
  revert s. induction sub as [| c sub IH]; intros s H.
  - destruct (s ++ b); reflexivity.
  - destruct s as [| d s]; cbn in *; [discriminate |].
    destruct (Ascii.ascii_dec c d); [apply IH; exact H | discriminate].
Qed.

Lemma contains_prefix (sub s : string) :
  String.prefix sub s = true -> contains sub s = true.
Proof. intros H. destruct s; cbn [contains]; rewrite H; reflexivity. Qed.

Lemma contains_append_l (sub a s : string) :
  contains sub s = true -> contains sub (a ++ s) = true.
Proof.
  intros H. induction a as [| c a IH]; cbn [append]; [exact H |].
  cbn [contains]. rewrite IH. apply orb_true_r.
Qed.

Lemma contains_append_r (sub s b : string) :
  contains sub s = true -> contains sub (s ++ b) = true.
Proof.
  induction s as [| c s IH]; intros H.
  - cbn [contains] in H. rewrite orb_false_r in H.
    apply contains_prefix. apply (prefix_append_r sub "" b H).
  - cbn [contains] in H. apply orb_prop in H.
    cbn [append contains]. destruct H as [H | H].
    + pose proof (prefix_append_r sub (String c s) b H) as Hp.
      cbn [append] in Hp. rewrite Hp. reflexivity.
    + rewrite (IH H). apply orb_true_r.
Qed.

Lemma contains_join (sep x : string) (l : list string) :
  In x l -> contains x (py_join sep l) = true.
Proof.
  unfold py_join. induction l as [| y l IH]; intros H; [destruct H |].
  destruct l as [| z l'].
  - destruct H as [<- | []]. cbn [concat].
    apply contains_prefix. rewrite <- (append_empty_r y) at 2. apply prefix_append.
  - change (concat sep (y :: z :: l')) with (y ++ sep ++ concat sep (z :: l')).
    destruct H as [<- | H].
    + apply contains_prefix, prefix_append.
    + apply contains_append_l, contains_append_l, IH, H.
Qed.

Lemma dict_get_In {V : Type} (k : string) (v : V) (d : list (string * V)) :
  dict_get k d = Some v -> In (k, v) d.
Proof.
  induction d as [| [k' v'] d IH]; cbn [dict_get]; [discriminate |].
  destruct (String.eqb_spec k k') as [-> | Hne].
  - intros H. injection H as ->. left. reflexivity.
  - intros H. right. exact (IH H).
Qed.

(** The system prompt built by the constructor of the agent names
    every tool of the registry: it holds the line of the tool, with its
    name and its description. *)
Theorem system_prompt_lists_tools (LLM : Type) (nm : string) (model : LLM)
  (registry : ToolRegistry) (max_iter : Z) (tool_name : string) (tool : Tool) :
  dict_get tool_name (tools registry) = Some tool ->
  contains ("- " ++ tool_name ++ ": " ++ description tool)
    (system_prompt (AIAgent_init nm model registry max_iter)) = true.
Proof.
  intros H. cbn [system_prompt AIAgent_init]. unfold _build_system_prompt.
  do 7 apply contains_append_l. apply contains_append_r.
  unfold get_tool_descriptions. apply contains_join.
  apply (in_map (fun '(n, t) => "- " ++ n ++ ": " ++ description t)
                (tools registry) (tool_name, tool)).
  apply dict_get_In. exact H.
Qed.

Lemma system_prompt_lists_tools_witness :
  dict_get "calculator" (tools demo_registry) = Some (CalculatorTool literal_eval)
  /\ contains "- calculator: Perform mathematical calculations"
       (system_prompt (demo_agent 10)) = true.
Proof.
  assert (H : dict_get "calculator" (tools demo_registry)
              = Some (CalculatorTool literal_eval)) by reflexivity.
  split; [exact H |].
  exact (system_prompt_lists_tools unit "GenAI Agent" tt demo_registry 10
           "calculator" (CalculatorTool literal_eval) H).
Defined.

(** ** Loader and pipeline *)

(** Whatever goes wrong in [load_document], the caller sees a
    [ValueError]: an unsupported suffix is one, and every exception of
    a reader is raised again as one. *)
Theorem load_document_raises_value_error (path_suffix : string -> string)
  (read_text_file read_pdf read_docx : string -> result string)
  (file_path : string) (e : exn) :
  load_document path_suffix read_text_file read_pdf read_docx file_path = Raise e ->
  exists msg, e = Exn ValueError msg.
Proof.
  unfold load_document, load_text_file, load_pdf, load_docx, reraise_value_error.
  destruct (String.eqb _ ".txt");
    [| destruct (String.eqb _ ".pdf"); [| destruct (String.eqb _ ".docx")]].
  - destruct (read_text_file file_path); [discriminate |].
    intros H. injection H as <-. eauto.
  - destruct (read_pdf file_path); [discriminate |].
    intros H. injection H as <-. eauto.
  - destruct (read_docx file_path); [discriminate |].
    intros H. injection H as <-. eauto.
  - intros H. injection H as <-. eauto.
Qed.

Lemma load_document_raises_value_error_witness :
  load_document suffix_from_last_dot no_file no_file no_file "notes.TXT"
  = Raise (Exn ValueError "Error loading text file: No such file or directory")
  /\ exists msg,
       Exn ValueError "Error loading text file: No such file or directory"
       = Exn ValueError msg.
Proof.
  assert (H : load_document suffix_from_last_dot no_file no_file no_file "notes.TXT"
              = Raise (Exn ValueError
                         "Error loading text file: No such file or directory"))
    by reflexivity.
  split; [exact H |].
  exact (load_document_raises_value_error suffix_from_last_dot no_file no_file no_file
           "notes.TXT" _ H).
Defined.

Lemma dict_set_nonempty {V : Type} (k : string) (v : V) (d : list (string * V)) :
  dict_set k v d <> [].
Proof.
  destruct d as [| [k' v'] d]; cbn [dict_set]; [discriminate |].
  destruct (String.eqb k k'); discriminate.
Qed.

Lemma chunk_text_metadata (self : DocumentChunker) (text : string) (merged : pydict) :
  merged <> [] ->
  map metadata (chunk_text self text (PDict merged))
  = map (fun _ => PDict merged) (chunk_text self text (PDict merged)).
Proof.
  intros Hne. unfold chunk_text. rewrite !map_map. apply map_ext.
  intros [i c]. cbn. unfold py_or. destruct merged; [contradiction | reflexivity].
Qed.

Lemma rmap_chunk_contents (chunks : list Chunk) :
  rmap (fun doc => dict_getitem doc "content") (map chunk_dict chunks)
  = Ok (map (fun c => PStr (content c)) chunks).
Proof.
  induction chunks as [| c chunks IH]; [reflexivity |].
  cbn [map rmap]. change (dict_getitem (chunk_dict c) "content") with (Ok (PStr (content c))).
  cbn [rbind]. rewrite IH. reflexivity.
Qed.

(** A call of [ingest_document] that succeeds has loaded the file,
    cut the text into chunks whose metadata is the metadata of the
    caller with [source] set to the path (a [source] of the caller is
    replaced), embedded the contents of the chunks, and handed the
    collection one row per chunk: the id by position, the content, and
    that metadata. It returns the number of chunks. *)
Theorem ingest_document_rows (path_suffix : string -> string)
  (read_text_file read_pdf read_docx : string -> result string)
  (Collection : Type)
  (collection_add : Collection -> list string -> list vector -> list pyval ->
                    list pyval -> result Collection)
  (encode : list string -> result (list vector))
  (self : RAGPipeline Collection) (file_path : string) (meta : pyval)
  (n : Z) (after : RAGPipeline Collection) :
  ingest_document path_suffix read_text_file read_pdf read_docx collection_add encode
    self file_path meta = Ok (n, after) ->
  exists text base embeddings,
    load_document path_suffix read_text_file read_pdf read_docx file_path = Ok text
    /\ py_or meta (PDict []) = PDict base
    /\ dict_get "source" (dict_set "source" (PStr file_path) base) = Some (PStr file_path)
    /\ encode (map content
                 (chunk_text (document_chunker self) text
                    (PDict (dict_set "source" (PStr file_path) base))))
       = Ok embeddings
    /\ n = len (chunk_text (document_chunker self) text
                  (PDict (dict_set "source" (PStr file_path) base)))
    /\ collection_add (collection (vector_db self))
         (doc_ids (List.length
                     (chunk_text (document_chunker self) text
                        (PDict (dict_set "source" (PStr file_path) base)))))
         embeddings
         (map (fun c => PStr (content c))
            (chunk_text (document_chunker self) text
               (PDict (dict_set "source" (PStr file_path) base))))
         (map (fun _ => PDict (dict_set "source" (PStr file_path) base))
            (chunk_text (document_chunker self) text
               (PDict (dict_set "source" (PStr file_path) base))))
       = Ok (collection (vector_db after)).
Proof.
  unfold ingest_document, ingest_metadata, embed_texts.
  destruct (load_document _ _ _ _ file_path) as [text | e]; cbn [rbind]; [| discriminate].
  destruct (py_or meta (PDict [])) as [| | | | | | base |] eqn:Em;
    cbn [rbind]; try discriminate.
  set (merged := dict_set "source" (PStr file_path) base).
  set (chunks := chunk_text (document_chunker self) text (PDict merged)).
  destruct (encode (map content chunks)) as [embeddings | e] eqn:Ee;
    cbn [rbind]; [| discriminate].
  unfold add_documents.
  destruct (len (map chunk_dict chunks) =? len embeddings); cbn [negb]; [| discriminate].
  rewrite rmap_chunk_contents. cbn [rbind].
  rewrite length_map, map_map.
  change (map (fun x => match dict_get "metadata" (chunk_dict x) with
                        | Some m => m
                        | None => PDict []
                        end) chunks)
    with (map metadata chunks).
  unfold chunks at 3. rewrite (chunk_text_metadata _ _ merged (dict_set_nonempty _ _ _)).
  fold chunks.
  destruct (collection_add _ _ _ _ _) as [c | e] eqn:Ec; cbn [rbind]; [| discriminate].
  intros H. injection H as <- <-. cbn [vector_db collection].
  exists text, base, embeddings.
  split; [reflexivity |]. split; [reflexivity |].
  split; [apply dict_get_set_same |].
  split; [exact Ee |]. split; [reflexivity | exact Ec].
Qed.

Lemma ingest_document_rows_witness :
  returned
    (ingest_document suffix_from_last_dot one_file no_file no_file row_log_add unit_encode
       demo_pipeline "notes.txt" (PDict [("source", PStr "caller"); ("lang", PStr "en")]))
  = Ok 1
  /\ exists text base embeddings,
       load_document suffix_from_last_dot one_file no_file no_file "notes.txt" = Ok text
       /\ py_or (PDict [("source", PStr "caller"); ("lang", PStr "en")]) (PDict [])
          = PDict base
       /\ dict_get "source" (dict_set "source" (PStr "notes.txt") base)
          = Some (PStr "notes.txt")
       /\ unit_encode (map content
                         (chunk_text default_chunker text
                            (PDict (dict_set "source" (PStr "notes.txt") base))))
          = Ok embeddings.
Proof.
  split; [reflexivity |].
  destruct (ingest_document suffix_from_last_dot one_file no_file no_file row_log_add
              unit_encode demo_pipeline "notes.txt"
              (PDict [("source", PStr "caller"); ("lang", PStr "en")]))
    as [[n after] | e] eqn:E; [| vm_compute in E; discriminate].
  destruct (ingest_document_rows suffix_from_last_dot one_file no_file no_file
              (list StoredRow) row_log_add unit_encode demo_pipeline "notes.txt" _ n after E)
    as [text [base [embeddings [H1 [H2 [H3 [H4 _]]]]]]].
  exists text, base, embeddings. repeat split; assumption.
Defined.


(** ** Chunking as a whole *)

(** Paragraph boundaries play no part in [chunk_text]: cleaning turns
    every newline into a space before the paragraph split, so the
    contents of the passages are the word windows of the whole cleaned
    text (one chunk when it has at most [chunk_size] words). *)
Theorem chunk_text_ignores_paragraphs (self : DocumentChunker) (text : string)
  (meta : pyval) :
  map content (chunk_text self text meta)
  = if str_nonempty (_clean_text text) || (0 <? chunk_size self)
    then size_split_chunk self (_clean_text text)
    else [].
Proof.
  rewrite chunk_text_contents, semantic_split_clean.
  destruct (str_nonempty (_clean_text text) || (0 <? chunk_size self)); [| reflexivity].
  unfold _size_split. cbn [flat_map]. apply app_nil_r.
Qed.

Lemma window_words_full (self : DocumentChunker) (words : list string) :
  forall cur : list string,
    len cur < chunk_size self ->
    (forall c : list string, len c = chunk_size self ->
               len (list_slice_from (- chunk_overlap self) c) < chunk_size self) ->
    Forall (fun w : list string => len w = chunk_size self)
           (removelast (window_words self cur words)).
Proof.
  induction words as [| w ws IH]; intros cur Hcur Hkeep; cbn [window_words].
  - destruct cur; constructor.
  - destruct (chunk_size self <=? len (cur ++ [w])%list) eqn:E.
    + apply Z.leb_le in E.
      assert (Hc : len (cur ++ [w])%list = chunk_size self).
      { rewrite len_app in *. change (len [w]) with 1 in *. lia. }
      specialize (IH (list_slice_from (- chunk_overlap self) (cur ++ [w])%list)
                     (Hkeep _ Hc) Hkeep).
      destruct (window_words self
                  (list_slice_from (- chunk_overlap self) (cur ++ [w])%list) ws)
        as [| x rest] eqn:Ew.
      * constructor.
      * change (removelast ((cur ++ [w])%list :: x :: rest))
          with ((cur ++ [w])%list :: removelast (x :: rest)).
        constructor; [exact Hc | exact IH].
    + apply Z.leb_gt in E. apply IH; assumption.
Qed.

Lemma removelast_map {A B : Type} (f : A -> B) (l : list A) :
  removelast (map f l) = map f (removelast l).
Proof.
  induction l as [| a [| b t] IH]; [reflexivity | reflexivity |].
  change (removelast (map f (a :: b :: t))) with (f a :: removelast (map f (b :: t))).
  rewrite IH. reflexivity.
Qed.

Lemma Forall_removelast {A : Type} (P : A -> Prop) (l : list A) :
  Forall P l -> Forall P (removelast l).
Proof.
  induction l as [| a [| b t] IH]; intros H; [constructor | constructor |].
  inversion H as [| a' l' Ha Ht]; subst.
  change (removelast (a :: b :: t)) with (a :: removelast (b :: t)).
  constructor; [exact Ha | exact (IH Ht)].
Qed.

(** With a usable overlap, every passage of [chunk_text] but the
    last has exactly [chunk_size] tokens. *)
Theorem chunk_text_full_windows (self : DocumentChunker) (text : string)
  (meta : pyval) :
  1 <= chunk_size self ->
  chunk_overlap self <> 0 ->
  chunk_overlap self < chunk_size self ->
  Forall (fun c => len (py_split c) = chunk_size self)
         (removelast (map content (chunk_text self text meta))).
Proof.
  intros Hs Hz Ho. rewrite chunk_text_contents, semantic_split_clean.
  replace (0 <? chunk_size self) with true by (symmetry; apply Z.ltb_lt; lia).
  rewrite orb_true_r. unfold _size_split. cbn [flat_map]. rewrite app_nil_r.
  destruct (Z_lt_le_dec (chunk_size self) (len (py_split (_clean_text text))))
    as [Hlong | Hshort].
  - rewrite size_split_chunk_windows by exact Hlong.
    rewrite removelast_map.
    assert (Hfull : Forall (fun w : list string => len w = chunk_size self)
              (removelast (window_words self [] (py_split (_clean_text text))))).
    { apply window_words_full.
      - change (len (@nil string)) with 0. lia.
      - intros c Hc. apply kept_window_short; lia. }
    assert (Hok : Forall (Forall (fun w => word_ok w = true))
                    (removelast (window_words self [] (py_split (_clean_text text))))).
    { apply Forall_removelast, window_words_ok; [apply py_split_words | constructor]. }
    revert Hfull Hok.
    generalize (removelast (window_words self [] (py_split (_clean_text text)))).
    intros l Hfull Hok. induction l as [| a l IH]; [constructor |].
    inversion Hfull; inversion Hok; subst.
    cbn [map]. constructor; [rewrite py_split_join by assumption; assumption | auto].
  - unfold size_split_chunk.
    replace (len (py_split (_clean_text text)) <=? chunk_size self) with true
      by (symmetry; apply Z.leb_le; exact Hshort).
    constructor.
Qed.

Lemma chunk_text_full_windows_witness :
  1 <= chunk_size (DocumentChunker_init 2 1)
  /\ chunk_overlap (DocumentChunker_init 2 1) <> 0
  /\ chunk_overlap (DocumentChunker_init 2 1) < chunk_size (DocumentChunker_init 2 1)
  /\ Forall (fun c => len (py_split c) = chunk_size (DocumentChunker_init 2 1))
       (removelast (map content (chunk_text (DocumentChunker_init 2 1) "a b c" PNone))).
Proof.
  assert (H1 : 1 <= chunk_size (DocumentChunker_init 2 1)) by (cbn; lia).
  assert (H2 : chunk_overlap (DocumentChunker_init 2 1) <> 0) by (cbn; lia).
  assert (H3 : chunk_overlap (DocumentChunker_init 2 1)
               < chunk_size (DocumentChunker_init 2 1)) by (cbn; lia).
  split; [exact H1 | split; [exact H2 | split; [exact H3 |]]].
  exact (chunk_text_full_windows (DocumentChunker_init 2 1) "a b c" PNone H1 H2 H3).
Defined.


Lemma size_split_chunk_nonempty (self : DocumentChunker) (chunk : string) :
  0 <= chunk_size self -> size_split_chunk self chunk <> [].
Proof.
  intros Hs.
  destruct (Z_lt_le_dec (chunk_size self) (len (py_split chunk))) as [Hlong | Hshort].
  - destruct (py_split chunk) as [| w ws] eqn:E.
    + change (len (@nil string)) with 0 in Hlong. lia.
    + destruct (size_split_chunk_keeps_words self chunk w) as [c [Hc _]].
      * rewrite E. left. reflexivity.
      * intros H. rewrite H in Hc. destruct Hc.
  - unfold size_split_chunk.
    replace (len (py_split chunk) <=? chunk_size self) with true
      by (symmetry; apply Z.leb_le; exact Hshort).
    discriminate.
Qed.

Lemma chunk_text_nonempty (self : DocumentChunker) (text : string) (meta : pyval) :
  1 <= chunk_size self -> 1 <= len (chunk_text self text meta).
Proof.
  intros Hs.
  assert (H : map content (chunk_text self text meta) <> []).
  { rewrite chunk_text_contents, semantic_split_clean.
    replace (0 <? chunk_size self) with true by (symmetry; apply Z.ltb_lt; lia).
    rewrite orb_true_r. unfold _size_split. cbn [flat_map]. rewrite app_nil_r.
    apply size_split_chunk_nonempty. lia. }
  destruct (chunk_text self text meta); [contradiction |].
  rewrite len_cons. pose proof (len_nonneg l). lia.
Qed.

(** A call of [ingest_document] that succeeds with a chunker of
    positive [chunk_size] has stored at least one passage, whatever the
    file holds: a file that is empty or blank is stored as one passage
    with empty content. *)
Theorem ingest_document_stores_a_passage (path_suffix : string -> string)
  (read_text_file read_pdf read_docx : string -> result string)
  (Collection : Type)
  (collection_add : Collection -> list string -> list vector -> list pyval ->
                    list pyval -> result Collection)
  (encode : list string -> result (list vector))
  (self : RAGPipeline Collection) (file_path : string) (meta : pyval)
  (n : Z) (after : RAGPipeline Collection) :
  1 <= chunk_size (document_chunker self) ->
  ingest_document path_suffix read_text_file read_pdf read_docx collection_add encode
    self file_path meta = Ok (n, after) ->
  1 <= n.
Proof.
  intros Hs. unfold ingest_document.
  destruct (load_document _ _ _ _ file_path) as [text | e]; cbn [rbind]; [| discriminate].
  destruct (ingest_metadata file_path meta) as [merged | e]; cbn [rbind]; [| discriminate].
  destruct (embed_texts encode _) as [embeddings | e]; cbn [rbind]; [| discriminate].
  destruct (add_documents collection_add _ _ _) as [db | e]; cbn [rbind]; [| discriminate].
  intros H. injection H as <- _. apply chunk_text_nonempty. exact Hs.
Qed.

Lemma ingest_document_stores_a_passage_witness :
  1 <= chunk_size (document_chunker demo_pipeline)
  /\ exists n after,
       ingest_document suffix_from_last_dot empty_file no_file no_file row_log_add
         unit_encode demo_pipeline "empty.txt" PNone = Ok (n, after)
       /\ 1 <= n.
Proof.
  assert (Hs : 1 <= chunk_size (document_chunker demo_pipeline)) by (cbn; lia).
  split; [exact Hs |].
  destruct (ingest_document suffix_from_last_dot empty_file no_file no_file row_log_add
              unit_encode demo_pipeline "empty.txt" PNone)
    as [[n after] | e] eqn:E; [| vm_compute in E; discriminate].
  exists n, after. split; [reflexivity |].
  exact (ingest_document_stores_a_passage suffix_from_last_dot empty_file no_file no_file
           (list StoredRow) row_log_add unit_encode demo_pipeline "empty.txt" PNone
           n after Hs E).
Defined.

(** ** [VectorDatabase.search] on an answer without distances *)

Lemma search_rows_default (r : QueryResult) :
  falsy (distances r) -> falsy (metadatas r) ->
  forall (docs : list pyval) (i : Z),
    rmap (search_row r) (enumerate_from i docs)
    = Ok (map (fun doc => result_row (doc, (0%float, PDict []))) docs).
Proof.
  intros Hd Hm. induction docs as [| doc docs IH]; intros i; [reflexivity |].
  cbn [enumerate_from rmap map].
  assert (Hrow : search_row r (i, doc) = Ok (result_row (doc, (0%float, PDict [])))).
  { unfold search_row. destruct Hd as [-> | ->], Hm as [-> | ->]; reflexivity. }
  rewrite Hrow. cbn [rbind]. rewrite IH. reflexivity.
Qed.

(** When the answer of the collection carries documents but no
    distances and no metadata, [search] gives every document the score
    [0.0] and an empty metadata dictionary. *)
Theorem search_without_distances (Collection : Type)
  (collection_query : Collection -> list vector -> Z -> result QueryResult)
  (self : VectorDatabase Collection) (v : vector) (top_k : Z) (r : QueryResult)
  (docs : list pyval) (restdocs : list (list pyval)) :
  collection_query (collection self) [v] top_k = Ok r ->
  documents r = Some (docs :: restdocs) ->
  falsy (distances r) -> falsy (metadatas r) ->
  search collection_query self v top_k
  = Ok (map (fun doc => result_row (doc, (0%float, PDict []))) docs).
Proof.
  intros Hq Hdocs Hd Hm. unfold search. rewrite Hq. cbn [rbind]. rewrite Hdocs.
  destruct docs as [| doc docs']; [reflexivity |].
  apply search_rows_default; assumption.
Qed.

Lemma search_without_distances_witness :
  search bare_query {| db_path := "db"; collection_name := "documents"; collection := tt |}
    [] 5
  = Ok [PDict [("content", PStr "Hello world"); ("score", PFloat 0%float);
               ("metadata", PDict [])];
        PDict [("content", PStr "Hello universe"); ("score", PFloat 0%float);
               ("metadata", PDict [])]].
Proof.
  exact (search_without_distances unit bare_query
           {| db_path := "db"; collection_name := "documents"; collection := tt |}
           [] 5 _ _ [] eq_refl eq_refl (or_introl eq_refl) (or_intror eq_refl)).
Defined.

(** ** [RAGPipeline.query] from end to end *)

Lemma context_blocks (py_str : pyval -> string) :
  forall (docs : list pyval) (d : list float) (mds : list pydict),
    List.length d = List.length docs ->
    List.length mds = List.length docs ->
    rmap (context_block py_str)
      (map result_row (combine docs (combine d (map PDict mds))))
    = Ok (map (source_block py_str) (combine docs mds)).
Proof.
  induction docs as [| doc docs IH]; intros d mds Hd Hm; [reflexivity |].
  destruct d as [| s d]; [discriminate |]. destruct mds as [| md mds]; [discriminate |].
  cbn [map combine rmap].
  assert (Hb : context_block py_str (result_row (doc, (s, PDict md)))
               = Ok (source_block py_str (doc, md))).
  { reflexivity. }
  rewrite Hb. cbn [rbind]. rewrite IH by (cbn in Hd, Hm; lia). reflexivity.
Qed.

(** [query] from end to end. When the encoder gives a vector for the
    question, the collection answers with documents, distances and
    metadata dictionaries of equal number, and the model answers, then
    the context handed to the model has one block per document, in the
    order of the collection, each with its source in brackets
    ([Unknown] when the metadata names none) above the passage, blocks
    separated by an empty line; the result carries the question, the
    text of the model, the rows of [search] and that context. *)
Theorem rag_query_answer (py_str : pyval -> string) (Collection : Type)
  (collection_query : Collection -> list vector -> Z -> result QueryResult)
  (encode : list string -> result (list vector))
  (LLM : Type) (llm_invoke : LLM -> string -> result string * LLM)
  (self : RAGPipeline Collection) (model model' : LLM) (q : string) (top_k : Z)
  (v : vector) (vs : list vector) (r : QueryResult)
  (docs : list pyval) (d : list float) (mds : list pydict)
  (restdocs : list (list pyval)) (restd : list (list float))
  (restm : list (list pyval)) (answer : string) :
  encode [q] = Ok (v :: vs) ->
  collection_query (collection (vector_db self)) [v] top_k = Ok r ->
  documents r = Some (docs :: restdocs) ->
  distances r = Some (d :: restd) ->
  metadatas r = Some (map PDict mds :: restm) ->
  List.length d = List.length docs ->
  List.length mds = List.length docs ->
  llm_invoke model
    (rag_prompt_format
       (py_join (nl ++ nl) (map (source_block py_str) (combine docs mds))) q)
  = (Ok answer, model') ->
  rag_query py_str collection_query encode llm_invoke self model q top_k
  = (Ok {| qa_question := q;
           qa_answer := answer;
           retrieved_documents :=
             map result_row (combine docs (combine d (map PDict mds)));
           qa_context :=
             py_join (nl ++ nl) (map (source_block py_str) (combine docs mds)) |},
     model').
Proof.
  intros He Hq Hdocs Hd Hm Hld Hlm Hllm.
  assert (Hr : retrieve collection_query encode self q top_k
               = Ok (map result_row (combine docs (combine d (map PDict mds))))).
  { unfold retrieve, embed_single, embed_texts. rewrite He. cbn [rbind].
    change (list_index (v :: vs) 0) with (@Ok vector v). cbn [rbind].
    unfold search. rewrite Hq. cbn [rbind]. rewrite Hdocs.
    destruct docs as [| doc docs'].
    - reflexivity.
    - unfold enumerate.
      refine (search_rows_from r d (map PDict mds) restd restm Hd Hm (doc :: docs')
                [] d [] (map PDict mds) eq_refl eq_refl eq_refl Hld _).
      rewrite length_map. exact Hlm. }
  unfold rag_query. rewrite Hr, (context_blocks py_str docs d mds Hld Hlm).
  unfold generate_answer. rewrite Hllm. reflexivity.
Qed.

Lemma rag_query_answer_witness :
  rag_query plain_str two_document_query unit_encode (constant_llm "Hello.")
    {| vector_db := {| db_path := "db"; collection_name := "documents"; collection := tt |};
       document_chunker := default_chunker |}
    tt "Which greeting?" 2
  = (Ok {| qa_question := "Which greeting?";
           qa_answer := "Hello.";
           retrieved_documents :=
             [PDict [("content", PStr "Hello world"); ("score", PFloat 0%float);
                     ("metadata", PDict [("source", PStr "test")])];
              PDict [("content", PStr "Hello universe"); ("score", PFloat 1%float);
                     ("metadata", PDict [("source", PStr "test")])]];
           qa_context := "[test]" ++ nl ++ "Hello world" ++ nl ++ nl
                         ++ "[test]" ++ nl ++ "Hello universe" |},
     tt).
Proof.
  exact (rag_query_answer plain_str unit two_document_query unit_encode unit
           (constant_llm "Hello.")
           {| vector_db := {| db_path := "db"; collection_name := "documents";
                              collection := tt |};
              document_chunker := default_chunker |}
           tt tt "Which greeting?" 2 _ _ _
           [PStr "Hello world"; PStr "Hello universe"] [0%float; 1%float]
           [[("source", PStr "test")]; [("source", PStr "test")]]
           [] [] [] "Hello."
           eq_refl eq_refl eq_refl eq_refl eq_refl eq_refl eq_refl eq_refl).
Defined.


(** ** [_parse_tool_call] and the text around the object *)


Lemma str_len_cons (c : ascii) (s : string) : str_len (String c s) = 1 + str_len s.
Proof. unfold str_len. cbn [String.length]. lia. Qed.

Lemma str_len_nonneg (s : string) : 0 <= str_len s.
Proof. unfold str_len. lia. Qed.

Lemma str_len_append (a b : string) : str_len (a ++ b) = str_len a + str_len b.
Proof.
  induction a as [| c a IH]; [reflexivity |].
  cbn [append]. rewrite !str_len_cons, IH. lia.
Qed.

Lemma prefix_char (c x : ascii) (s : string) :
  String.prefix (String c "") (String x s) = Ascii.eqb x c.
Proof.
  cbn. destruct (Ascii.ascii_dec c x) as [<- | Hne].
  - rewrite Ascii.eqb_refl. destruct s; reflexivity.
  - symmetry. apply Ascii.eqb_neq. congruence.
Qed.

Lemma find_from_first (c : ascii) (rest : string) :
  forall (pre : string) (i : Z),
    lacks c pre = true ->
    find_from (String c "") (pre ++ String c rest) i = i + str_len pre.
Proof.
  induction pre as [| x pre IH]; intros i H.
  - cbn [append find_from]. rewrite prefix_char, Ascii.eqb_refl.
    change (str_len "") with 0. lia.
  - cbn [lacks str_forall] in H. unfold lacks in H. cbn [str_forall] in H.
    apply andb_prop in H. destruct H as [Hx Hpre].
    cbn [append find_from]. rewrite prefix_char.
    apply negb_true_iff in Hx. rewrite Hx, IH by exact Hpre.
    rewrite str_len_cons. lia.
Qed.

Lemma rfind_from_absent (c : ascii) :
  forall (s : string) (i : Z),
    lacks c s = true -> rfind_from (String c "") s i = -1.
Proof.
  induction s as [| x s IH]; intros i H; [reflexivity |].
  unfold lacks in H. cbn [str_forall] in H.
  apply andb_prop in H. destruct H as [Hx Hs]. apply negb_true_iff in Hx.
  cbn [rfind_from]. rewrite (IH (i + 1) Hs), prefix_char, Hx. reflexivity.
Qed.

Lemma rfind_from_last (c : ascii) (post : string) :
  lacks c post = true ->
  forall (a : string) (i : Z),
    0 <= i ->
    rfind_from (String c "") (a ++ String c post) i = i + str_len a.
Proof.
  intros Hpost. induction a as [| x a IH]; intros i Hi.
  - cbn [append rfind_from]. rewrite (rfind_from_absent c post (i + 1) Hpost).
    rewrite prefix_char, Ascii.eqb_refl. change (str_len "") with 0.
    cbn. lia.
  - cbn [append rfind_from]. rewrite (IH (i + 1)) by lia.
    pose proof (str_len_nonneg a).
    replace (0 <=? i + 1 + str_len a) with true by (symmetry; apply Z.leb_le; lia).
    rewrite str_len_cons. lia.
Qed.

Lemma substring_head (mid post : string) :
  String.substring 0 (String.length mid) (mid ++ post) = mid.
Proof.
  induction mid as [| c mid IH]; cbn [append String.length String.substring].
  - destruct post; reflexivity.
  - rewrite IH. reflexivity.
Qed.

Lemma substring_middle (pre mid post : string) :
  String.substring (String.length pre) (String.length mid) (pre ++ mid ++ post) = mid.
Proof.
  induction pre as [| c pre IH]; cbn [append String.length String.substring].
  - apply substring_head.
  - exact IH.
Qed.

Lemma str_slice_middle (pre mid post : string) :
  str_slice (pre ++ mid ++ post) (str_len pre) (str_len pre + str_len mid) = mid.
Proof.
  unfold str_slice, clamp_index. rewrite !str_len_append.
  pose proof (str_len_nonneg pre). pose proof (str_len_nonneg mid).
  pose proof (str_len_nonneg post).
  replace (str_len pre <? 0) with false by (symmetry; apply Z.ltb_ge; lia).
  replace (str_len pre + str_len mid <? 0) with false by (symmetry; apply Z.ltb_ge; lia).
  rewrite !Z.min_l by lia.
  replace (str_len pre + str_len mid - str_len pre) with (str_len mid) by lia.
  unfold str_len. rewrite !Nat2Z.id. apply substring_middle.
Qed.

Lemma append_assoc_r (a b c : string) : (a ++ b) ++ c = a ++ b ++ c.
Proof. induction a as [| x a IH]; cbn [append]; [reflexivity | now rewrite IH]. Qed.

Lemma tool_call_slice_object (pre body post : string) :
  lacks "{"%char pre = true ->
  lacks "}"%char post = true ->
  tool_call_slice (pre ++ "{" ++ body ++ "}" ++ post) = "{" ++ body ++ "}".
Proof.
  intros Hpre Hpost. unfold tool_call_slice, py_find, py_rfind.
  change ("{" ++ body ++ "}" ++ post) with (String "{"%char (body ++ String "}"%char post)).
  rewrite (find_from_first "{"%char _ pre 0 Hpre).
  replace (pre ++ String "{"%char (body ++ String "}"%char post))
    with ((pre ++ String "{"%char body) ++ String "}"%char post)
    by (rewrite append_assoc_r; reflexivity).
  rewrite (rfind_from_last "}"%char post Hpost (pre ++ String "{"%char body) 0) by lia.
  replace ((pre ++ String "{"%char body) ++ String "}"%char post)
    with (pre ++ ("{" ++ body ++ "}") ++ post).
  - replace (0 + str_len (pre ++ String "{"%char body) + 1)
      with (str_len pre + str_len ("{" ++ body ++ "}")).
    + rewrite Z.add_0_l. apply str_slice_middle.
    + change ("{" ++ body ++ "}") with (String "{"%char (body ++ "}")).
      rewrite !str_len_append, !str_len_cons, str_len_append.
      change (str_len "}") with 1. lia.
  - rewrite !append_assoc_r. reflexivity.
Qed.

(** [_parse_tool_call] reads the text from the first opening brace to
    the last closing brace and nothing else: when the response is some
    text without an opening brace, then a brace-delimited object, then
    some text without a closing brace, and the word [tool] occurs in
    it, the result is what [json.loads] makes of the object alone
    ([None] when it rejects it). *)
Theorem parse_tool_call_ignores_prose (json_loads : string -> option pyval)
  (pre body post : string) :
  lacks "{"%char pre = true ->
  lacks "}"%char post = true ->
  contains "tool" (pre ++ "{" ++ body ++ "}" ++ post) = true ->
  _parse_tool_call json_loads (pre ++ "{" ++ body ++ "}" ++ post)
  = match json_loads ("{" ++ body ++ "}") with
    | Some v => v
    | None => PNone
    end.
Proof.
  intros Hpre Hpost Htool. unfold _parse_tool_call.
  assert (Hbrace : contains "{" (pre ++ "{" ++ body ++ "}" ++ post) = true).
  { apply contains_append_l, contains_prefix, prefix_append. }
  rewrite Hbrace, Htool. cbn [andb].
  fold (tool_call_slice (pre ++ "{" ++ body ++ "}" ++ post)).
  rewrite (tool_call_slice_object pre body post Hpre Hpost). reflexivity.
Qed.

Lemma parse_tool_call_ignores_prose_witness :
  lacks "{"%char "I will add the numbers. " = true
  /\ lacks "}"%char " I hope this helps." = true
  /\ contains "tool"
       ("I will add the numbers. " ++ "{" ++ json_text "'tool': 'calculator'" ++ "}"
        ++ " I hope this helps.") = true
  /\ _parse_tool_call json_decode
       ("I will add the numbers. " ++ "{" ++ json_text "'tool': 'calculator'" ++ "}"
        ++ " I hope this helps.")
     = PDict [("tool", PStr "calculator")].
Proof.
  assert (H1 : lacks "{"%char "I will add the numbers. " = true) by reflexivity.
  assert (H2 : lacks "}"%char " I hope this helps." = true) by reflexivity.
  assert (H3 : contains "tool"
                 ("I will add the numbers. " ++ "{" ++ json_text "'tool': 'calculator'"
                  ++ "}" ++ " I hope this helps.") = true) by reflexivity.
  split; [exact H1 | split; [exact H2 | split; [exact H3 |]]].
  exact (parse_tool_call_ignores_prose json_decode "I will add the numbers. "
           (json_text "'tool': 'calculator'") " I hope this helps." H1 H2 H3).
Defined.
